(* ===== verification/_CoqProject ===== *)
-Q . S2P
Prelude.v
PyValue.v
Json.v
JsonRoundtrip.v
UpdateExpr.v
Dynamo.v
CreateUser.v
DeleteUser.v
UpdateUser.v
SlackAlert.v
Api.v
Concurrency.v
ModuleInit.v
BadEvents.v
KeyLimit.v
Races.v
