(* ===== verification/Prelude.v ===== *)
(** * A verification development of serverless-user-api

    The repository is four AWS Lambda handlers written in Python
    (src/lambda/):
    - [create_user.py]  reads a JSON body and writes it to a DynamoDB
      table with [table.put_item(Item=body)];
    - [update_user.py]  reads an id from the path and a JSON body, builds
      the string ["SET k1 = :k1, k2 = :k2"] and a placeholder dict, and
      calls [table.update_item];
    - [delete_user.py]  reads an id from the path and calls
      [table.delete_item];
    - [slack_alert.py]  walks the SNS records of an event, parses each
      alarm message, formats a three-line text and POSTs it as JSON to a
      Slack webhook with urllib3.
    The handlers share no state with each other; they meet only in the
    DynamoDB table (the three user handlers) and in the Python runtime
    they run on (exceptions, [json], [str]).

    The development is a shallow embedding, one file per part:
    - [Prelude] (this file): Python strings as lists of code points
      ([pystr]), the Python exceptions the handlers can raise ([exn]),
      and the state-and-exception monad [PyM] every handler runs in: an
      exception keeps the effects done before it, as in Python.
    - [PyValue]: the Python values a parsed JSON document and a Lambda
      event are made of ([pyval]: [None], [bool], [int], [float], [str],
      [list], [dict] as an association list in insertion order), and the
      operations the handlers apply to them: [v[k]] ([getitem]),
      [v.get(k)] ([get]), [v.items()], iteration, [d[k] = x]
      ([dict_set]) and [str(v)] ([py_str]) as f-strings use it.
    - [Json]: [json.dumps] ([json_dumps], CPython's ASCII encoder),
      [json.loads] ([json_loads], CPython's C scanner, on fuel
      [S (length s)]: each recursive call consumes a character) and
      [str.encode('utf-8')] ([encode_utf8]); [api_response] is the
      [{'statusCode': c, 'body': json.dumps({'message': m})}] dict the
      user handlers return.
    - [JsonRoundtrip]: [json_loads_dumps], the scanner reads back what
      the encoder writes ([json.loads(json.dumps(v)) == v]) for the
      values without a float, a surrogate code point or a repeated key
      ([json_value]), with the fuel bound [jsize].
    - [UpdateExpr]: what DynamoDB does with an [UpdateExpression]: a
      lexer ([lex], fuel [S (length s)]), a parser of the [SET] fragment
      ([parse_update]) and the reserved-word list ([is_reserved]).
    - [Dynamo]: boto3's type serializer ([serialize], [deserialize]);
      DynamoDB's key limits ([key_ok]: 1 to 2048 bytes in UTF-8,
      counted with [Json.utf8_char]); the interface [Table] (the service operations [svc_put_item],
      [svc_delete_item], [svc_update_item], [table_get]) with its
      contract [TableLaws]; the boto3 calls [put_item], [delete_item],
      [update_item], [get_item] in [PyM T] over any [Table T]; and [ddb],
      a model of the service on a [gmap], with [ddb_laws] : the model
      meets the contract.
    - [CreateUser], [DeleteUser], [UpdateUser]: the three
      [lambda_handler]s, each a [PyM T] program over any [Table T],
      written line by line after the source, and each module's
      [module_init] (lines 5-6: [os.environ['TABLE_NAME']]).  The
      definitions that translate a Python module sit in a Rocq [Module]
      of the same name ([create_user], [update_user], [delete_user],
      [slack_alert]), so [create_user.lambda_handler] is the function
      [lambda_handler] of [create_user.py].  [UpdateUser] also models
      the loop that builds the expression ([build_update]) and
      [str.rstrip].
    - [SlackAlert]: the alarm relay over an explicit network state
      [net]: the log of requests sent and an oracle giving the outcome
      (a response with any status, or a transport error) of the n-th
      request.
    - [Api]: the three user handlers together.  An abstract store of
      records ([store], a [gmap] from ids to field maps), the contract
      of the API as a step relation [spec_step] (create replaces, update
      merges, delete removes) with its traces [spec_trace], the
      implementation as a dispatcher [handle] and a sequence of
      invocations [run_all], and the abstraction [abstracts] from a
      table to a store.
    - [Concurrency]: the three user handlers invoked concurrently on one
      table (spec section 5).  [plan_of] computes from an event alone
      what its handler does (raise, or send one table operation and
      answer a fixed response) and [run_plan] performs it; [cstep] is
      the interleaving semantics of a batch of invocations ([config]:
      the table, each invocation [TReady], [TPlanned] or [TDone], and
      the log of the order in which operations reached the table), and
      [run_schedule] an executable scheduler that drives it.
    - [ModuleInit]: the import of a user module in a Lambda process.
      The account's tables by name ([account]), the handle
      [dynamodb.Table(name)] as the [Table] instance [named_table]
      (a missing table answers [ResourceNotFoundException]), and an
      invocation [invoke]: the module's [module_init], then its handler
      on the table the import bound.
    - [BadEvents]: the events API Gateway sends without a body or path
      parameters, and bodies that are JSON but not objects.
    - [KeyLimit]: the three handlers on an [id] outside the key limits.
    - [Races]: two invocations on one record, interleaved by [cstep]:
      two updates, and an update and a delete.

    What the theorems show (the claim ids are those of the manifest):
    - C1-C4, C10, C13, C16 (each handler against [TableLaws], so for any
      table that meets the contract): a create stores exactly the body's
      fields under its id and leaves every other record as it was; an
      update that DynamoDB accepts merges the body's fields into the
      record (creating it with its [id] when missing); a delete removes
      the record, existing or not, and nothing else, and a second delete
      changes nothing; an update whose body is empty or has a key that
      is reserved, is [id] or is not a DynamoDB name is refused with a
      [ValidationException]; a create without [id] raises [KeyError],
      one with a float raises in boto3, and a create succeeds exactly
      when every number is an integer below [10^38] in absolute value
      (boto3's [decimal] precision).  The central lemmas are
      [parse_update_set] (the string the loop builds, after [rstrip],
      parses to the intended clauses) and [update_valid_handler] (when
      the service accepts it).
    - C5, C8, C9, C12 ([Api]): every sequence of invocations refines
      the abstract store ([run_all_refines], a forward simulation proved
      from one step lemma per handler); an invocation that raises leaves
      the table as it was, on any table; two creates with one id keep
      the second body only; the body of every successful response reads
      back with [json.loads] as the contract's confirmation message.
    - C6, C7, C11, C14, C15 (the relay): with no transport error every
      record is POSTed once, in order, whatever the status codes, each
      POST carrying a JSON body that reads back as [{"text": t}]; a
      transport error, or a message that is not JSON, stops the loop,
      so the later records are never sent; a missing [NewStateReason]
      prints ["Reason: None"], a message that is not an object raises
      [AttributeError].  [payload_printable]
      shows the JSON payload is ASCII, so [.encode('utf-8')] cannot
      fail.  C23: whatever the event and the network's answers, an
      invocation ([invoke_relay]: the import, then the handler) sends
      only [POST]s with the JSON header to the configured URL, proved
      compositionally with the effect predicate [sends_only].
    - C17 ([Concurrency]): every interleaving that finishes its
      invocations is linearizable: the final table and every response
      are those of the sequential run [run_all] in the order the
      operations reached the table, proved by rule induction on [cstep]
      with the invariant [inv], which rests on each handler being its
      plan ([handle_run_plan]: no handler reads the table, each writes
      it at most once).
    - C18-C19 ([Races]): two concurrent updates of one record with
      bodies naming different fields both take effect in every
      interleaving (the update sends a field-level [SET], so none is
      lost); an update racing a delete leaves the record either gone or
      recreated with only its key and the update's fields.
    - C20-C22 ([ModuleInit]): processes sharing one environment run the
      handlers on the table [TABLE_NAME] names, as [run_all] does, and
      leave the other tables alone; a name that is set but names no
      table passes the import and fails every request that reaches
      DynamoDB; an unset name fails the import with [KeyError].
    - C24 ([BadEvents]): on a [null] body or [null] path parameters, or
      a JSON array as body, each handler raises the exception of the
      first Python step that fails, before any request, table unchanged.
    - C25 ([KeyLimit]): an [id] that is empty or longer than 2048 bytes
      in UTF-8 makes each handler raise [ValidationException], table
      unchanged; C1-C3 and C16 therefore assume, or characterise, an
      [id] within the limits.
    Every theorem with hypotheses has a witness that applies it to a
    concrete event on the concrete table [ddb], a concrete account or a
    concrete network.

    Fuel: [json_loads_str s] runs [scan_value] with fuel [S (length s)]
    and [parse_update e] runs [lex] with fuel [S (length e)]; each step
    consumes at least one character.  [lex_fuel] shows any fuel above
    [length e] gives the same tokens; for the scanner, [json_loads_dumps]
    shows the fuel is enough on every text [json_dumps] writes, the
    texts the theorems about responses and payloads read back.

    Not modelled: the Lambda runtime and API Gateway (an event is a
    given [pyval]; concurrency is modelled only as the interleaving of
    whole table operations, each atomic as DynamoDB makes single-item
    writes; the import only as [ModuleInit.invoke]); the region lookup
    of [boto3.resource('dynamodb')] (the runtime always sets
    [AWS_REGION]) and the order of DynamoDB's checks when a request is
    both malformed and sent to a missing table (the model looks the
    table up first); the [context] argument (unused by the code);
    [urllib3.PoolManager()] (it opens no connection when built);
    DynamoDB's limits other than the key's (400 KB per item, 4 KB per
    expression, 32 levels of nested lists and maps), throttling and network errors on the table
    calls; urllib3's retries and timeouts (folded into the outcome
    oracle); [float] formatting ([float_str] keeps the JSON
    literal, which only matters for [str] of a float). *)

From stdpp Require Export gmap strings list.
From Stdlib Require Export ZArith Lia.

Declare Scope py_scope.
Delimit Scope py_scope with py.
Open Scope Z_scope.

(** ** Python strings *)

(** A Python [str] is a sequence of code points. *)
Abbreviation pystr := (list Z).

(** The code points of an ASCII literal: [u "abc"]. *)
Definition u (s : string) : pystr :=
  map (fun c => Z.of_N (Ascii.N_of_ascii c)) (String.list_ascii_of_string s).

(** ** Python exceptions *)

(** The exceptions the modelled code can raise, with the part of their
    payload the theorems look at. *)
Inductive exn :=
| KeyError (k : pystr)              (** [d[k]] on a dict without [k] *)
| TypeError (what : string)         (** subscripting or iterating a wrong type,
                                        [json.loads] of a non-string,
                                        serialising a [float] for DynamoDB *)
| AttributeError (what : string)    (** [.get] on a non-dict *)
| JSONDecodeError                   (** [json.loads] on malformed text *)
| UnicodeEncodeError (pos : nat)    (** [.encode('utf-8')] of a surrogate *)
| ArithmeticError (what : string)   (** a trapped [decimal] signal *)
| ParamValidationError              (** botocore's check of a request's shape *)
| ClientError (code : string)       (** a botocore [ClientError], e.g.
                                        ["ValidationException"] *)
| URLLibError.                      (** a urllib3 transport error
                                        ([MaxRetryError], ...) *)

#[export] Instance exn_eq_dec : EqDecision exn.
Proof. solve_decision. Defined.

(** The outcome of a Python computation: a value or a raised exception. *)
Inductive res (A : Type) :=
| Ok (a : A)
| Exc (e : exn).
Arguments Ok {A} a.
Arguments Exc {A} e.

Definition res_bind {A B} (r : res A) (f : A -> res B) : res B :=
  match r with Ok a => f a | Exc e => Exc e end.

(** ** The state-and-exception monad *)

(** A computation over a state [S] (the DynamoDB table, the log of HTTP
    requests): it returns its outcome and the state it leaves, also when
    it raises, as the effects of Python code before a [raise] stay. *)
Definition PyM (S A : Type) : Type := S -> res A * S.

Definition ret {S A} (a : A) : PyM S A := fun s => (Ok a, s).
Definition raise {S A} (e : exn) : PyM S A := fun s => (Exc e, s).
Definition bind {S A B} (m : PyM S A) (f : A -> PyM S B) : PyM S B :=
  fun s => match m s with
           | (Ok a, s') => f a s'
           | (Exc e, s') => (Exc e, s')
           end.
(** A pure computation that may raise, run in the monad. *)
Definition lift {S A} (r : res A) : PyM S A :=
  fun s => (r, s).

Notation "x <- m ;; k" := (bind m (fun x => k))
  (at level 100, m at next level, k at level 200, right associativity) : py_scope.
Notation "m ;; k" := (bind m (fun _ => k)) : py_scope.
Notation "x <-! r ;; k" := (res_bind r (fun x => k))
  (at level 100, r at next level, k at level 200, right associativity) : py_scope.
Notation "'let!' p := r 'in' k" := (res_bind r (fun x => match x with p => k end))
  (at level 10, p pattern, r at level 100, k at level 200) : py_scope.

Open Scope py_scope.

(** Iterating a computation over a Python list, as a [for] loop whose
    body may raise: the first exception stops the loop. *)
Fixpoint for_each {S A} (l : list A) (body : A -> PyM S unit) : PyM S unit :=
  match l with
  | [] => ret tt
  | x :: l' => body x ;; for_each l' body
  end.

(** ** Monad laws and run lemmas *)

Create HintDb py discriminated.
Create Rewrite HintDb pyrw.

Section MonadLaws.
Context {S A B : Type}.

Lemma bind_ret_l (a : A) (f : A -> PyM S B) s :
  bind (ret a) f s = f a s.
Proof. reflexivity. Qed.

Lemma bind_raise_l (e : exn) (f : A -> PyM S B) s :
  bind (raise e) f s = (Exc e, s).
Proof. reflexivity. Qed.

Lemma bind_run_ok (m : PyM S A) (f : A -> PyM S B) s a s' :
  m s = (Ok a, s') -> bind m f s = f a s'.
Proof. unfold bind. by intros ->. Qed.

Lemma bind_run_exc (m : PyM S A) (f : A -> PyM S B) s e s' :
  m s = (Exc e, s') -> bind m f s = (Exc e, s').
Proof. unfold bind. by intros ->. Qed.

Lemma lift_ok_bind (a : A) (f : A -> PyM S B) s :
  bind (lift (Ok a)) f s = f a s.
Proof. reflexivity. Qed.

Lemma lift_exc_bind (e : exn) (f : A -> PyM S B) s :
  bind (lift (Exc e)) f s = (Exc e, s).
Proof. reflexivity. Qed.
End MonadLaws.

Lemma bind_assoc {S A B C} (m : PyM S A) (f : A -> PyM S B) (g : B -> PyM S C) s :
  bind (bind m f) g s = bind m (fun a => bind (f a) g) s.
Proof. unfold bind. by destruct (m s) as [[a|e] s']. Qed.

(** Running [x <- m ;; f x]: [m] raised, or it returned and [f] ran on. *)
Lemma bind_inv {S A B} (m : PyM S A) (f : A -> PyM S B) s o s' :
  bind m f s = (o, s') ->
  (exists e, m s = (Exc e, s') /\ o = Exc e) \/ exists a s1, m s = (Ok a, s1) /\ f a s1 = (o, s').
Proof.
  unfold bind. destruct (m s) as [[a|e] s1]; intros H; [right; by eauto|left].
  injection H as <- <-. by eexists.
Qed.

(** A pure step raises without touching the state, or returns. *)
Lemma lift_bind_inv {S A B} (r : res A) (f : A -> PyM S B) s o s' :
  bind (lift r) f s = (o, s') ->
  (exists e, r = Exc e /\ o = Exc e /\ s' = s) \/ exists a, r = Ok a /\ f a s = (o, s').
Proof.
  destruct r as [a|e]; cbn; intros H; [right; by eauto|left].
  injection H as <- <-. by eexists.
Qed.

Lemma res_bind_ok {A B} (a : A) (f : A -> res B) : res_bind (Ok a) f = f a.
Proof. reflexivity. Qed.

#[export] Hint Rewrite @bind_ret_l @bind_raise_l @lift_ok_bind @lift_exc_bind
  @res_bind_ok : pyrw.

(** A [for] loop whose bodies never raise runs every body, in order. *)
Lemma for_each_app {S A} (l1 l2 : list A) (body : A -> PyM S unit) s :
  for_each (l1 ++ l2) body s = bind (for_each l1 body) (fun _ => for_each l2 body) s.
Proof.
  revert s. induction l1 as [|x l1 IH]; intros s; simpl; [done|].
  rewrite bind_assoc.
  destruct (body x s) as [[[]|e] s'] eqn:E.
  - rewrite !(bind_run_ok _ _ _ _ _ E). apply IH.
  - by rewrite !(bind_run_exc _ _ _ _ _ E).
Qed.

(** ** Association lists keyed by strings *)

(** The value of the first entry with key [k]: Python's [d[k]] on the
    items of a dict. *)
Fixpoint assoc {A} (k : pystr) (l : list (pystr * A)) : option A :=
  match l with
  | [] => None
  | (k', v) :: l' => if decide (k = k') then Some v else assoc k l'
  end.

Section Assoc.
Context {A B : Type}.
Implicit Types (l : list (pystr * A)).

Lemma assoc_map (g : A -> B) (k : pystr) l :
  assoc k (map (fun kv => (kv.1, g kv.2)) l) = g <$> assoc k l.
Proof. induction l as [|[k' v] l IH]; cbn; [done|]. by case_decide. Qed.

Lemma assoc_None (k : pystr) l : assoc k l = None <-> k ∉ l.*1.
Proof.
  induction l as [|[k' v] l IH]; cbn; [set_solver|].
  case_decide; subst; [set_solver|]. rewrite IH. set_solver.
Qed.

Lemma assoc_Some (k : pystr) v l : NoDup l.*1 -> assoc k l = Some v <-> (k, v) ∈ l.
Proof.
  induction l as [|[k' v'] l IH]; cbn; intros Hnd; [set_solver|].
  apply NoDup_cons in Hnd as [Hk' Hnd]. rewrite elem_of_cons.
  case_decide as E; subst.
  - split; [intros [=->]; by left|]. intros [[=->]|Hin]; [done|].
    destruct Hk'. by apply (list_elem_of_fmap_2 fst) in Hin.
  - rewrite IH by done. split; [by right|]. by intros [[=]|?].
Qed.

Lemma assoc_list_to_map (k : pystr) l :
  NoDup l.*1 -> (list_to_map l : gmap pystr A) !! k = assoc k l.
Proof.
  intros Hnd. destruct (assoc k l) as [v|] eqn:E.
  - apply elem_of_list_to_map_1; [done|]. by apply assoc_Some.
  - apply not_elem_of_list_to_map_1. by apply assoc_None.
Qed.

Lemma assoc_map_to_list (k : pystr) (m : gmap pystr A) : assoc k (map_to_list m) = m !! k.
Proof.
  destruct (m !! k) as [v|] eqn:E.
  - apply assoc_Some; [apply NoDup_fst_map_to_list|]. by apply elem_of_map_to_list.
  - apply assoc_None. rewrite list_elem_of_fmap. intros [[k' v] [-> Hin]].
    apply elem_of_map_to_list in Hin. cbn in *. congruence.
Qed.
(** Python's [{**l1, **l2}] read through [assoc] on [l2 ++ l1]: the
    later dict wins. *)
Lemma assoc_app (k : pystr) l1 l2 :
  assoc k (l1 ++ l2) = match assoc k l1 with Some v => Some v | None => assoc k l2 end.
Proof. induction l1 as [|[k' v] l1 IH]; cbn; [done|]. by case_decide. Qed.

(** On disjoint keys the order of the two lists does not matter. *)
Lemma assoc_app_comm (k : pystr) l1 l2 :
  l1.*1 ## l2.*1 -> assoc k (l1 ++ l2) = assoc k (l2 ++ l1).
Proof.
  intros Hd. rewrite !assoc_app.
  destruct (assoc k l1) as [v1|] eqn:E1, (assoc k l2) as [v2|] eqn:E2; [|done..].
  exfalso. apply (Hd k).
  - destruct (decide (k ∈ l1.*1)) as [|H1]; [done|]. by rewrite (proj2 (assoc_None k l1) H1) in E1.
  - destruct (decide (k ∈ l2.*1)) as [|H2]; [done|]. by rewrite (proj2 (assoc_None k l2) H2) in E2.
Qed.
End Assoc.

Lemma foldl_map {A B C} (f : C -> B -> C) (h : A -> B) (l : list A) (c : C) :
  foldl f c (map h l) = foldl (fun c x => f c (h x)) c l.
Proof. revert c. induction l; intros c; cbn; auto. Qed.

Lemma map_fst_fmap {A B C} (g : A -> C) (l : list (A * B)) :
  map (fun kv => g kv.1) l = map g l.*1.
Proof. induction l; cbn; congruence. Qed.

(** Inserting, key by key, the values a function gives for them. *)
Lemma foldl_insert_lookup {A} (g : pystr -> option A) (ks : list pystr)
    (m : gmap pystr A) (f : pystr) :
  Forall (fun k => is_Some (g k)) ks ->
  foldl (fun m k => match g k with Some x => <[k := x]> m | None => m end) m ks !! f
  = if bool_decide (f ∈ ks) then g f else m !! f.
Proof.
  revert m. induction ks as [|k ks IH]; intros m Hks; cbn [foldl]; [by rewrite bool_decide_eq_false_2 by set_solver|].
  inversion Hks as [|? ? [x Hx] Hks']; subst. rewrite Hx, IH by done.
  destruct (decide (f = k)) as [->|Hne].
  - rewrite (bool_decide_eq_true_2 (k ∈ k :: ks)) by set_solver.
    destruct (bool_decide (k ∈ ks)); [done|]. by rewrite lookup_insert_eq, Hx.
  - rewrite lookup_insert_ne by congruence.
    destruct (bool_decide_reflect (f ∈ ks)) as [Hin|Hin];
      destruct (bool_decide_reflect (f ∈ k :: ks)) as [Hin'|Hin']; set_solver.
Qed.

(** [sep.join(l)]. *)
Fixpoint join {A} (sep : list A) (l : list (list A)) : list A :=
  match l with
  | [] => []
  | [x] => x
  | x :: l' => x ++ sep ++ join sep l'
  end.

Lemma join_cons2 {A} (sep x y : list A) l : join sep (x :: y :: l) = x ++ sep ++ join sep (y :: l).
Proof. reflexivity. Qed.

Lemma mjoin_map_sep {A} (sep : list A) (l : list (list A)) :
  l <> [] -> mjoin (map (fun x => x ++ sep) l) = join sep l ++ sep.
Proof.
  induction l as [|x l IH]; intros Hne; [done|]. destruct l as [|y l].
  - cbn. by rewrite !app_nil_r.
  - change (mjoin (map (fun x => x ++ sep) (x :: y :: l)))
      with ((x ++ sep) ++ mjoin (map (fun x => x ++ sep) (y :: l))).
    rewrite IH, join_cons2 by done. by rewrite <- !app_assoc.
Qed.

Lemma join_last {A} (sep : list A) (l : list (list A)) (y : list A) :
  exists pre, join sep (l ++ [y]) = pre ++ y.
Proof.
  induction l as [|x l [pre IH]]; [by exists []|].
  destruct l as [|x' l].
  - exists (x ++ sep). cbn. by rewrite <- app_assoc.
  - exists (x ++ sep ++ pre).
    change ((x' :: l) ++ [y]) with (x' :: (l ++ [y])) in IH.
    change ((x :: x' :: l) ++ [y]) with (x :: x' :: (l ++ [y])).
    rewrite join_cons2, IH. by rewrite <- !app_assoc.
Qed.

(** ** Code points and ASCII literals *)

(** The code points of an ASCII literal in which every [']  stands for
    a double quote: [uq "{'id': 'u1'}"] is the JSON text with double
    quotes. *)
Definition uq (s : string) : pystr := map (fun c => if c =? 39 then 34 else c) (u s).

Lemma u_app (s1 s2 : string) : u (s1 +:+ s2) = u s1 ++ u s2.
Proof.
  unfold u. induction s1 as [|c s1 IH]; simpl; [done|]. by rewrite IH.
Qed.

Lemma u_bounds (s : string) : Forall (fun c => 0 <= c < 256) (u s).
Proof.
  unfold u. induction s as [|a s IH]; simpl; constructor; [|exact IH].
  pose proof (Ascii.N_ascii_bounded a). lia.
Qed.

#[export] Hint Rewrite u_app : pyrw.

(** Character classes of ASCII, on code points. *)
Definition is_ws (c : Z) : bool := (c =? 32) || (c =? 9) || (c =? 10) || (c =? 13).
Definition is_digit (c : Z) : bool := (48 <=? c) && (c <=? 57).
Definition is_upper (c : Z) : bool := (65 <=? c) && (c <=? 90).
Definition is_lower (c : Z) : bool := (97 <=? c) && (c <=? 122).
Definition is_alpha (c : Z) : bool := is_upper c || is_lower c.
(** A character of a word: a letter, a digit or [_]. *)
Definition is_word (c : Z) : bool := is_alpha c || is_digit c || (c =? 95).
#[export] Hint Resolve u_bounds : py.

(** [simpl_py] unfolds one monadic step at a time. *)
Ltac simpl_py :=
  repeat (autorewrite with pyrw; cbn [bind ret raise lift res_bind]).

(** [lift_steps H] walks the pure steps at the head of a run [H]; each
    one that raises closes the goal [(exists e, o = Exc e /\ s' = s) \/ _]. *)
Ltac lift_steps H :=
  repeat (apply lift_bind_inv in H as [(? & ? & -> & ->)|(? & ? & H)]; [left; by eexists|]).

(** [by_decide] proves a decidable proposition on closed data by
    evaluating its decision procedure. *)
Ltac by_decide := refine (bool_decide_unpack _ _); vm_compute; exact I.
