(* ===== verification/PyValue.v ===== *)
(** * Python values, as [json.loads] and the Lambda runtime build them

    [pyval] is the part of the Python object graph the handlers touch:
    [None], [bool], [int], [float], [str], [list] and [dict] with [str]
    keys, which are the values of a parsed JSON document and of a Lambda
    event.  The file gives the Python operations the handlers apply to
    them: subscripting [v[k]] ([getitem]), [v.get(k)] ([get]),
    [v.items()] ([items]), [for x in v] ([py_iter]), [d[k] = x]
    ([dict_set]), [str(v)] ([py_str], used by f-strings) and [repr]. *)

From S2P Require Import Prelude.

(** ** Values *)

#[local] Set Warnings "-register-all".

(** A [dict] is kept as its list of items in insertion order, as Python
    keeps them; a well-formed one has no repeated key ([dict_wf]).  A
    [float] keeps the literal it was parsed from (see [float_str]). *)
Inductive pyval :=
| PNone
| PBool (b : bool)
| PInt (z : Z)
| PFloat (lit : pystr)
| PStr (s : pystr)
| PList (l : list pyval)
| PDict (d : list (pystr * pyval)).

(** The induction principle that sees the elements of lists and dicts. *)
Section pyval_rect.
Context (P : pyval -> Prop)
  (HNone : P PNone) (HBool : forall b, P (PBool b)) (HInt : forall z, P (PInt z))
  (HFloat : forall f, P (PFloat f)) (HStr : forall s, P (PStr s))
  (HList : forall l, Forall P l -> P (PList l))
  (HDict : forall d, Forall (fun kv => P kv.2) d -> P (PDict d)).

Fixpoint pyval_ind' (v : pyval) : P v :=
  match v with
  | PNone => HNone
  | PBool b => HBool b
  | PInt z => HInt z
  | PFloat f => HFloat f
  | PStr s => HStr s
  | PList l => HList l
      ((fix go (l : list pyval) : Forall P l :=
          match l with
          | [] => Forall_nil_2 _
          | x :: l' => Forall_cons_2 _ _ _ (pyval_ind' x) (go l')
          end) l)
  | PDict d => HDict d
      ((fix go (d : list (pystr * pyval)) : Forall (fun kv => P kv.2) d :=
          match d with
          | [] => Forall_nil_2 _
          | kv :: d' => Forall_cons_2 _ _ _ (pyval_ind' kv.2) (go d')
          end) d)
  end.
End pyval_rect.

(** Structural equality ([==] on JSON data, with [1 == True] kept
    apart as the model keeps [bool] and [int] apart). *)
Fixpoint pyval_beq (v w : pyval) : bool :=
  match v, w with
  | PNone, PNone => true
  | PBool a, PBool b => Bool.eqb a b
  | PInt a, PInt b => Z.eqb a b
  | PFloat a, PFloat b => bool_decide (a = b)
  | PStr a, PStr b => bool_decide (a = b)
  | PList l, PList l' =>
      (fix go (l l' : list pyval) : bool :=
         match l, l' with
         | [], [] => true
         | x :: l, y :: l' => pyval_beq x y && go l l'
         | _, _ => false
         end) l l'
  | PDict d, PDict d' =>
      (fix go (d d' : list (pystr * pyval)) : bool :=
         match d, d' with
         | [], [] => true
         | (k, x) :: d, (k', y) :: d' => bool_decide (k = k') && pyval_beq x y && go d d'
         | _, _ => false
         end) d d'
  | _, _ => false
  end.

Lemma pyval_beq_correct v w : pyval_beq v w = true <-> v = w.
Proof.
  revert w. induction v as [| a | a | a | a | l IH | d IH] using pyval_ind';
    intros [| b | b | b | b | l' | d']; cbn; try (split; congruence).
  - rewrite Bool.eqb_true_iff. split; congruence.
  - rewrite Z.eqb_eq. split; congruence.
  - rewrite bool_decide_eq_true. split; congruence.
  - rewrite bool_decide_eq_true. split; congruence.
  - revert l'. induction IH as [|x l Hx _ IHl]; intros [|y l']; cbn; try (split; congruence).
    rewrite andb_true_iff, Hx, IHl. split; [intros [-> [= ->]]|intros [= -> ->]]; done.
  - revert d'. induction IH as [|[k x] d Hx _ IHd]; intros [|[k' y] d']; cbn; try (split; congruence).
    cbn in Hx. rewrite !andb_true_iff, bool_decide_eq_true, Hx, IHd.
    split; [intros [[-> ->] [= ->]]|intros [= -> -> ->]]; done.
Qed.

#[export] Instance pyval_eq_dec : EqDecision pyval.
Proof.
  intros v w. destruct (pyval_beq v w) eqn:E.
  - left. by apply pyval_beq_correct.
  - right. intros Hvw. apply pyval_beq_correct in Hvw. congruence.
Defined.

(** The name [type(v).__name__] that Python puts in its error messages. *)
Definition type_name (v : pyval) : string :=
  match v with
  | PNone => "NoneType" | PBool _ => "bool" | PInt _ => "int"
  | PFloat _ => "float" | PStr _ => "str" | PList _ => "list" | PDict _ => "dict"
  end.

(** ** Dicts *)

(** [d[k] = v]: an existing key keeps its place and takes the new value,
    a new key goes to the end. *)
Fixpoint dict_set (k : pystr) (v : pyval) (d : list (pystr * pyval))
  : list (pystr * pyval) :=
  match d with
  | [] => [(k, v)]
  | (k', v') :: d' =>
      if decide (k = k') then (k, v) :: d' else (k', v') :: dict_set k v d'
  end.

(** A dict built by [dict_set] never repeats a key. *)
Definition dict_wf (d : list (pystr * pyval)) : Prop := NoDup d.*1.

(** The value of field [f] of a dict. *)
Definition field (v : pyval) (f : pystr) : option pyval :=
  match v with PDict d => assoc f d | _ => None end.

(** ** Subscripting, [.get], [.items()] and iteration *)

Definition not_subscriptable (v : pyval) : exn :=
  TypeError ("'" +:+ type_name v +:+ "' object is not subscriptable").

(** [v[k]] for a [str] key [k]. *)
Definition getitem (v : pyval) (k : pystr) : res pyval :=
  match v with
  | PDict d =>
      match assoc k d with Some x => Ok x | None => Exc (KeyError k) end
  | PList _ => Exc (TypeError "list indices must be integers or slices, not str")
  | PStr _ => Exc (TypeError "string indices must be integers, not 'str'")
  | _ => Exc (not_subscriptable v)
  end.

Definition no_attribute (v : pyval) (attr : string) : exn :=
  AttributeError ("'" +:+ type_name v +:+ "' object has no attribute '" +:+ attr +:+ "'").

(** [v.get(k)]: [None] for a missing key; only dicts have [.get]. *)
Definition get (v : pyval) (k : pystr) : res pyval :=
  match v with
  | PDict d => Ok (default PNone (assoc k d))
  | _ => Exc (no_attribute v "get")
  end.

(** [v.items()]. *)
Definition items (v : pyval) : res (list (pystr * pyval)) :=
  match v with
  | PDict d => Ok d
  | _ => Exc (no_attribute v "items")
  end.

(** [for x in v]: a list yields its elements, a dict its keys, a string
    its characters; other values are not iterable. *)
Definition py_iter (v : pyval) : res (list pyval) :=
  match v with
  | PList l => Ok l
  | PDict d => Ok (map (fun kv => PStr kv.1) d)
  | PStr s => Ok (map (fun c => PStr [c]) s)
  | _ => Exc (TypeError ("'" +:+ type_name v +:+ "' object is not iterable"))
  end.

(** [os.environ[k]], the process environment given as its list of
    variables: [KeyError(k)] when [k] is not set. *)
Definition environ_getitem (environ : list (pystr * pystr)) (k : pystr) : res pystr :=
  match assoc k environ with
  | Some v => Ok v
  | None => Exc (KeyError k)
  end.

(** ** Numerals *)

(** The code point of the digit [d] in base 16, lower case as Python
    writes it. *)
Definition hex_digit (d : Z) : Z := if d <? 10 then 48 + d else 87 + d.

(** The last [w] digits of [n] in base [b]. *)
Fixpoint digits_pad (b : Z) (w : nat) (n : Z) : pystr :=
  match w with
  | O => []
  | S w' => digits_pad b w' (n / b) ++ [hex_digit (n mod b)]
  end.

(** The decimal digits of [n >= 0], with no leading zero; [fuel] bounds
    the number of digits (the number of bits of [n] is enough). *)
Fixpoint dec_digits (fuel : nat) (n : Z) : pystr :=
  match fuel with
  | O => []
  | S f => if n <? 10 then [48 + n] else dec_digits f (n / 10) ++ [48 + n mod 10]
  end.

Definition nat_fuel (n : Z) : nat := S (Z.to_nat (Z.log2 n)).

(** [str(n)] for an [int]. *)
Definition int_str (z : Z) : pystr :=
  if z <? 0 then u "-" ++ dec_digits (nat_fuel (- z)) (- z)
  else dec_digits (nat_fuel z) z.

(** [str(f)] for a [float] parsed from the literal [lit].  Python prints
    the shortest decimal that reads back to the same double; the model
    prints the literal, which agrees whenever the literal already is that
    shortest form (["1.5"], ["0.25"]), and maps the three non-finite
    spellings [json] accepts to their Python names. *)
Definition float_str (lit : pystr) : pystr :=
  if decide (lit = u "NaN") then u "nan"
  else if decide (lit = u "Infinity") then u "inf"
  else if decide (lit = u "-Infinity") then u "-inf"
  else lit.

(** ** [str] and [repr] *)

(** Whether [repr] prints the code point [c] as it is.  Below 256 this is
    Python's [str.isprintable]; above, the model takes every code point
    but the surrogates as printable (Python consults the Unicode
    database there). *)
Definition repr_printable (c : Z) : bool :=
  (32 <=? c) && (c <? 127) || (161 <=? c) && (c <? 55296) && negb (c =? 173)
  || (57343 <? c).

(** One character of [repr(s)] quoted with [q]. *)
Definition repr_char (q c : Z) : pystr :=
  if (c =? q) || (c =? 92) then [92; c]
  else if c =? 9 then u "\t"
  else if c =? 10 then u "\n"
  else if c =? 13 then u "\r"
  else if repr_printable c then [c]
  else if c <? 256 then u "\x" ++ digits_pad 16 2 c
  else if c <? 65536 then u "\u" ++ digits_pad 16 4 c
  else u "\U" ++ digits_pad 16 8 c.

(** [repr(s)]: single quotes unless [s] has a single quote and no double
    quote. *)
Definition str_repr (s : pystr) : pystr :=
  let q := if bool_decide (39 ∈ s) && negb (bool_decide (34 ∈ s)) then 34 else 39 in
  [q] ++ mjoin (map (repr_char q) s) ++ [q].

Fixpoint py_repr (v : pyval) : pystr :=
  match v with
  | PNone => u "None"
  | PBool true => u "True"
  | PBool false => u "False"
  | PInt z => int_str z
  | PFloat f => float_str f
  | PStr s => str_repr s
  | PList l => u "[" ++ join (u ", ") (map py_repr l) ++ u "]"
  | PDict d =>
      u "{" ++ join (u ", ") (map (fun kv => str_repr kv.1 ++ u ": " ++ py_repr kv.2) d)
        ++ u "}"
  end.

(** [str(v)], which an f-string applies to each replacement field. *)
Definition py_str (v : pyval) : pystr :=
  match v with
  | PStr s => s
  | _ => py_repr v
  end.

(** ** [d[k] = x] *)

Lemma dict_set_keys k v d :
  (dict_set k v d).*1 = if bool_decide (k ∈ d.*1) then d.*1 else d.*1 ++ [k].
Proof.
  induction d as [|[k' v'] d IH]; cbn; [done|].
  destruct (decide (k = k')) as [->|Hk].
  - rewrite bool_decide_true by set_solver. by cbn.
  - cbn. rewrite IH. destruct (decide (k ∈ d.*1)).
    + rewrite !bool_decide_true by set_solver. done.
    + rewrite !bool_decide_false by set_solver. done.
Qed.

(** Assignment keeps a dict well formed. *)
Lemma dict_set_wf k v d : dict_wf d -> dict_wf (dict_set k v d).
Proof.
  unfold dict_wf. intros Hd. rewrite dict_set_keys. case_bool_decide; [done|].
  apply NoDup_app. split; [done|split; [set_solver|apply NoDup_singleton]].
Qed.

Lemma dict_set_assoc k v d f :
  assoc f (dict_set k v d) = if decide (f = k) then Some v else assoc f d.
Proof.
  induction d as [|[k' v'] d IH]; cbn.
  - by repeat case_decide.
  - destruct (decide (k = k')) as [->|Hk]; cbn; repeat case_decide; congruence.
Qed.

(** Assigning a new key appends it. *)
Lemma dict_set_fresh k v d : k ∉ d.*1 -> dict_set k v d = d ++ [(k, v)].
Proof.
  induction d as [|[k' v'] d IH]; cbn; intros Hk; [done|].
  rewrite decide_False by set_solver. rewrite IH by set_solver. done.
Qed.
