(* ===== verification/Json.v ===== *)
(** * The [json] module and [str.encode('utf-8')], as the handlers use them

    [json_dumps] is [json.dumps] with its default arguments
    ([ensure_ascii=True], separators [", "] and [": "]), after CPython's
    [encode_basestring_ascii].  [json_loads] is [json.loads] after
    CPython's C scanner ([_json.c]: [scan_once_unicode],
    [scanstring_unicode], [_parse_object_unicode],
    [_parse_array_unicode], [_match_number_unicode]) in its default
    strict mode.  [encode_utf8] is [str.encode('utf-8')].

    The parser runs on fuel, [S (length s)]: every call consumes at least
    one character, and running out of fuel is reported as a
    [JSONDecodeError]; [JsonRoundtrip] shows the fuel is enough on every
    text [json_dumps] writes.  Not modelled: the recursion limit of the C
    scanner ([RecursionError] past about a thousand nested brackets) and
    the 4300-digit limit on [int] conversion ([ValueError]). *)

From S2P Require Import Prelude PyValue.

(** ** [json.dumps] *)

(** One character of a JSON string literal, escaped as
    [encode_basestring_ascii] does: the two quoting characters and five
    controls by name, every other character outside [' '..'~'] as
    [\uXXXX], and a code point beyond the BMP as a surrogate pair. *)
Definition json_escape_char (c : Z) : pystr :=
  if c =? 92 then u "\\"
  else if c =? 34 then [92; 34]
  else if c =? 8 then u "\b"
  else if c =? 12 then u "\f"
  else if c =? 10 then u "\n"
  else if c =? 13 then u "\r"
  else if c =? 9 then u "\t"
  else if (32 <=? c) && (c <=? 126) then [c]
  else if c <? 65536 then u "\u" ++ digits_pad 16 4 c
  else
    let n := c - 65536 in
    let s1 := Z.lor 55296 (Z.land (Z.shiftr n 10) 1023) in
    let s2 := Z.lor 56320 (Z.land n 1023) in
    u "\u" ++ digits_pad 16 4 s1 ++ u "\u" ++ digits_pad 16 4 s2.

Definition json_str (s : pystr) : pystr :=
  [34] ++ mjoin (map json_escape_char s) ++ [34].

(** [json.dumps(v)].  A [bool] is tested before an [int], as
    [json.dumps] does; a [float] prints its literal (see [float_str]). *)
Fixpoint json_dumps (v : pyval) : pystr :=
  match v with
  | PNone => u "null"
  | PBool true => u "true"
  | PBool false => u "false"
  | PInt z => int_str z
  | PFloat f => f
  | PStr s => json_str s
  | PList l => u "[" ++ join (u ", ") (map json_dumps l) ++ u "]"
  | PDict d =>
      u "{" ++ join (u ", ") (map (fun kv => json_str kv.1 ++ u ": " ++ json_dumps kv.2) d)
        ++ u "}"
  end.

(** ** [str.encode('utf-8')] *)

Definition is_surrogate (c : Z) : bool := (55296 <=? c) && (c <=? 57343).

Definition utf8_char (c : Z) : list Z :=
  if c <? 128 then [c]
  else if c <? 2048 then
    [Z.lor 192 (Z.shiftr c 6); Z.lor 128 (Z.land c 63)]
  else if c <? 65536 then
    [Z.lor 224 (Z.shiftr c 12); Z.lor 128 (Z.land (Z.shiftr c 6) 63);
     Z.lor 128 (Z.land c 63)]
  else
    [Z.lor 240 (Z.shiftr c 18); Z.lor 128 (Z.land (Z.shiftr c 12) 63);
     Z.lor 128 (Z.land (Z.shiftr c 6) 63); Z.lor 128 (Z.land c 63)].

(** The strict UTF-8 codec refuses a surrogate, at its index. *)
Fixpoint encode_utf8_from (i : nat) (s : pystr) : res (list Z) :=
  match s with
  | [] => Ok []
  | c :: s' =>
      if is_surrogate c then Exc (UnicodeEncodeError i)
      else bs <-! encode_utf8_from (S i) s' ;; Ok (utf8_char c ++ bs)
  end.

Definition encode_utf8 (s : pystr) : res (list Z) := encode_utf8_from 0 s.

(** ** [json.loads]: lexical helpers *)

Fixpoint skip_ws (s : pystr) : pystr :=
  match s with
  | c :: s' => if is_ws c then skip_ws s' else s
  | [] => []
  end.

Fixpoint span_digits (s : pystr) : pystr * pystr :=
  match s with
  | c :: s' => if is_digit c then let '(ds, r) := span_digits s' in (c :: ds, r) else ([], s)
  | [] => ([], [])
  end.

Definition digits_value (ds : pystr) : Z :=
  fold_left (fun acc d => acc * 10 + (d - 48)) ds 0.

Fixpoint strip_prefix (p s : pystr) : option pystr :=
  match p, s with
  | [], _ => Some s
  | c :: p', c' :: s' => if c =? c' then strip_prefix p' s' else None
  | _ :: _, [] => None
  end.

Definition hex_value (c : Z) : option Z :=
  if is_digit c then Some (c - 48)
  else if (97 <=? c) && (c <=? 102) then Some (c - 87)
  else if (65 <=? c) && (c <=? 70) then Some (c - 55)
  else None.

(** Four hexadecimal digits, as after [\u]. *)
Definition hex4 (s : pystr) : option (Z * pystr) :=
  match s with
  | a :: b :: c :: d :: r =>
      match hex_value a, hex_value b, hex_value c, hex_value d with
      | Some x1, Some x2, Some x3, Some x4 => Some (((x1 * 16 + x2) * 16 + x3) * 16 + x4, r)
      | _, _, _, _ => None
      end
  | _ => None
  end.

(** The character a one-letter escape [\e] stands for. *)
Definition escape_value (e : Z) : option Z :=
  if e =? 34 then Some 34 else if e =? 92 then Some 92 else if e =? 47 then Some 47
  else if e =? 98 then Some 8 else if e =? 102 then Some 12 else if e =? 110 then Some 10
  else if e =? 114 then Some 13 else if e =? 116 then Some 9 else None.

Definition is_high_surrogate (c : Z) : bool := (55296 <=? c) && (c <=? 56319).
Definition is_low_surrogate (c : Z) : bool := (56320 <=? c) && (c <=? 57343).

(** ** [json.loads]: strings, numbers, values *)

(** The body of a string literal after its opening quote
    ([scanstring_unicode], strict): a [\u] escape of a high surrogate
    followed by a [\u] escape of a low surrogate makes one character. *)
Fixpoint scan_string (fuel : nat) (s : pystr) (acc : pystr) : res (pystr * pystr) :=
  match fuel with
  | O => Exc JSONDecodeError
  | S f =>
    match s with
    | [] => Exc JSONDecodeError
    | c :: r =>
      if c =? 34 then Ok (acc, r)
      else if c =? 92 then
        match r with
        | [] => Exc JSONDecodeError
        | e :: r' =>
          if e =? 117 then
            match hex4 r' with
            | None => Exc JSONDecodeError
            | Some (c1, r1) =>
              if is_high_surrogate c1 then
                match strip_prefix [92; 117] r1 with
                | Some r2 =>
                  match hex4 r2 with
                  | None => Exc JSONDecodeError
                  | Some (c2, r3) =>
                    if is_low_surrogate c2 then
                      scan_string f r3
                        (acc ++ [65536 + Z.lor (Z.shiftl (c1 - 55296) 10) (c2 - 56320)])
                    else scan_string f r1 (acc ++ [c1])
                  end
                | None => scan_string f r1 (acc ++ [c1])
                end
              else scan_string f r1 (acc ++ [c1])
            end
          else
            match escape_value e with
            | Some x => scan_string f r' (acc ++ [x])
            | None => Exc JSONDecodeError
            end
        end
      else if c <? 32 then Exc JSONDecodeError
      else scan_string f r (acc ++ [c])
    end
  end.

(** A number ([_match_number_unicode]): an optional minus, then [0] or a
    digit [1]-[9] followed by digits, is an [int]; followed by a fraction
    (a dot and one digit or more) or an exponent ([e] or [E], an optional
    sign, one digit or more) it is a [float]. *)
Definition scan_number (s : pystr) : option (pyval * pystr) :=
  let '(sign, s1) := match s with c :: r => if c =? 45 then ([c], r) else ([], s) | [] => ([], s) end in
  let int_part :=
    match s1 with
    | c :: r => if c =? 48 then Some ([c], r)
                else if is_digit c then Some (span_digits s1) else None
    | [] => None
    end in
  match int_part with
  | None => None
  | Some (ip, r) =>
    let '(frac, r2) :=
      match r with
      | c :: d :: r' => if (c =? 46) && is_digit d then
                          let '(ds, r'') := span_digits (d :: r') in (c :: ds, r'')
                        else ([], r)
      | _ => ([], r)
      end in
    let '(ex, r3) :=
      match r2 with
      | e :: r' =>
        if (e =? 101) || (e =? 69) then
          let '(sg, r'') := match r' with
                            | c :: r''' => if (c =? 43) || (c =? 45) then ([c], r''') else ([], r')
                            | [] => ([], r')
                            end in
          match span_digits r'' with
          | ([], _) => ([], r2)
          | (ds, r4) => (e :: sg ++ ds, r4)
          end
        else ([], r2)
      | [] => ([], r2)
      end in
    match frac, ex with
    | [], [] => Some (PInt (match sign with [] => digits_value ip | _ => - digits_value ip end), r3)
    | _, _ => Some (PFloat (sign ++ ip ++ frac ++ ex), r3)
    end
  end.

(** The elements of an array, after its [[] and the whitespace after
    it, when the next character is not []]. *)
Fixpoint scan_array (pv : pystr -> res (pyval * pystr)) (fuel : nat) (s : pystr)
  : res (list pyval * pystr) :=
  match fuel with
  | O => Exc JSONDecodeError
  | S f =>
    let! (v, r) := pv s in
    match skip_ws r with
    | c :: r' =>
      if c =? 93 then Ok ([v], r')
      else if c =? 44 then let! (vs, r'') := scan_array pv f (skip_ws r') in Ok (v :: vs, r'')
      else Exc JSONDecodeError
    | [] => Exc JSONDecodeError
    end
  end.

(** The members of an object from a key's opening quote on; each
    [key: value] is stored with [d[key] = value], so a repeated key keeps
    its first place and takes its last value. *)
Fixpoint scan_members (pv : pystr -> res (pyval * pystr)) (fuel : nat) (s : pystr)
  (d : list (pystr * pyval)) : res (list (pystr * pyval) * pystr) :=
  match fuel with
  | O => Exc JSONDecodeError
  | S f =>
    match s with
    | c :: r =>
      if c =? 34 then
        let! (k, r1) := scan_string (S (length r)) r [] in
        match skip_ws r1 with
        | c1 :: r2 =>
          if c1 =? 58 then
            let! (v, r3) := pv (skip_ws r2) in
            match skip_ws r3 with
            | c2 :: r4 =>
              if c2 =? 125 then Ok (dict_set k v d, r4)
              else if c2 =? 44 then scan_members pv f (skip_ws r4) (dict_set k v d)
              else Exc JSONDecodeError
            | [] => Exc JSONDecodeError
            end
          else Exc JSONDecodeError
        | [] => Exc JSONDecodeError
        end
      else Exc JSONDecodeError
    | [] => Exc JSONDecodeError
    end
  end.

(** The constants [null], [true], [false], [NaN], [Infinity] and
    [-Infinity]. *)
Definition scan_constant (s : pystr) : option (pyval * pystr) :=
  match strip_prefix (u "null") s with Some r => Some (PNone, r) | None =>
  match strip_prefix (u "true") s with Some r => Some (PBool true, r) | None =>
  match strip_prefix (u "false") s with Some r => Some (PBool false, r) | None =>
  match strip_prefix (u "NaN") s with Some r => Some (PFloat (u "NaN"), r) | None =>
  match strip_prefix (u "Infinity") s with Some r => Some (PFloat (u "Infinity"), r) | None =>
  match strip_prefix (u "-Infinity") s with
  | Some r => Some (PFloat (u "-Infinity"), r) | None => None end end end end end end.

(** One JSON value ([scan_once_unicode]). *)
Fixpoint scan_value (fuel : nat) (s : pystr) : res (pyval * pystr) :=
  match fuel with
  | O => Exc JSONDecodeError
  | S f =>
    match s with
    | [] => Exc JSONDecodeError
    | c :: r =>
      if c =? 34 then
        let! (str, r') := scan_string (S (length r)) r [] in Ok (PStr str, r')
      else if c =? 123 then
        match skip_ws r with
        | c' :: r' =>
          if c' =? 125 then Ok (PDict [], r')
          else let! (d, r'') := scan_members (scan_value f) f (c' :: r') [] in Ok (PDict d, r'')
        | [] => Exc JSONDecodeError
        end
      else if c =? 91 then
        match skip_ws r with
        | c' :: r' =>
          if c' =? 93 then Ok (PList [], r')
          else let! (l, r'') := scan_array (scan_value f) f (c' :: r') in Ok (PList l, r'')
        | [] => Exc JSONDecodeError
        end
      else
        match scan_constant s with
        | Some vr => Ok vr
        | None =>
          match scan_number s with
          | Some vr => Ok vr
          | None => Exc JSONDecodeError
          end
        end
    end
  end.

(** [json.loads(s)] for a [str] [s]: a leading byte-order mark is refused,
    whitespace may surround the one value, nothing else may follow. *)
Definition json_loads_str (s : pystr) : res pyval :=
  match s with
  | c :: _ => if c =? 65279 then Exc JSONDecodeError else
      let! (v, r) := scan_value (S (length s)) (skip_ws s) in
      match skip_ws r with [] => Ok v | _ :: _ => Exc JSONDecodeError end
  | [] => Exc JSONDecodeError
  end.

(** [json.loads(x)] for any value [x]. *)
Definition json_loads (x : pyval) : res pyval :=
  match x with
  | PStr s => json_loads_str s
  | _ => Exc (TypeError ("the JSON object must be str, bytes or bytearray, not "
                         +:+ type_name x))
  end.

(** The dict an API Gateway proxy handler returns:
    [{'statusCode': code, 'body': json.dumps({'message': msg})}]. *)
Definition api_response (code : Z) (msg : pystr) : pyval :=
  PDict [(u "statusCode", PInt code);
         (u "body", PStr (json_dumps (PDict [(u "message", PStr msg)])))].

(** ** [json.dumps] writes printable ASCII only *)

Definition printable_ascii (c : Z) : bool := (32 <=? c) && (c <=? 126).

Lemma hex_digit_printable n b : 0 < b <= 16 -> printable_ascii (hex_digit (n mod b)) = true.
Proof.
  intros Hb. pose proof (Z.mod_pos_bound n b ltac:(lia)).
  unfold printable_ascii, hex_digit. destruct (n mod b <? 10) eqn:E; lia.
Qed.

Lemma digits_pad_printable w n : Forall (fun c => printable_ascii c = true) (digits_pad 16 w n).
Proof.
  revert n. induction w as [|w IH]; intros n; cbn; [done|].
  apply Forall_app. split; [apply IH|]. constructor; [|done]. by apply hex_digit_printable.
Qed.

Lemma u_printable s :
  forallb printable_ascii (u s) = true -> Forall (fun c => printable_ascii c = true) (u s).
Proof.
  intros H. apply Forall_forall. intros c Hc%list_elem_of_In.
  by apply (proj1 (forallb_forall _ _) H).
Qed.

Lemma json_escape_char_printable c :
  Forall (fun x => printable_ascii x = true) (json_escape_char c).
Proof.
  unfold json_escape_char.
  repeat match goal with |- context [if ?b then _ else _] => destruct b eqn:? end;
    repeat (apply Forall_app; split); try (apply u_printable; reflexivity);
    try apply digits_pad_printable.
  all: try match goal with
         | H : (32 <=? ?x) && (?x <=? 126) = true |- _ => constructor; [exact H | constructor]
         end.
  all: repeat constructor.
  all: apply hex_digit_printable; lia.
Qed.

Lemma json_str_printable s : Forall (fun x => printable_ascii x = true) (json_str s).
Proof.
  unfold json_str. apply Forall_app. split; [by repeat constructor|].
  apply Forall_app. split; [|by repeat constructor].
  induction s as [|c s IH]; cbn; [done|]. apply Forall_app. split; [|done].
  apply json_escape_char_printable.
Qed.

(** Printable ASCII is its own UTF-8 encoding. *)
Lemma encode_utf8_printable i s :
  Forall (fun x => printable_ascii x = true) s -> encode_utf8_from i s = Ok s.
Proof.
  intros Hs. revert i. induction Hs as [|c s Hc _ IH]; intros i; [done|].
  unfold printable_ascii in Hc. cbn.
  assert (is_surrogate c = false) as -> by (unfold is_surrogate; lia).
  rewrite IH. cbn. unfold utf8_char. by rewrite (proj2 (Z.ltb_lt c 128)) by lia.
Qed.

(** ** A parsed object never repeats a key *)

Lemma scan_number_not_dict s v r : scan_number s = Some (v, r) -> forall d, v <> PDict d.
Proof. unfold scan_number. intros H d ->. repeat case_match; simplify_eq. Qed.

Lemma scan_constant_not_dict s v r : scan_constant s = Some (v, r) -> forall d, v <> PDict d.
Proof. unfold scan_constant. intros H d ->. repeat case_match; simplify_eq. Qed.

Lemma scan_members_wf pv f s d d' r :
  dict_wf d -> scan_members pv f s d = Ok (d', r) -> dict_wf d'.
Proof.
  revert s d. induction f as [|f IH]; intros s d Hd H; cbn [scan_members] in H; [done|].
  unfold res_bind in H. repeat (case_match; simplify_eq; try done); eauto using dict_set_wf.
Qed.

Lemma scan_value_dict_wf f s d r : scan_value f s = Ok (PDict d, r) -> dict_wf d.
Proof.
  destruct f as [|f]; cbn [scan_value]; intros H; [done|].
  unfold res_bind in H. repeat (case_match; simplify_eq; try done).
  - apply NoDup_nil_2.
  - eapply (scan_members_wf _ _ _ []); [apply NoDup_nil_2|eassumption].
  - match goal with Hc : scan_constant _ = _ |- _ => by destruct (scan_constant_not_dict _ _ _ Hc d) end.
  - match goal with Hn : scan_number _ = _ |- _ => by destruct (scan_number_not_dict _ _ _ Hn d) end.
Qed.

(** [json.loads] builds its dicts with [d[key] = value]: a repeated key
    keeps one entry. *)
Lemma json_loads_dict_wf s d : json_loads_str s = Ok (PDict d) -> dict_wf d.
Proof.
  unfold json_loads_str, res_bind. intros H. repeat (case_match; simplify_eq; try done).
  by eapply scan_value_dict_wf.
Qed.
