(* ===== verification/JsonRoundtrip.v ===== *)
(** * [json.loads(json.dumps(v)) == v]

    The scanner of [Json] reads back what the encoder writes, for the
    values JSON can carry without loss ([json_value]): no [float] (the
    model keeps a float's literal, not its value), no surrogate code
    point in a string (the encoder writes a surrogate as [\uXXXX] and
    the scanner joins a high and a low one into one character), and no
    repeated key in a dict (the scanner keeps one entry per key).

    The proof goes by layers: numerals ([\uXXXX] escapes and decimal
    integers), string literals, then values by induction on [pyval],
    with fuel [S (length s)] shown to be enough ([jsize]). *)

From S2P Require Import Prelude PyValue Json.

(** ** Hexadecimal escapes *)

(** Case analysis on the comparisons of integers in the goal. *)
Ltac cmp_cases :=
  repeat match goal with
  | |- context [?a <=? ?b] => destruct (Z.leb_spec a b)
  | |- context [?a <? ?b] => destruct (Z.ltb_spec a b)
  | |- context [?a =? ?b] => destruct (Z.eqb_spec a b)
  end; cbn; first [exfalso; lia | f_equal; lia | done].

Lemma hex_value_digit d : 0 <= d < 16 -> hex_value (hex_digit d) = Some d.
Proof. intros Hd. unfold hex_digit, hex_value, is_digit. cmp_cases. Qed.

Lemma digit_mod x : 0 <= x mod 16 < 16.
Proof. apply Z.mod_pos_bound. lia. Qed.

(** The four digits after [\u] read back as the code unit. *)
Lemma hex4_digits_pad x r :
  0 <= x < 65536 -> hex4 (digits_pad 16 4 x ++ r) = Some (x, r).
Proof.
  intros Hx. cbn [digits_pad app hex4].
  rewrite !hex_value_digit by apply digit_mod. do 2 f_equal.
  assert (Hq : 0 <= x / 16 / 16 / 16 < 16).
  { split; [apply Z.div_pos; [apply Z.div_pos; [apply Z.div_pos|]|]; lia|].
    apply Z.div_lt_upper_bound; [lia|]. apply Z.div_lt_upper_bound; [lia|].
    apply Z.div_lt_upper_bound; lia. }
  rewrite (Z.mod_small (x / 16 / 16 / 16)) by done.
  pose proof (Z.div_mod x 16 ltac:(lia)). pose proof (Z.div_mod (x / 16) 16 ltac:(lia)).
  pose proof (Z.div_mod (x / 16 / 16) 16 ltac:(lia)).
  set (q3 := x / 16 / 16 / 16) in *. set (q2 := x / 16 / 16) in *. set (q1 := x / 16) in *.
  set (m2 := q2 mod 16) in *. set (m1 := q1 mod 16) in *. set (m0 := x mod 16) in *.
  clearbody q1 q2 q3 m0 m1 m2. lia.
Qed.

(** ** Decimal integers *)

Lemma digits_value_snoc ds d : digits_value (ds ++ [d]) = digits_value ds * 10 + (d - 48).
Proof. unfold digits_value. by rewrite fold_left_app. Qed.

(** [str(n)] reads back as [n], given enough fuel. *)
Lemma digits_value_dec f n : 0 <= n < 10 ^ Z.of_nat f -> digits_value (dec_digits f n) = n.
Proof.
  revert n. induction f as [|f IH]; intros n Hn; [cbn in *; lia|].
  cbn [dec_digits]. destruct (n <? 10) eqn:E.
  - unfold digits_value. cbn. lia.
  - rewrite digits_value_snoc, IH.
    + pose proof (Z.div_mod n 10 ltac:(lia)). lia.
    + rewrite Nat2Z.inj_succ, Z.pow_succ_r in Hn by lia.
      split; [apply Z.div_pos; lia|]. apply Z.div_lt_upper_bound; lia.
Qed.

Lemma dec_digits_digits f n : 0 <= n -> Forall (fun c => is_digit c = true) (dec_digits f n).
Proof.
  revert n. induction f as [|f IH]; intros n Hn; cbn; [done|].
  destruct (n <? 10) eqn:E.
  - constructor; [|done]. unfold is_digit. apply andb_true_iff. lia.
  - apply Forall_app. split; [apply IH, Z.div_pos; lia|].
    constructor; [|done]. pose proof (Z.mod_pos_bound n 10 ltac:(lia)).
    unfold is_digit. apply andb_true_iff. lia.
Qed.

(** A positive number has no leading zero. *)
Lemma dec_digits_head f n :
  1 <= n < 10 ^ Z.of_nat f -> exists c r, dec_digits f n = c :: r /\ 49 <= c <= 57.
Proof.
  revert n. induction f as [|f IH]; intros n Hn; [cbn in Hn; lia|].
  cbn [dec_digits]. destruct (n <? 10) eqn:E.
  - eexists _, []. split; [done|lia].
  - rewrite Nat2Z.inj_succ, Z.pow_succ_r in Hn by lia.
    destruct (IH (n / 10)) as (c & r & -> & Hc).
    + split; [apply Z.div_le_lower_bound; lia|]. apply Z.div_lt_upper_bound; lia.
    + by exists c, (r ++ [48 + n mod 10]).
Qed.

(** [nat_fuel n] digits are enough for [n]. *)
Lemma nat_fuel_enough n : 0 <= n -> n < 10 ^ Z.of_nat (nat_fuel n).
Proof.
  intros Hn. unfold nat_fuel. rewrite Nat2Z.inj_succ, Z2Nat.id by apply Z.log2_nonneg.
  destruct (Z.eq_dec n 0) as [->|Hn0]; [cbn; lia|].
  pose proof (Z.log2_spec n ltac:(lia)) as [_ Hlt].
  eapply Z.lt_le_trans; [exact Hlt|]. apply Z.pow_le_mono_l. pose proof (Z.log2_nonneg n). lia.
Qed.

(** A character that may follow a JSON value inside a document. *)
Definition delimiter (c : Z) : bool := (c =? 44) || (c =? 93) || (c =? 125).

(** What may follow a value: the end, or a delimiter. *)
Definition delimited (r : pystr) : Prop :=
  match r with [] => True | c :: _ => delimiter c = true end.

Lemma span_digits_app ds r :
  Forall (fun c => is_digit c = true) ds -> delimited r -> span_digits (ds ++ r) = (ds, r).
Proof.
  intros Hds Hr. induction Hds as [|c ds Hc _ IH]; cbn [app span_digits].
  - destruct r as [|c r]; [done|]. cbn in Hr. cbn [span_digits].
    assert (is_digit c = false) as -> by (unfold delimiter in Hr; unfold is_digit; cmp_cases).
    done.
  - by rewrite Hc, IH.
Qed.

(** ** Numbers *)

Lemma delimiter_cases c : delimiter c = true -> c = 44 \/ c = 93 \/ c = 125.
Proof. unfold delimiter. intros H. repeat rewrite orb_true_iff in H. lia. Qed.

(** A run of digits, signed or not, with no leading zero, reads back as
    an [int]. *)
Lemma scan_number_digits (neg : bool) ds r :
  ds <> [] -> Forall (fun c => is_digit c = true) ds -> (hd 0 ds = 48 -> ds = [48]) -> delimited r ->
  scan_number ((if neg then [45] else []) ++ ds ++ r)
  = Some (PInt (if neg then - digits_value ds else digits_value ds), r).
Proof.
  intros Hne Hds H0 Hr. destruct ds as [|c ds']; [done|].
  assert (Hint : (if c =? 48 then Some ([c], ds' ++ r)
                  else if is_digit c then Some (span_digits (c :: ds' ++ r)) else None)
                 = Some (c :: ds', r)).
  { destruct (Z.eqb_spec c 48) as [->|Hc].
    - specialize (H0 eq_refl). injection H0 as ->. done.
    - apply Forall_cons in Hds as [Hd Hds]. rewrite Hd.
      change (c :: ds' ++ r) with ((c :: ds') ++ r). rewrite span_digits_app; [done| |done]. by constructor. }
  assert (Hc45 : (c =? 45) = false).
  { apply Forall_cons in Hds as [Hc _]. unfold is_digit in Hc. apply Z.eqb_neq. intros ->. done. }
  destruct neg; cbn [app]; unfold scan_number; [|rewrite Hc45]; cbn -[span_digits is_digit digits_value app]. all: rewrite Hint;
  (destruct r as [|c1 r]; [|apply delimiter_cases in Hr as [Hd1|[Hd1|Hd1]]; subst c1; destruct r]); reflexivity.
Qed.

(** The digits [str(n)] prints for [n >= 0]. *)
Lemma dec_digits_ok n :
  0 <= n ->
  dec_digits (nat_fuel n) n <> [] /\ Forall (fun c => is_digit c = true) (dec_digits (nat_fuel n) n)
  /\ (hd 0 (dec_digits (nat_fuel n) n) = 48 -> dec_digits (nat_fuel n) n = [48])
  /\ digits_value (dec_digits (nat_fuel n) n) = n.
Proof.
  intros Hn. pose proof (nat_fuel_enough n Hn) as Hf.
  split_and!; [| by apply dec_digits_digits | | by apply digits_value_dec].
  - destruct (Z.eq_dec n 0) as [->|Hn0]; [done|].
    destruct (dec_digits_head (nat_fuel n) n) as (c & r & -> & _); [lia|done].
  - destruct (Z.eq_dec n 0) as [->|Hn0]; [done|].
    destruct (dec_digits_head (nat_fuel n) n) as (c & r & -> & Hc); [lia|]. cbn. lia.
Qed.

(** The scanner reads back [str(z)]. *)
Lemma scan_number_int z r : delimited r -> scan_number (int_str z ++ r) = Some (PInt z, r).
Proof.
  intros Hr. unfold int_str. destruct (Z.ltb_spec z 0) as [Hz|Hz].
  - destruct (dec_digits_ok (- z)) as (H1 & H2 & H3 & H4); [lia|].
    rewrite <- app_assoc. change (u "-") with (if true then [45] else []).
    rewrite scan_number_digits by done. by rewrite H4, Z.opp_involutive.
  - destruct (dec_digits_ok z) as (H1 & H2 & H3 & H4); [lia|].
    change (dec_digits (nat_fuel z) z ++ r) with ((if false then [45] else []) ++ dec_digits (nat_fuel z) z ++ r).
    rewrite scan_number_digits by done. by rewrite H4.
Qed.

(** ** Surrogate pairs *)

(** Or-ing in bits below [2^k] adds them. *)
Lemma lor_low a k y : 0 <= k -> 0 <= y < 2 ^ k -> Z.lor (a * 2 ^ k) y = a * 2 ^ k + y.
Proof.
  intros Hk Hy. rewrite <- Z.add_lor_land.
  assert (Z.land (a * 2 ^ k) y = 0) as ->; [|lia].
  apply Z.bits_inj'. intros n Hn. rewrite Z.land_spec, Z.bits_0.
  destruct (Z.lt_ge_cases n k) as [Hlt|Hge].
  - by rewrite Z.mul_pow2_bits_low.
  - apply andb_false_iff. right. destruct (Z.eq_dec y 0) as [->|Hy0]; [apply Z.bits_0|].
    apply Z.bits_above_log2; [lia|]. pose proof (proj1 (Z.log2_lt_pow2 y k ltac:(lia)) (proj2 Hy)). lia.
Qed.

Lemma land_1023 x : Z.land x 1023 = x mod 1024.
Proof. change 1023 with (Z.ones 10). by rewrite Z.land_ones. Qed.

(** The two halves of the pair [json.dumps] writes for [c] beyond the
    BMP, and the character the scanner joins them back into. *)
Lemma surrogate_pair c :
  65536 <= c < 1114112 ->
  let n := c - 65536 in
  let s1 := Z.lor 55296 (Z.land (Z.shiftr n 10) 1023) in
  let s2 := Z.lor 56320 (Z.land n 1023) in
  s1 = 55296 + n / 1024 /\ s2 = 56320 + n mod 1024 /\
  65536 + Z.lor (Z.shiftl (s1 - 55296) 10) (s2 - 56320) = c.
Proof.
  intros Hc n s1 s2.
  assert (Hq : 0 <= n / 1024 < 1024) by (split; [apply Z.div_pos|apply Z.div_lt_upper_bound]; lia).
  assert (Hm : 0 <= n mod 1024 < 1024) by (apply Z.mod_pos_bound; lia).
  assert (E1 : s1 = 55296 + n / 1024).
  { unfold s1. rewrite land_1023, Z.shiftr_div_pow2 by lia.
    change (2 ^ 10) with 1024. rewrite (Z.mod_small (n / 1024)) by lia.
    change 55296 with (54 * 2 ^ 10). rewrite lor_low; cbn; lia. }
  assert (E2 : s2 = 56320 + n mod 1024).
  { unfold s2. rewrite land_1023. change 56320 with (55 * 2 ^ 10). rewrite lor_low; cbn; lia. }
  split_and!; [done|done|]. rewrite E1, E2.
  replace (55296 + n / 1024 - 55296) with (n / 1024) by lia.
  replace (56320 + n mod 1024 - 56320) with (n mod 1024) by lia.
  rewrite Z.shiftl_mul_pow2, lor_low by (cbn; lia). change (2 ^ 10) with 1024.
  pose proof (Z.div_mod n 1024 ltac:(lia)). unfold n in *. lia.
Qed.

(** ** String literals *)

(** A code point a round trip keeps: a Unicode scalar value. *)
Definition str_char_ok (c : Z) : bool := (0 <=? c) && (c <? 1114112) && negb (is_surrogate c).

(** The scanner reads one escaped character back. *)
Lemma scan_string_char f c r acc :
  str_char_ok c = true ->
  scan_string (S f) (json_escape_char c ++ r) acc = scan_string f r (acc ++ [c]).
Proof.
  intros Hc. unfold str_char_ok, is_surrogate in Hc. unfold json_escape_char.
  destruct (Z.eqb_spec c 92) as [->|H92]; [reflexivity|].
  destruct (Z.eqb_spec c 34) as [->|H34]; [reflexivity|].
  destruct (Z.eqb_spec c 8) as [->|H8]; [reflexivity|].
  destruct (Z.eqb_spec c 12) as [->|H12]; [reflexivity|].
  destruct (Z.eqb_spec c 10) as [->|H10]; [reflexivity|].
  destruct (Z.eqb_spec c 13) as [->|H13]; [reflexivity|].
  destruct (Z.eqb_spec c 9) as [->|H9]; [reflexivity|].
  destruct ((32 <=? c) && (c <=? 126)) eqn:Ep.
  - cbn [app scan_string]. rewrite (proj2 (Z.eqb_neq c 34) H34), (proj2 (Z.eqb_neq c 92) H92).
    replace (c <? 32) with false by (symmetry; apply Z.ltb_ge; apply andb_true_iff in Ep; lia).
    done.
  - destruct (Z.ltb_spec c 65536) as [Hbmp|Hbig].
    + change (u "\u") with [92; 117]. cbn [app scan_string]. cbn -[hex4 digits_pad is_high_surrogate].
      rewrite hex4_digits_pad by lia.
      replace (is_high_surrogate c) with false; [done|].
      unfold is_high_surrogate. symmetry. apply andb_false_iff.
      apply andb_true_iff in Hc as [_ Hc]. apply negb_true_iff, andb_false_iff in Hc. lia.
    + assert (Hc' : 65536 <= c < 1114112)
        by (apply andb_true_iff in Hc as [Hc _]; apply andb_true_iff in Hc; lia).
      destruct (surrogate_pair c Hc') as (E1 & E2 & E3). cbn zeta in E1, E2, E3.
      rewrite E1, E2 in E3 |- *. change (u "\u") with [92; 117]. rewrite <- !app_assoc.
      cbn [app scan_string]. cbn -[hex4 digits_pad is_high_surrogate is_low_surrogate strip_prefix].
      pose proof (Z.div_lt_upper_bound (c - 65536) 1024 1024 ltac:(lia) ltac:(lia)).
      pose proof (Z.div_pos (c - 65536) 1024 ltac:(lia) ltac:(lia)).
      pose proof (Z.mod_pos_bound (c - 65536) 1024 ltac:(lia)).
      rewrite hex4_digits_pad by lia.
      replace (is_high_surrogate (55296 + (c - 65536) / 1024)) with true
        by (symmetry; unfold is_high_surrogate; apply andb_true_iff; lia).
      cbn [strip_prefix app Z.eqb Pos.eqb]. rewrite hex4_digits_pad by lia.
      replace (is_low_surrogate (56320 + (c - 65536) mod 1024)) with true
        by (symmetry; unfold is_low_surrogate; apply andb_true_iff; lia).
      by rewrite E3.
Qed.

Lemma escape_length c : (1 <= length (json_escape_char c))%nat.
Proof. unfold json_escape_char. repeat case_match; cbn; rewrite ?length_app; cbn; lia. Qed.

Lemma escaped_length s : (length s <= length (mjoin (map json_escape_char s)))%nat.
Proof.
  induction s as [|c s IH]; cbn [length map]; [lia|].
  change (mjoin (json_escape_char c :: map json_escape_char s))
    with (json_escape_char c ++ mjoin (map json_escape_char s)).
  rewrite length_app. pose proof (escape_length c). lia.
Qed.

(** The scanner reads back the body of a string literal up to its
    closing quote. *)
Lemma scan_string_escaped s r acc f :
  Forall (fun c => str_char_ok c = true) s ->
  scan_string (length s + S f) (mjoin (map json_escape_char s) ++ 34 :: r) acc = Ok (acc ++ s, r).
Proof.
  revert acc. induction s as [|c s IH]; intros acc Hs.
  - cbn. by rewrite app_nil_r.
  - apply Forall_cons in Hs as [Hc Hs].
    change (mjoin (map json_escape_char (c :: s)))
      with (json_escape_char c ++ mjoin (map json_escape_char s)).
    change (length (c :: s) + S f)%nat with (S (length s + S f)).
    rewrite <- app_assoc, scan_string_char, IH by done. by rewrite <- app_assoc.
Qed.

Lemma scan_string_json_str s r fuel :
  Forall (fun c => str_char_ok c = true) s -> (length s < fuel)%nat ->
  scan_string fuel (mjoin (map json_escape_char s) ++ 34 :: r) [] = Ok (s, r).
Proof.
  intros Hs Hf. replace fuel with (length s + S (fuel - S (length s)))%nat by lia.
  by rewrite scan_string_escaped.
Qed.

(** ** Values *)

(** The values a JSON round trip keeps. *)
Fixpoint json_value (v : pyval) : bool :=
  match v with
  | PFloat _ => false
  | PStr s => forallb str_char_ok s
  | PList l => forallb json_value l
  | PDict d =>
      bool_decide (NoDup d.*1)
      && forallb (fun kv => forallb str_char_ok kv.1 && json_value kv.2) d
  | _ => true
  end.

(** A bound on the fuel the scanner needs: one unit per value and per
    element or member. *)
Fixpoint jsize (v : pyval) : nat :=
  match v with
  | PList l => S (length l + sum_list_with jsize l)
  | PDict d => S (length d + sum_list_with (fun kv => jsize kv.2) d)
  | _ => 1
  end.

(** The first character of a JSON text: ASCII, not blank, and closing
    no bracket. *)
Definition value_head (c : Z) : bool :=
  (0 <=? c) && (c <? 128) && negb (is_ws c) && negb (c =? 93) && negb (c =? 125).

Lemma json_dumps_head v :
  json_value v = true -> exists c s, json_dumps v = c :: s /\ value_head c = true.
Proof.
  destruct v as [| [] | z | f | s | l | d]; cbn; intros Hv; try discriminate;
    try (eexists _, _; split; [reflexivity|reflexivity]).
  unfold int_str. destruct (Z.ltb_spec z 0).
  - eexists _, _. split; [reflexivity|reflexivity].
  - destruct (dec_digits_ok z) as (Hne & Hds & _); [lia|].
    destruct (dec_digits (nat_fuel z) z) as [|c s] eqn:E; [done|].
    apply Forall_cons in Hds as [Hc _]. exists c, s. split; [done|].
    unfold value_head, is_ws. unfold is_digit in Hc. cmp_cases.
Qed.

Lemma skip_ws_head c s : value_head c = true -> skip_ws (c :: s) = c :: s.
Proof. unfold value_head. intros H. cbn. destruct (is_ws c); [|done]. by rewrite !andb_false_r in H. Qed.

Lemma skip_ws_dumps v r : json_value v = true -> skip_ws (json_dumps v ++ r) = json_dumps v ++ r.
Proof.
  intros Hv. destruct (json_dumps_head v Hv) as (c & s & -> & Hc). by apply skip_ws_head.
Qed.

(** ** The size bound *)

Lemma sum_list_with_le {A} (f g : A -> nat) l :
  Forall (fun x => f x <= g x)%nat l -> (sum_list_with f l <= sum_list_with g l)%nat.
Proof. induction 1; cbn; lia. Qed.

Lemma sum_list_with_add {A} (f : A -> nat) (k : nat) l :
  sum_list_with (fun x => f x + k)%nat l = (sum_list_with f l + k * length l)%nat.
Proof. induction l as [|x l IH]; cbn; lia. Qed.

Lemma join_length {A} (sep : list A) l :
  l <> [] -> (length (join sep l) + length sep = sum_list_with (fun x => length x + length sep) l)%nat.
Proof.
  induction l as [|x [|y l] IH]; intros Hne; [done|cbn; lia|].
  rewrite join_cons2, !length_app. cbn [sum_list_with] in *. rewrite <- IH by done. lia.
Qed.

Lemma forallb_Forall {A} (f : A -> bool) l : forallb f l = true <-> Forall (fun x => f x = true) l.
Proof. induction l as [|x l IH]; cbn; [split; auto|]. by rewrite andb_true_iff, Forall_cons, IH. Qed.

Lemma sum_list_with_map {A B} (f : B -> nat) (g : A -> B) l :
  sum_list_with f (map g l) = sum_list_with (fun x => f (g x)) l.
Proof. induction l; cbn; lia. Qed.

Lemma json_dumps_length_pos v : json_value v = true -> (1 <= length (json_dumps v))%nat.
Proof. intros Hv. destruct (json_dumps_head v Hv) as (c & s & -> & _). cbn. lia. Qed.

(** The fuel [json.loads] is given is enough. *)
Lemma jsize_le_length v : json_value v = true -> (jsize v <= length (json_dumps v))%nat.
Proof.
  induction v as [| | | | | l IH | d IH] using pyval_ind'; intros Hv;
    try (cbn [jsize]; by apply json_dumps_length_pos).
  - cbn [json_value] in Hv. cbn [jsize json_dumps]. rewrite !length_app.
    destruct l as [|x l']; [cbn; lia|].
    pose proof (join_length (u ", ") (map json_dumps (x :: l')) ltac:(done)) as Hj.
    rewrite sum_list_with_map in Hj.
    assert (Hle : (sum_list_with (fun y => jsize y + 2) (x :: l')
                   <= sum_list_with (fun y => length (json_dumps y) + length (u ", ")) (x :: l'))%nat).
    { apply sum_list_with_le. apply forallb_Forall in Hv.
      apply Forall_forall. intros y Hy. rewrite Forall_forall in IH, Hv.
      specialize (IH y Hy (Hv y Hy)). cbn. lia. }
    rewrite sum_list_with_add in Hle.
    change (length (u ", ")) with 2%nat in *. change (length (u "[")) with 1%nat.
    change (length (u "]")) with 1%nat. cbn [length] in *. lia.
  - cbn [json_value] in Hv. apply andb_true_iff in Hv as [_ Hv]. cbn [jsize json_dumps].
    rewrite !length_app. destruct d as [|kv d']; [cbn; lia|].
    pose proof (join_length (u ", ") (map (fun kv => json_str kv.1 ++ u ": " ++ json_dumps kv.2) (kv :: d'))
                  ltac:(done)) as Hj.
    rewrite sum_list_with_map in Hj.
    assert (Hle : (sum_list_with (fun y => jsize y.2 + 2) (kv :: d')
                   <= sum_list_with (fun y => length (json_str y.1 ++ u ": " ++ json_dumps y.2)
                                              + length (u ", ")) (kv :: d'))%nat).
    { apply sum_list_with_le. apply forallb_Forall in Hv.
      apply Forall_forall. intros y Hy. rewrite Forall_forall in IH, Hv.
      specialize (Hv y Hy). apply andb_true_iff in Hv as [_ Hv]. specialize (IH y Hy Hv).
      unfold json_str. rewrite !length_app. change (length (u ": ")) with 2%nat.
      change (length (u ", ")) with 2%nat. cbn [length]. lia. }
    rewrite sum_list_with_add in Hle.
    change (length (u ", ")) with 2%nat in *. change (length (u "{")) with 1%nat.
    change (length (u "}")) with 1%nat. cbn [length] in *. lia.
Qed.

(** ** Reading values back *)

(** What the induction hypothesis gives for an element. *)
Definition reads_back (f : nat) (x : pyval) : Prop :=
  json_value x = true /\
  forall rest, delimited rest -> scan_value f (json_dumps x ++ rest) = Ok (x, rest).

(** Skipping blanks over the separators [json.dumps] writes. *)
Lemma skip_ws_comma r : skip_ws (u ", " ++ r) = 44 :: 32 :: r.
Proof. reflexivity. Qed.
Lemma skip_ws_colon r : skip_ws (u ": " ++ r) = 58 :: 32 :: r.
Proof. reflexivity. Qed.
Lemma skip_ws_space r : skip_ws (32 :: r) = skip_ws r.
Proof. reflexivity. Qed.
Lemma skip_ws_brace r : skip_ws (u "}" ++ r) = 125 :: r.
Proof. reflexivity. Qed.
Lemma skip_ws_bracket r : skip_ws (u "]" ++ r) = 93 :: r.
Proof. reflexivity. Qed.

Lemma join_cons_app {A} (sep x : list A) l : exists R, join sep (x :: l) = x ++ R.
Proof. destruct l as [|y l]; [exists []; by rewrite app_nil_r|]. rewrite join_cons2. by eexists. Qed.

(** A list of values joined by [", "] starts with its first value. *)
Lemma skip_ws_join y l r :
  json_value y = true ->
  skip_ws (join (u ", ") (json_dumps y :: l) ++ r) = join (u ", ") (json_dumps y :: l) ++ r.
Proof.
  intros Hy. destruct (join_cons_app (u ", ") (json_dumps y) l) as [R ->].
  rewrite <- app_assoc. by apply skip_ws_dumps.
Qed.

Lemma scan_array_dumps f g l rest :
  Forall (reads_back f) l -> l <> [] -> (length l <= g)%nat ->
  scan_array (scan_value f) g (join (u ", ") (map json_dumps l) ++ u "]" ++ rest) = Ok (l, rest).
Proof.
  revert g. induction l as [|x l IH]; intros g Hl Hne Hg; [done|].
  apply Forall_cons in Hl as [[Hxv Hx] Hl]. destruct g as [|g]; [cbn in Hg; lia|].
  destruct l as [|y l].
  - cbn [map join scan_array]. rewrite Hx by reflexivity. reflexivity.
  - cbn [map]. rewrite join_cons2, <- !app_assoc. cbn [scan_array].
    rewrite Hx by reflexivity. cbn [res_bind]. rewrite skip_ws_comma. cbn iota beta.
    change (44 =? 93) with false. change (44 =? 44) with true. cbn iota beta.
    rewrite skip_ws_space.
    apply Forall_cons in Hl as Hl'. destruct Hl' as [[Hyv _] _].
    rewrite skip_ws_join by done. change (json_dumps y :: map json_dumps l) with (map json_dumps (y :: l)).
    rewrite (IH g Hl) by (done || (cbn in Hg |- *; lia)).
    reflexivity.
Qed.

(** One [key: value] pair as [json.dumps] writes it. *)
Definition member (kv : pystr * pyval) : pystr := json_str kv.1 ++ u ": " ++ json_dumps kv.2.

Lemma skip_ws_members kv l r :
  skip_ws (join (u ", ") (member kv :: l) ++ r) = join (u ", ") (member kv :: l) ++ r.
Proof. destruct (join_cons_app (u ", ") (member kv) l) as [R ->]. reflexivity. Qed.

(** The scanner reads back the name of a member. *)
Lemma scan_member_key k r :
  forallb str_char_ok k = true ->
  scan_string (S (length (mjoin (map json_escape_char k) ++ 34 :: r)))
    (mjoin (map json_escape_char k) ++ 34 :: r) [] = Ok (k, r).
Proof.
  intros Hk. apply scan_string_json_str; [by apply forallb_Forall|].
  pose proof (escaped_length k). rewrite length_app. cbn. lia.
Qed.

Lemma scan_members_dumps f g d acc rest :
  Forall (fun kv => forallb str_char_ok kv.1 = true /\ reads_back f kv.2) d -> d <> [] ->
  (length d <= g)%nat -> NoDup (acc.*1 ++ d.*1) ->
  scan_members (scan_value f) g (join (u ", ") (map member d) ++ u "}" ++ rest) acc
  = Ok (acc ++ d, rest).
Proof.
  revert g acc. induction d as [|[k v] d IH]; intros g acc Hd Hne Hg Hnd; [done|].
  apply Forall_cons in Hd as [(Hk & Hvv & Hv) Hd]. destruct g as [|g]; [cbn in Hg; lia|].
  assert (Hfresh : dict_set k v acc = acc ++ [(k, v)]).
  { apply dict_set_fresh. cbn in Hnd. apply NoDup_app in Hnd as (_ & Hdis & _).
    intros Hin. apply (Hdis k Hin). set_solver. }
  destruct d as [|kv2 d].
  - cbn [map join]. unfold member, json_str. rewrite <- !app_assoc. cbn [app scan_members].
    change (34 =? 34) with true. cbn iota beta. rewrite scan_member_key by done. cbn [res_bind].
    rewrite skip_ws_colon. cbn iota beta. change (58 =? 58) with true. cbn iota beta.
    rewrite skip_ws_space, skip_ws_dumps, Hv by done. cbn [res_bind].
    rewrite skip_ws_brace. cbn iota beta. change (125 =? 125) with true. cbn iota beta.
    cbn [fst snd]. by rewrite Hfresh.
  - cbn [map]. rewrite join_cons2. unfold member at 1, json_str. rewrite <- !app_assoc.
    cbn [app scan_members]. change (34 =? 34) with true. cbn iota beta.
    rewrite scan_member_key by done. cbn [res_bind].
    rewrite skip_ws_colon. cbn iota beta. change (58 =? 58) with true. cbn iota beta.
    rewrite skip_ws_space, skip_ws_dumps, Hv by done. cbn [res_bind].
    rewrite skip_ws_comma. cbn iota beta. change (44 =? 125) with false.
    change (44 =? 44) with true. cbn iota beta. rewrite skip_ws_space, skip_ws_members.
    cbn [fst snd]. rewrite Hfresh.
    change (member kv2 :: map member d) with (map member (kv2 :: d)).
    rewrite IH by (done || (cbn in Hg |- *; lia) || (rewrite fmap_app, <- app_assoc; exact Hnd)).
    by rewrite <- app_assoc.
Qed.

Lemma strip_prefix_cons_ne p0 p c s : p0 <> c -> strip_prefix (p0 :: p) (c :: s) = None.
Proof. intros H. cbn. by rewrite (proj2 (Z.eqb_neq _ _) H). Qed.

Lemma strip_prefix_cons_eq c p s : strip_prefix (c :: p) (c :: s) = strip_prefix p s.
Proof. cbn. by rewrite Z.eqb_refl. Qed.

(** A number is no constant. *)
Lemma scan_constant_int z r : scan_constant (int_str z ++ r) = None.
Proof.
  assert (Hd : forall n, 0 <= n -> exists c s, dec_digits (nat_fuel n) n = c :: s /\ 48 <= c <= 57).
  { intros n Hn. destruct (dec_digits_ok n Hn) as (Hne & Hds & _).
    destruct (dec_digits (nat_fuel n) n) as [|c s]; [done|].
    apply Forall_cons in Hds as [Hc _]. unfold is_digit in Hc. exists c, s. split; [done|].
    apply andb_true_iff in Hc. lia. }
  unfold scan_constant. change (u "null") with (110 :: u "ull"). change (u "true") with (116 :: u "rue").
  change (u "false") with (102 :: u "alse"). change (u "NaN") with (78 :: u "aN").
  change (u "Infinity") with (73 :: u "nfinity"). change (u "-Infinity") with (45 :: 73 :: u "nfinity").
  unfold int_str. destruct (Z.ltb_spec z 0) as [Hz|Hz].
  - destruct (Hd (- z) ltac:(lia)) as (c & s & -> & Hc). change (u "-") with [45]. cbn [app].
    rewrite !strip_prefix_cons_ne by lia.
    by rewrite strip_prefix_cons_eq, strip_prefix_cons_ne by lia.
  - destruct (Hd z Hz) as (c & s & -> & Hc). cbn [app]. by rewrite !strip_prefix_cons_ne by lia.
Qed.

Lemma scan_value_other f c s :
  c <> 34 -> c <> 123 -> c <> 91 ->
  scan_value (S f) (c :: s) =
    match scan_constant (c :: s) with
    | Some vr => Ok vr
    | None => match scan_number (c :: s) with Some vr => Ok vr | None => Exc JSONDecodeError end
    end.
Proof.
  intros H1 H2 H3. cbn [scan_value].
  by rewrite (proj2 (Z.eqb_neq c 34) H1), (proj2 (Z.eqb_neq c 123) H2), (proj2 (Z.eqb_neq c 91) H3).
Qed.

Lemma int_str_head z : exists c s, int_str z = c :: s /\ (c = 45 \/ 48 <= c <= 57).
Proof.
  unfold int_str. destruct (Z.ltb_spec z 0) as [Hz|Hz]; [by eexists _, _; split; [reflexivity|left]|].
  destruct (dec_digits_ok z Hz) as (Hne & Hds & _).
  destruct (dec_digits (nat_fuel z) z) as [|c s]; [done|].
  apply Forall_cons in Hds as [Hc _]. unfold is_digit in Hc. exists c, s. split; [done|].
  right. apply andb_true_iff in Hc. lia.
Qed.

Lemma scan_value_int f z rest :
  delimited rest -> scan_value (S f) (int_str z ++ rest) = Ok (PInt z, rest).
Proof.
  intros Hr. destruct (int_str_head z) as (c & s & Hcs & Hc).
  rewrite Hcs. cbn [app]. rewrite scan_value_other by lia.
  change (c :: s ++ rest) with ((c :: s) ++ rest). rewrite <- Hcs.
  by rewrite scan_constant_int, scan_number_int.
Qed.

Lemma scan_value_str f s rest :
  forallb str_char_ok s = true -> scan_value (S f) (json_str s ++ rest) = Ok (PStr s, rest).
Proof.
  intros Hs. unfold json_str. rewrite <- !app_assoc. cbn [app scan_value].
  change (34 =? 34) with true. cbn iota beta. by rewrite scan_member_key.
Qed.

Lemma scan_value_list f l rest :
  Forall (reads_back f) l -> (length l <= f)%nat ->
  scan_value (S f) (json_dumps (PList l) ++ rest) = Ok (PList l, rest).
Proof.
  intros Hl Hf. cbn [json_dumps]. rewrite <- !app_assoc. change (u "[") with [91].
  cbn [app scan_value]. change (91 =? 34) with false. change (91 =? 123) with false.
  change (91 =? 91) with true. cbn iota beta.
  destruct l as [|x l'].
  - cbn [map join app]. rewrite skip_ws_bracket. reflexivity.
  - pose proof Hl as Hl'. apply Forall_cons in Hl' as [[Hxv _] _].
    cbn [map]. rewrite skip_ws_join by done.
    destruct (join_cons_app (u ", ") (json_dumps x) (map json_dumps l')) as [R HR].
    rewrite HR, <- app_assoc. destruct (json_dumps_head x Hxv) as (c & s & Hx & Hc).
    rewrite Hx. cbn [app].
    replace (c =? 93) with false
      by (symmetry; unfold value_head in Hc; apply Z.eqb_neq; intros ->; by rewrite !andb_false_r in Hc).
    cbn iota beta. change (c :: s ++ R ++ u "]" ++ rest) with ((c :: s) ++ R ++ u "]" ++ rest).
    rewrite <- Hx, app_assoc, <- HR.
    change (json_dumps x :: map json_dumps l') with (map json_dumps (x :: l')).
    by rewrite scan_array_dumps.
Qed.

Lemma member_head kv : exists s, member kv = 34 :: s.
Proof. by eexists. Qed.

Lemma scan_value_dict f d rest :
  Forall (fun kv => forallb str_char_ok kv.1 = true /\ reads_back f kv.2) d -> NoDup d.*1 ->
  (length d <= f)%nat ->
  scan_value (S f) (json_dumps (PDict d) ++ rest) = Ok (PDict d, rest).
Proof.
  intros Hd Hnd Hf. cbn [json_dumps]. rewrite <- !app_assoc. change (u "{") with [123].
  cbn [app scan_value]. change (123 =? 34) with false. change (123 =? 123) with true. cbn iota beta.
  destruct d as [|kv d'].
  - cbn [map join app]. rewrite skip_ws_brace. reflexivity.
  - change (map (fun kv => json_str kv.1 ++ u ": " ++ json_dumps kv.2) (kv :: d'))
      with (map member (kv :: d')).
    cbn [map]. rewrite skip_ws_members.
    destruct (join_cons_app (u ", ") (member kv) (map member d')) as [R HR].
    rewrite HR, <- app_assoc. destruct (member_head kv) as [s Hs]. rewrite Hs. cbn [app].
    change (34 =? 125) with false. cbn iota beta.
    change (34 :: s ++ R ++ u "}" ++ rest) with ((34 :: s) ++ R ++ u "}" ++ rest).
    rewrite <- Hs, app_assoc, <- HR. change (member kv :: map member d') with (map member (kv :: d')).
    rewrite (scan_members_dumps f f (kv :: d') [] rest) by done. done.
Qed.

Lemma sum_list_with_elem {A} (f : A -> nat) l x : x ∈ l -> (f x <= sum_list_with f l)%nat.
Proof.
  induction l as [|y l IH]; intros Hx; [set_solver|].
  apply elem_of_cons in Hx as [->|Hx]; cbn; [lia|]. specialize (IH Hx). lia.
Qed.

(** The scanner reads back every value [json.dumps] writes, given the
    fuel [jsize]. *)
Lemma scan_value_dumps v fuel rest :
  json_value v = true -> (jsize v <= fuel)%nat -> delimited rest ->
  scan_value fuel (json_dumps v ++ rest) = Ok (v, rest).
Proof.
  revert fuel rest.
  induction v as [| b | z | lit | s | l IH | d IH] using pyval_ind'; intros fuel rest Hv Hf Hr;
    (destruct fuel as [|f]; [cbn in Hf; lia|]).
  - reflexivity.
  - by destruct b.
  - by apply scan_value_int.
  - discriminate.
  - by apply scan_value_str.
  - cbn [jsize] in Hf. cbn [json_value] in Hv. apply forallb_Forall in Hv.
    apply scan_value_list; [|lia]. rewrite Forall_forall in IH, Hv |- *. intros x Hx.
    split; [by apply Hv|]. intros r Hr'. apply IH; auto.
    pose proof (sum_list_with_elem jsize l x Hx). lia.
  - cbn [jsize] in Hf. cbn [json_value] in Hv. apply andb_true_iff in Hv as [Hnd Hv].
    apply bool_decide_eq_true in Hnd. apply forallb_Forall in Hv.
    apply scan_value_dict; [|done|lia]. rewrite Forall_forall in IH, Hv |- *. intros kv Hkv.
    specialize (Hv kv Hkv). apply andb_true_iff in Hv as [Hk Hv].
    split; [done|]. split; [done|]. intros r Hr'. apply IH; auto.
    pose proof (sum_list_with_elem (fun kv => jsize kv.2) d kv Hkv). lia.
Qed.

Lemma value_head_ascii c : value_head c = true -> 0 <= c < 128.
Proof.
  unfold value_head. intros H. destruct (Z.leb_spec 0 c), (Z.ltb_spec c 128); cbn in H;
    try discriminate; lia.
Qed.

(** [json.loads(json.dumps(v)) == v] for the values JSON keeps. *)
Lemma json_loads_dumps v : json_value v = true -> json_loads_str (json_dumps v) = Ok v.
Proof.
  intros Hv. pose proof (jsize_le_length v Hv) as Hlen.
  destruct (json_dumps_head v Hv) as (c & s & Hcs & Hc). unfold json_loads_str. rewrite Hcs.
  replace (c =? 65279) with false
    by (symmetry; apply Z.eqb_neq; apply value_head_ascii in Hc; lia).
  rewrite <- Hcs, <- (app_nil_r (json_dumps v)), skip_ws_dumps, scan_value_dumps by (done || (rewrite app_nil_r; lia)).
  reflexivity.
Qed.

(** ** The responses of the user handlers *)

(** The dict [{'statusCode': code, 'body': json.dumps({'message': msg})}]
    reads back, body included, as the code and the message. *)
Lemma api_response_json code msg :
  forallb str_char_ok msg = true ->
  getitem (api_response code msg) (u "statusCode") = Ok (PInt code)
  /\ res_bind (getitem (api_response code msg) (u "body")) json_loads
     = Ok (PDict [(u "message", PStr msg)]).
Proof.
  intros Hm. split; [reflexivity|]. cbn [api_response getitem assoc].
  rewrite decide_False by discriminate. rewrite decide_True by reflexivity. cbn [res_bind json_loads].
  apply json_loads_dumps. change (json_value (PDict [(u "message", PStr msg)]))
    with (bool_decide (NoDup [u "message"]) && (forallb str_char_ok (u "message")
          && forallb str_char_ok msg && true)).
  rewrite Hm. by rewrite bool_decide_true by (repeat constructor; set_solver).
Qed.
