(* ===== verification/UpdateExpr.v ===== *)
(** * DynamoDB update expressions: the [SET] fragment

    What the DynamoDB service does with the [UpdateExpression] string
    that [update_user.py] builds: it splits it into tokens, parses
    [SET path = operand, ...], and refuses a name that is one of its
    reserved words.  The fragment is the one the handler can produce:
    plain attribute names and [:placeholder] operands.  Any other form
    (other clauses, functions, arithmetic, document paths) is refused by
    [parse_update]; the update handler never builds one that passes the
    placeholder check of [UpdateItem] (see [UpdateUser]).

    Names are [[A-Za-z_][A-Za-z0-9_]*], placeholders [:[A-Za-z0-9_]+];
    the keyword [SET] and the reserved words match case-insensitively.
    [reserved_words] is the list of the DynamoDB developer guide. *)

From S2P Require Import Prelude.

(** ** Tokens *)

Inductive utok :=
| TName (n : pystr)     (** an attribute name or a keyword *)
| TValue (v : pystr)    (** a placeholder, with its leading [:] *)
| TEq
| TComma.

#[export] Instance utok_eq_dec : EqDecision utok.
Proof. solve_decision. Defined.

Fixpoint span_word (s : pystr) : pystr * pystr :=
  match s with
  | c :: s' => if is_word c then let '(w, r) := span_word s' in (c :: w, r) else ([], s)
  | [] => ([], [])
  end.

(** The lexer, on fuel: each step consumes a character. *)
Fixpoint lex (fuel : nat) (s : pystr) : option (list utok) :=
  match fuel with
  | O => None
  | S f =>
    match s with
    | [] => Some []
    | c :: r =>
      if is_ws c then lex f r
      else if c =? 61 then ts ← lex f r; Some (TEq :: ts)
      else if c =? 44 then ts ← lex f r; Some (TComma :: ts)
      else if c =? 58 then
        let '(w, r') := span_word r in
        match w with
        | [] => None
        | _ :: _ => ts ← lex f r'; Some (TValue (c :: w) :: ts)
        end
      else if is_alpha c || (c =? 95) then
        let '(w, r') := span_word r in ts ← lex f r'; Some (TName (c :: w) :: ts)
      else None
    end
  end.

(** [name = :placeholder] clauses separated by commas. *)
Fixpoint parse_clauses (ts : list utok) : option (list (pystr * pystr)) :=
  match ts with
  | [TName n; TEq; TValue v] => Some [(n, v)]
  | TName n :: TEq :: TValue v :: TComma :: ts' =>
      cl ← parse_clauses ts'; Some ((n, v) :: cl)
  | _ => None
  end.

Definition to_upper (c : Z) : Z := if is_lower c then c - 32 else c.

Definition upper (s : pystr) : pystr := map to_upper s.

(** The clauses of [SET n1 = :v1, ..., nk = :vk], or [None] for a
    syntax error. *)
Definition parse_update (e : pystr) : option (list (pystr * pystr)) :=
  match lex (S (length e)) e with
  | Some (TName kw :: ts) => if decide (upper kw = u "SET") then parse_clauses ts else None
  | _ => None
  end.

(** A key of [ExpressionAttributeValues] the service accepts. *)
Definition valid_placeholder (k : pystr) : bool :=
  match k with
  | c :: w => (c =? 58) && negb (bool_decide (w = [])) && forallb is_word w
  | [] => false
  end.

(** ** Reserved words *)

Fixpoint split_spaces_go (s : list Ascii.ascii) (cur : pystr) : list pystr :=
  match s with
  | [] => match cur with [] => [] | _ => [rev cur] end
  | c :: s' =>
      if Ascii.is_space c then
        match cur with [] => split_spaces_go s' [] | _ => rev cur :: split_spaces_go s' [] end
      else split_spaces_go s' (Z.of_N (Ascii.N_of_ascii c) :: cur)
  end.

Definition split_spaces (s : string) : list pystr :=
  split_spaces_go (String.list_ascii_of_string s) [].

Definition reserved_words : list pystr := split_spaces
  "ABORT ABSOLUTE ACTION ADD AFTER AGENT AGGREGATE ALL ALLOCATE ALTER ANALYZE AND ANY
   ARCHIVE ARE ARRAY AS ASC ASCII ASENSITIVE ASSERTION ASYMMETRIC AT ATOMIC ATTACH
   ATTRIBUTE AUTH AUTHORIZATION AUTHORIZE AUTO AVG BACK BACKUP BASE BATCH BEFORE BEGIN
   BETWEEN BIGINT BINARY BIT BLOB BLOCK BOOLEAN BOTH BREADTH BUCKET BULK BY BYTE CALL
   CALLED CALLING CAPACITY CASCADE CASCADED CASE CAST CATALOG CHAR CHARACTER CHECK CLASS
   CLOB CLOSE CLUSTER CLUSTERED CLUSTERING CLUSTERS COALESCE COLLATE COLLATION
   COLLECTION COLUMN COLUMNS COMBINE COMMENT COMMIT COMPACT COMPILE COMPRESS CONDITION
   CONFLICT CONNECT CONNECTION CONSISTENCY CONSISTENT CONSTRAINT CONSTRAINTS CONSTRUCTOR
   CONSUMED CONTINUE CONVERT COPY CORRESPONDING COUNT COUNTER CREATE CROSS CUBE CURRENT
   CURSOR CYCLE DATA DATABASE DATE DATETIME DAY DEALLOCATE DEC DECIMAL DECLARE DEFAULT
   DEFERRABLE DEFERRED DEFINE DEFINED DEFINITION DELETE DELIMITED DEPTH DEREF DESC
   DESCRIBE DESCRIPTOR DETACH DETERMINISTIC DIAGNOSTICS DIRECTORIES DISABLE DISCONNECT
   DISTINCT DISTRIBUTE DO DOMAIN DOUBLE DROP DUMP DURATION DYNAMIC EACH ELEMENT ELSE
   ELSEIF EMPTY ENABLE END EQUAL EQUALS ERROR ESCAPE ESCAPED EVAL EVALUATE EXCEEDED
   EXCEPT EXCEPTION EXCEPTIONS EXCLUSIVE EXEC EXECUTE EXISTS EXIT EXPLAIN EXPLODE EXPORT
   EXPRESSION EXTENDED EXTERNAL EXTRACT FAIL FALSE FAMILY FETCH FIELDS FILE FILTER
   FILTERING FINAL FINISH FIRST FIXED FLATTERN FLOAT FOR FORCE FOREIGN FORMAT FORWARD
   FOUND FREE FROM FULL FUNCTION FUNCTIONS GENERAL GENERATE GET GLOB GLOBAL GO GOTO
   GRANT GREATER GROUP GROUPING HANDLER HASH HAVE HAVING HEAP HIDDEN HOLD HOUR
   IDENTIFIED IDENTITY IF IGNORE IMMEDIATE IMPORT IN INCLUDING INCLUSIVE INCREMENT
   INCREMENTAL INDEX INDEXED INDEXES INDICATOR INFINITE INITIALLY INLINE INNER INNTER
   INOUT INPUT INSENSITIVE INSERT INSTEAD INT INTEGER INTERSECT INTERVAL INTO INVALIDATE
   IS ISOLATION ITEM ITEMS ITERATE JOIN KEY KEYS LAG LANGUAGE LARGE LAST LATERAL LEAD
   LEADING LEAVE LEFT LENGTH LESS LEVEL LIKE LIMIT LIMITED LINES LIST LOAD LOCAL
   LOCALTIME LOCALTIMESTAMP LOCATION LOCATOR LOCK LOCKS LOG LOGED LONG LOOP LOWER MAP
   MATCH MATERIALIZED MAX MAXLEN MEMBER MERGE METHOD METRICS MIN MINUS MINUTE MISSING
   MOD MODE MODIFIES MODIFY MODULE MONTH MULTI MULTISET NAME NAMES NATIONAL NATURAL
   NCHAR NCLOB NEW NEXT NO NONE NOT NULL NULLIF NUMBER NUMERIC OBJECT OF OFFLINE OFFSET
   OLD ON ONLINE ONLY OPAQUE OPEN OPERATOR OPTION OR ORDER ORDINALITY OTHER OTHERS OUT
   OUTER OUTPUT OVER OVERLAPS OVERRIDE OWNER PAD PARALLEL PARAMETER PARAMETERS PARTIAL
   PARTITION PARTITIONED PARTITIONS PATH PERCENT PERCENTILE PERMISSION PERMISSIONS PIPE
   PIPELINED PLAN POOL POSITION PRECISION PREPARE PRESERVE PRIMARY PRIOR PRIVATE
   PRIVILEGES PROCEDURE PROCESSED PROJECT PROJECTION PROPERTY PROVISIONING PUBLIC PUT
   QUERY QUIT QUORUM RAISE RANDOM RANGE RANK RAW READ READS REAL REBUILD RECORD
   RECURSIVE REDUCE REF REFERENCE REFERENCES REFERENCING REGEXP REGION REINDEX RELATIVE
   RELEASE REMAINDER RENAME REPEAT REPLACE REQUEST RESET RESIGNAL RESOURCE RESPONSE
   RESTORE RESTRICT RESULT RETURN RETURNING RETURNS REVERSE REVOKE RIGHT ROLE ROLES
   ROLLBACK ROLLUP ROUTINE ROW ROWS RULE RULES SAMPLE SATISFIES SAVE SAVEPOINT SCAN
   SCHEMA SCOPE SCROLL SEARCH SECOND SECTION SEGMENT SEGMENTS SELECT SELF SEMI SENSITIVE
   SEPARATE SEQUENCE SERIALIZABLE SESSION SET SETS SHARD SHARE SHARED SHORT SHOW SIGNAL
   SIMILAR SIZE SKEWED SMALLINT SNAPSHOT SOME SOURCE SPACE SPACES SPARSE SPECIFIC
   SPECIFICTYPE SPLIT SQL SQLCODE SQLERROR SQLEXCEPTION SQLSTATE SQLWARNING START STATE
   STATIC STATUS STORAGE STORE STORED STREAM STRING STRUCT STYLE SUB SUBMULTISET
   SUBPARTITION SUBSTRING SUBTYPE SUM SUPER SYMMETRIC SYNONYM SYSTEM TABLE TABLESAMPLE
   TEMP TEMPORARY TERMINATED TEXT THAN THEN THROUGHPUT TIME TIMESTAMP TIMEZONE TINYINT
   TO TOKEN TOTAL TOUCH TRAILING TRANSACTION TRANSFORM TRANSLATE TRANSLATION TREAT
   TRIGGER TRIM TRUE TRUNCATE TTL TUPLE TYPE UNDER UNDO UNION UNIQUE UNIT UNKNOWN
   UNLOGGED UNNEST UNPROCESSED UNSIGNED UNTIL UPDATE UPPER URL USAGE USE USER USERS
   USING UUID VACUUM VALUE VALUED VALUES VARCHAR VARIABLE VARIANCE VARINT VARYING VIEW
   VIEWS VIRTUAL VOID WAIT WHEN WHENEVER WHERE WHILE WINDOW WITH WITHIN WITHOUT WORK
   WRAPPED WRITE YEAR ZONE".

Definition is_reserved (n : pystr) : bool := bool_decide (upper n ∈ reserved_words).

(** ** Lexing, step by step *)

Lemma span_word_app s w r : span_word s = (w, r) -> s = w ++ r.
Proof.
  revert w r. induction s as [|c s IH]; cbn; intros w r E; [by simplify_eq|].
  destruct (is_word c); [|by simplify_eq].
  destruct (span_word s) as [w' r'] eqn:E'. injection E as <- <-.
  by rewrite (IH w' r' eq_refl).
Qed.

Lemma span_word_words w r :
  Forall (fun c => is_word c = true) w -> (forall c r', r = c :: r' -> is_word c = false) ->
  span_word (w ++ r) = (w, r).
Proof.
  intros Hw Hr. induction Hw as [|c w Hc _ IH]; cbn [app span_word].
  - destruct r as [|c r]; [done|]. cbn [span_word]. by rewrite (Hr c r eq_refl).
  - by rewrite Hc, IH.
Qed.

(** The lexer's answer does not depend on the fuel once it exceeds the
    length of the input. *)
Lemma lex_fuel n f s : (length s < n)%nat -> (length s < f)%nat -> lex n s = lex f s.
Proof.
  revert f s. induction n as [|n IH]; intros f s Hn Hf; [lia|].
  destruct f as [|f]; [lia|]. destruct s as [|c r]; [done|]. cbn in Hn, Hf |- *.
  destruct (span_word r) as [w r'] eqn:E.
  pose proof (f_equal length (span_word_app r w r' E)) as Hlen.
  rewrite length_app in Hlen.
  repeat (case_match; try done).
  all: rewrite (IH f) by (cbn in *; lia); done.
Qed.

Lemma lex_S_cons f c r :
  lex (S f) (c :: r) =
    if is_ws c then lex f r
    else if c =? 61 then ts ← lex f r; Some (TEq :: ts)
    else if c =? 44 then ts ← lex f r; Some (TComma :: ts)
    else if c =? 58 then
      let '(w, r') := span_word r in
      match w with
      | [] => None
      | _ :: _ => ts ← lex f r'; Some (TValue (c :: w) :: ts)
      end
    else if is_alpha c || (c =? 95) then
      let '(w, r') := span_word r in ts ← lex f r'; Some (TName (c :: w) :: ts)
    else None.
Proof. reflexivity. Qed.

(** [Lex s] is the lexer with enough fuel. *)
Definition Lex (s : pystr) : option (list utok) := lex (S (length s)) s.

Lemma Lex_unfold c r :
  Lex (c :: r) =
    if is_ws c then Lex r
    else if c =? 61 then ts ← Lex r; Some (TEq :: ts)
    else if c =? 44 then ts ← Lex r; Some (TComma :: ts)
    else if c =? 58 then
      let '(w, r') := span_word r in
      match w with
      | [] => None
      | _ :: _ => ts ← Lex r'; Some (TValue (c :: w) :: ts)
      end
    else if is_alpha c || (c =? 95) then
      let '(w, r') := span_word r in ts ← Lex r'; Some (TName (c :: w) :: ts)
    else None.
Proof.
  unfold Lex at 1. cbn [length]. rewrite lex_S_cons.
  destruct (span_word r) as [w r'] eqn:E.
  pose proof (f_equal length (span_word_app r w r' E)) as Hlen.
  rewrite length_app in Hlen.
  rewrite (lex_fuel (S (length r)) (S (length r')) r') by lia.
  reflexivity.
Qed.

(** A name (or placeholder body) followed by a character that ends it. *)
Definition ends_word (r : pystr) : Prop := forall c r', r = c :: r' -> is_word c = false.

Lemma Lex_name c w r :
  is_alpha c || (c =? 95) = true -> Forall (fun x => is_word x = true) w -> ends_word r ->
  Lex (c :: w ++ r) = ts ← Lex r; Some (TName (c :: w) :: ts).
Proof.
  intros Hc Hw Hr. rewrite Lex_unfold, span_word_words by done.
  destruct (is_ws c) eqn:Hws; [unfold is_ws, is_alpha, is_upper, is_lower in *; lia|].
  destruct (c =? 61) eqn:E1; [apply Z.eqb_eq in E1; subst; discriminate|].
  destruct (c =? 44) eqn:E2; [apply Z.eqb_eq in E2; subst; discriminate|].
  destruct (c =? 58) eqn:E3; [apply Z.eqb_eq in E3; subst; discriminate|].
  by rewrite Hc.
Qed.

Lemma Lex_value w r :
  w <> [] -> Forall (fun x => is_word x = true) w -> ends_word r ->
  Lex (58 :: w ++ r) = ts ← Lex r; Some (TValue (58 :: w) :: ts).
Proof.
  intros Hne Hw Hr. rewrite Lex_unfold, span_word_words by done. cbn.
  by destruct w.
Qed.

Lemma Lex_ws c r : is_ws c = true -> Lex (c :: r) = Lex r.
Proof. intros H. by rewrite Lex_unfold, H. Qed.

Lemma Lex_eq r : Lex (61 :: r) = ts ← Lex r; Some (TEq :: ts).
Proof. by rewrite Lex_unfold. Qed.

Lemma Lex_comma r : Lex (44 :: r) = ts ← Lex r; Some (TComma :: ts).
Proof. by rewrite Lex_unfold. Qed.

(** A digit cannot start a token. *)
Lemma Lex_digit c r : is_digit c = true -> Lex (c :: r) = None.
Proof.
  intros Hd. unfold is_digit in Hd. rewrite Lex_unfold.
  unfold is_ws, is_alpha, is_upper, is_lower.
  repeat (case_match; try done); destruct (span_word r); try lia.
Qed.

(** ** The expressions [SET k1 = :k1, ..., kn = :kn] *)

(** A name as the lexer reads one. *)
Definition valid_name (n : pystr) : bool :=
  match n with c :: w => (is_alpha c || (c =? 95)) && forallb is_word w | [] => false end.

(** A non-empty word: what may follow the [:] of a placeholder. *)
Definition word_key (k : pystr) : bool := negb (bool_decide (k = [])) && forallb is_word k.

Definition set_clause (k : pystr) : pystr := k ++ u " = :" ++ k.

Fixpoint clause_tokens (ks : list pystr) : list utok :=
  match ks with
  | [] => []
  | [k] => [TName k; TEq; TValue (58 :: k)]
  | k :: ks' => TName k :: TEq :: TValue (58 :: k) :: TComma :: clause_tokens ks'
  end.

Lemma u_set_sep : u " = :" = [32; 61; 32; 58]. Proof. reflexivity. Qed.
Lemma u_comma_sep : u ", " = [44; 32]. Proof. reflexivity. Qed.
Lemma u_set_kw : u "SET " = [83; 69; 84; 32]. Proof. reflexivity. Qed.

Lemma forallb_word_Forall w : forallb is_word w = true -> Forall (fun x => is_word x = true) w.
Proof. rewrite forallb_forall, Forall_forall. intros H x Hx. by apply H, list_elem_of_In. Qed.

Lemma Lex_set_clause k rest :
  word_key k = true -> ends_word rest ->
  Lex (set_clause k ++ rest) =
    if valid_name k then ts ← Lex rest; Some (TName k :: TEq :: TValue (58 :: k) :: ts)
    else None.
Proof.
  intros Hk Hr. destruct k as [|c w]; [discriminate|].
  apply andb_prop in Hk as [_ Hk]. cbn [forallb] in Hk. apply andb_prop in Hk as [Hc Hw].
  unfold set_clause. rewrite u_set_sep, <- !app_assoc. cbn [app valid_name].
  destruct (is_alpha c || (c =? 95)) eqn:Hst.
  - rewrite Lex_name by (done || by apply forallb_word_Forall || by intros ?? [= <- _]).
    rewrite Lex_ws by done. rewrite Lex_eq. rewrite Lex_ws by done.
    pose proof (Lex_value (c :: w) rest) as HV. cbn [app] in HV.
    rewrite HV by (done || by constructor; [|apply forallb_word_Forall]).
    rewrite Hw. cbn [andb]. by destruct (Lex rest).
  - apply Lex_digit. unfold is_word in Hc. destruct (is_alpha c), (c =? 95); cbn in *;
      by rewrite ?orb_false_r in Hc.
Qed.

Lemma Lex_clauses ks :
  ks <> [] -> Forall (fun k => word_key k = true) ks ->
  Lex (join (u ", ") (map set_clause ks)) =
    if forallb valid_name ks then Some (clause_tokens ks) else None.
Proof.
  rewrite u_comma_sep.
  induction ks as [|k ks IH]; intros Hne Hks; [done|]. inversion Hks as [|? ? Hk Hks']; subst.
  destruct ks as [|k2 ks].
  - cbn [map join]. rewrite <- (app_nil_r (set_clause k)).
    rewrite Lex_set_clause by (done || by intros ?? [=]). cbn. by destruct (valid_name k).
  - change (map set_clause (k :: k2 :: ks))
      with (set_clause k :: set_clause k2 :: map set_clause ks).
    rewrite join_cons2, Lex_set_clause by (done || by intros ?? [= <- _]).
    cbn [app]. rewrite Lex_comma, Lex_ws by done.
    cbn [map] in IH. rewrite IH by done. cbn [forallb].
    destruct (valid_name k), (valid_name k2 && forallb valid_name ks); done.
Qed.

Lemma parse_clauses_comma n v ts :
  parse_clauses (TName n :: TEq :: TValue v :: TComma :: ts) =
    cl ← parse_clauses ts; Some ((n, v) :: cl).
Proof. reflexivity. Qed.

Lemma parse_clause_tokens ks :
  ks <> [] -> parse_clauses (clause_tokens ks) = Some (map (fun k => (k, 58 :: k)) ks).
Proof.
  induction ks as [|k ks IH]; intros Hne; [done|].
  destruct ks as [|k2 ks]; [done|].
  change (clause_tokens (k :: k2 :: ks))
    with (TName k :: TEq :: TValue (58 :: k) :: TComma :: clause_tokens (k2 :: ks)).
  rewrite parse_clauses_comma, IH by done. done.
Qed.

(** The expression the update handler sends parses back to its clauses,
    when every key is a name; a key that starts with a digit is a syntax
    error. *)
Lemma parse_update_set ks :
  ks <> [] -> Forall (fun k => word_key k = true) ks ->
  parse_update (u "SET " ++ join (u ", ") (map set_clause ks)) =
    if forallb valid_name ks then Some (map (fun k => (k, 58 :: k)) ks) else None.
Proof.
  intros Hne Hks. unfold parse_update. fold (Lex (u "SET " ++ join (u ", ") (map set_clause ks))).
  pose proof (Lex_name 83 [69; 84] (32 :: join (u ", ") (map set_clause ks))) as HL.
  cbn [app] in HL. rewrite u_set_kw. cbn [app].
  rewrite HL by (done || by repeat constructor || by intros ?? [= <- _]).
  rewrite Lex_ws, Lex_clauses by done.
  destruct (forallb valid_name ks); [|done]. cbn. by apply parse_clause_tokens.
Qed.
