(* ===== verification/Dynamo.v ===== *)
(** * The DynamoDB table and the boto3 [Table] resource

    Three layers, as a request goes:
    - boto3's [TypeSerializer] turns a Python value into an
      [AttributeValue] ([serialize]) on the client, and
      [TypeDeserializer] turns it back ([deserialize]);
    - the service keeps a table of items keyed by the string attribute
      [id]; [Table] is what the handlers may assume of it (its operations
      [svc_put_item], [svc_delete_item], [svc_update_item], [table_get])
      and [TableLaws] the contract they rely on;
    - [ddb] is a model of the service on a [gmap] from keys to items, with
      the validation DynamoDB applies, the key limits among it (a key
      of 1 to 2048 bytes in UTF-8, [key_ok]); [ddb_laws] shows it meets
      the contract.
    The boto3 calls the handlers make ([put_item], [delete_item],
    [update_item]) run in [PyM T] over any [Table T]: serialisation
    errors are raised before the request, and a refused request raises a
    [ClientError "ValidationException"] and leaves the table as it was.

    Numbers are modelled as integers: boto3 sends an [int] through a
    [decimal] context of precision 38 with every signal trapped, so an
    integer of more than 38 digits raises, and reads it back as a
    [Decimal], which compares equal to the [int].  Not modelled: the
    400 KB item size limit, binary and set types (JSON has none). *)

From S2P Require Import Prelude PyValue Json UpdateExpr.

(** ** Attribute values *)

#[local] Set Warnings "-register-all".

Inductive attr :=
| AS (s : pystr)
| AN (n : Z)
| ABool (b : bool)
| ANull
| AL (l : list attr)
| AM (m : list (pystr * attr)).

Abbreviation item := (gmap pystr attr).

Definition validation : exn := ClientError "ValidationException".

(** The numbers the [decimal] context of boto3 takes without a signal. *)
Definition ddb_number_ok (z : Z) : bool := Z.abs z <? 10 ^ 38.

(** [TypeSerializer.serialize]: [None], then [bool] before [int], then
    [str], mappings and lists; a [float] is refused. *)
Fixpoint serialize (v : pyval) : res attr :=
  match v with
  | PNone => Ok ANull
  | PBool b => Ok (ABool b)
  | PInt z => if ddb_number_ok z then Ok (AN z) else Exc (ArithmeticError "decimal signal")
  | PFloat _ => Exc (TypeError "Float types are not supported. Use Decimal types instead.")
  | PStr s => Ok (AS s)
  | PList l =>
      let fix go (l : list pyval) : res (list attr) :=
        match l with
        | [] => Ok []
        | x :: l' => a <-! serialize x ;; r <-! go l' ;; Ok (a :: r)
        end in
      r <-! go l ;; Ok (AL r)
  | PDict d =>
      let fix go (d : list (pystr * pyval)) : res (list (pystr * attr)) :=
        match d with
        | [] => Ok []
        | (k, x) :: d' => a <-! serialize x ;; r <-! go d' ;; Ok ((k, a) :: r)
        end in
      r <-! go d ;; Ok (AM r)
  end.

(** The values of a dict, serialised in the dict's order. *)
Fixpoint serialize_dict (d : list (pystr * pyval)) : res (list (pystr * attr)) :=
  match d with
  | [] => Ok []
  | (k, x) :: d' => a <-! serialize x ;; r <-! serialize_dict d' ;; Ok ((k, a) :: r)
  end.

(** [TypeDeserializer.deserialize]; a number comes back as a [Decimal],
    modelled by the [int] it equals. *)
Fixpoint deserialize (a : attr) : pyval :=
  match a with
  | AS s => PStr s
  | AN n => PInt n
  | ABool b => PBool b
  | ANull => PNone
  | AL l => PList (map deserialize l)
  | AM m => PDict (map (fun ka => (ka.1, deserialize ka.2)) m)
  end.

(** The values boto3 sends without raising: no [float] and no number
    beyond 38 digits, at any depth. *)
Fixpoint storable (v : pyval) : bool :=
  match v with
  | PFloat _ => false
  | PInt z => ddb_number_ok z
  | PList l => forallb storable l
  | PDict d => forallb (fun kv => storable kv.2) d
  | _ => true
  end.

(** ** The contract of the table *)

Class Table (T : Type) := {
  table_get : pystr -> T -> option item;
  svc_put_item : item -> T -> res T;
  svc_delete_item : attr -> T -> res T;
  svc_update_item : attr -> pystr -> list (pystr * attr) -> T -> res T;
}.

(** The size DynamoDB counts for a string: its length in UTF-8. *)
Definition key_size (k : pystr) : nat := length (mjoin (map utf8_char k)).

(** A partition key value of type [S] holds 1 to 2048 bytes. *)
Definition key_ok (k : pystr) : bool :=
  match k with [] => false | _ :: _ => (key_size k <=? 2048)%nat end.

(** The key of an item: its [id] attribute, a string within the key
    limits. *)
Definition item_key (it : item) : option pystr :=
  match it !! u "id" with
  | Some (AS k) => if key_ok k then Some k else None
  | _ => None
  end.

(** [PutItem] accepts an item with a key and no empty attribute name. *)
Definition put_valid (it : item) : option pystr :=
  match item_key it with
  | Some k => match it !! [] with None => Some k | Some _ => None end
  | None => None
  end.

(** [DeleteItem] and [UpdateItem] accept a key that is a string within
    the key limits. *)
Definition key_valid (key : attr) : option pystr :=
  match key with AS k => if key_ok k then Some k else None | _ => None end.

Definition placeholders_of (cl : list (pystr * pystr)) : list pystr := cl.*2.
Definition names_of (cl : list (pystr * pystr)) : list pystr := cl.*1.

(** The checks of [UpdateItem]: [ExpressionAttributeValues] is not empty
    and its keys are placeholders, the expression parses, no name is
    reserved, none is the key, none is set twice, and the placeholders
    used are exactly those given. *)
Definition update_valid (e : pystr) (vals : list (pystr * attr))
  : option (list (pystr * pystr)) :=
  match vals with
  | [] => None
  | _ :: _ =>
    if forallb valid_placeholder vals.*1 then
      match parse_update e with
      | None => None
      | Some cl =>
        if forallb (fun n => negb (is_reserved n)) (names_of cl)
           && negb (bool_decide (u "id" ∈ names_of cl))
           && bool_decide (NoDup (names_of cl))
           && forallb (fun p => bool_decide (p ∈ vals.*1)) (placeholders_of cl)
           && forallb (fun p => bool_decide (p ∈ placeholders_of cl)) vals.*1
        then Some cl else None
      end
    else None
  end.

(** The effect of [SET n1 = :v1, ...] on an item. *)
Definition apply_set (cl : list (pystr * pystr)) (vals : list (pystr * attr)) (it : item)
  : item :=
  foldl (fun it nv => match assoc nv.2 vals with
                      | Some a => <[nv.1 := a]> it
                      | None => it
                      end) it cl.

(** An update of a missing item starts from the item holding the key. *)
Definition base_item (k : pystr) (o : option item) : item :=
  default {[u "id" := AS k]} o.

Class TableLaws (T : Type) `{Table T} := {
  put_item_ok it t : put_valid it <> None -> exists t', svc_put_item it t = Ok t';
  put_item_err it t : put_valid it = None -> svc_put_item it t = Exc validation;
  put_item_get it t t' k' : svc_put_item it t = Ok t' ->
    exists k, put_valid it = Some k /\
      table_get k' t' = if decide (k' = k) then Some it else table_get k' t;
  delete_item_ok key t : key_valid key <> None -> exists t', svc_delete_item key t = Ok t';
  delete_item_err key t : key_valid key = None -> svc_delete_item key t = Exc validation;
  delete_item_get key t t' k' : svc_delete_item key t = Ok t' ->
    exists k, key_valid key = Some k /\
      table_get k' t' = if decide (k' = k) then None else table_get k' t;
  update_item_ok key e vals t : key_valid key <> None -> update_valid e vals <> None ->
    exists t', svc_update_item key e vals t = Ok t';
  update_item_err key e vals t : key_valid key = None \/ update_valid e vals = None ->
    svc_update_item key e vals t = Exc validation;
  update_item_get key e vals t t' k' : svc_update_item key e vals t = Ok t' ->
    exists k cl, key_valid key = Some k /\ update_valid e vals = Some cl /\
      table_get k' t' = if decide (k' = k)
                        then Some (apply_set cl vals (base_item k (table_get k t)))
                        else table_get k' t;
}.

(** ** boto3's [Table] resource, over any table *)

Section Boto3.
Context `{Table T}.

(** A service call: on success the new table, else the old one and the
    error. *)
Definition svc_call (f : T -> res T) : PyM T unit :=
  fun t => match f t with Ok t' => (Ok tt, t') | Exc e => (Exc e, t) end.

(** [table.put_item(Item=item)]. *)
Definition put_item (item : pyval) : PyM T unit :=
  match item with
  | PDict d =>
      match serialize_dict d with
      | Ok it => svc_call (svc_put_item (list_to_map it))
      | Exc e => raise e
      end
  | _ => raise ParamValidationError
  end.

(** [table.delete_item(Key={'id': key})]. *)
Definition delete_item (key : pyval) : PyM T unit :=
  match serialize key with
  | Ok k => svc_call (svc_delete_item k)
  | Exc e => raise e
  end.

(** [table.update_item(Key={'id': key}, UpdateExpression=e,
    ExpressionAttributeValues=vals)]. *)
Definition update_item (key : pyval) (e : pystr) (vals : list (pystr * pyval))
  : PyM T unit :=
  match serialize key with
  | Exc err => raise err
  | Ok k =>
      match serialize_dict vals with
      | Ok vs => svc_call (svc_update_item k e vs)
      | Exc err => raise err
      end
  end.

(** [table.get_item(Key={'id': k})['Item']], or [None] without one. *)
Definition get_item (k : pystr) (t : T) : option pyval :=
  (fun it => PDict (map (fun ka => (ka.1, deserialize ka.2)) (map_to_list it)))
    <$> table_get k t.
End Boto3.

(** ** The service, modelled on a [gmap] *)

Abbreviation ddb_table := (gmap pystr item).

Definition ddb_put_item (it : item) (t : ddb_table) : res ddb_table :=
  match put_valid it with
  | Some k => Ok (<[k := it]> t)
  | None => Exc validation
  end.

Definition ddb_delete_item (key : attr) (t : ddb_table) : res ddb_table :=
  match key_valid key with
  | Some k => Ok (delete k t)
  | None => Exc validation
  end.

Definition ddb_update_item (key : attr) (e : pystr) (vals : list (pystr * attr))
  (t : ddb_table) : res ddb_table :=
  match key_valid key, update_valid e vals with
  | Some k, Some cl => Ok (<[k := apply_set cl vals (base_item k (t !! k))]> t)
  | _, _ => Exc validation
  end.

#[export] Instance ddb : Table ddb_table := {
  table_get k t := t !! k;
  svc_put_item := ddb_put_item;
  svc_delete_item := ddb_delete_item;
  svc_update_item := ddb_update_item;
}.

(** ** The model meets the contract *)

Section DdbLaws.
Implicit Types (t : ddb_table) (it : item).

Lemma ddb_get_insert k k' it t :
  (<[k := it]> t : ddb_table) !! k' = if decide (k' = k) then Some it else t !! k'.
Proof. case_decide; subst; [apply lookup_insert_eq | by apply lookup_insert_ne]. Qed.

Lemma ddb_get_delete k k' t :
  (delete k t : ddb_table) !! k' = if decide (k' = k) then None else t !! k'.
Proof. case_decide; subst; [apply lookup_delete_eq | by apply lookup_delete_ne]. Qed.

#[export] Instance ddb_laws : TableLaws ddb_table.
Proof.
  split; cbn; unfold ddb_put_item, ddb_delete_item, ddb_update_item.
  - intros it t ?. destruct (put_valid it); [eauto | done].
  - intros it t ->. done.
  - intros it t t' k' Hput. destruct (put_valid it) as [k|]; [|done].
    simplify_eq. exists k. split; [done|]. apply ddb_get_insert.
  - intros key t ?. destruct (key_valid key); [eauto | done].
  - intros key t ->. done.
  - intros key t t' k' Hdel. destruct (key_valid key) as [k|]; [|done].
    simplify_eq. exists k. split; [done|]. apply ddb_get_delete.
  - intros key e vals t ??.
    destruct (key_valid key), (update_valid e vals); [eauto | done..].
  - intros key e vals t [-> | ->]; [done|]. by destruct (key_valid key).
  - intros key e vals t t' k' Hupd.
    destruct (key_valid key) as [k|], (update_valid e vals) as [cl|]; try done.
    simplify_eq. exists k, cl. do 2 (split; [done|]). apply ddb_get_insert.
Qed.
End DdbLaws.

(** ** Serialisation *)

(** A storable value is sent, and reads back as itself. *)
Lemma serialize_storable v :
  storable v = true -> exists a, serialize v = Ok a /\ deserialize a = v.
Proof.
  induction v as [| | z | f | s | l IH | d IH] using pyval_ind'; cbn; intros Hs;
    try discriminate; try by eexists.
  - by rewrite Hs; eexists.
  - assert (exists r, (fix go (l : list pyval) : res (list attr) :=
              match l with
              | [] => Ok []
              | x :: l' => a <-! serialize x ;; r <-! go l' ;; Ok (a :: r)
              end) l = Ok r /\ map deserialize r = l) as [r [-> Hr]].
    { induction IH as [|x l Hx _ IHl]; cbn in *; [by exists []|].
      apply andb_prop in Hs as [Hx1 Hl].
      destruct (Hx Hx1) as [a [-> <-]]. destruct (IHl Hl) as [r [-> <-]].
      by exists (a :: r). }
    exists (AL r). cbn. by rewrite Hr.
  - assert (exists r, (fix go (d : list (pystr * pyval)) : res (list (pystr * attr)) :=
              match d with
              | [] => Ok []
              | (k, x) :: d' => a <-! serialize x ;; r <-! go d' ;; Ok ((k, a) :: r)
              end) d = Ok r /\ map (fun ka => (ka.1, deserialize ka.2)) r = d) as [r [-> Hr]].
    { induction IH as [|[k x] d Hx _ IHd]; cbn in *; [by exists []|].
      apply andb_prop in Hs as [Hx1 Hd].
      destruct (Hx Hx1) as [a [-> <-]]. destruct (IHd Hd) as [r [-> <-]].
      by exists ((k, a) :: r). }
    exists (AM r). cbn. by rewrite Hr.
Qed.

(** A value that is not storable makes boto3 raise. *)
Lemma serialize_not_storable v :
  storable v = false -> exists e, serialize v = Exc e.
Proof.
  induction v as [| | z | f | s | l IH | d IH] using pyval_ind'; cbn; intros Hs;
    try discriminate; try by eexists.
  - rewrite Hs. by eexists.
  - induction IH as [|x l Hx _ IHl]; cbn in *; [done|].
    apply andb_false_iff in Hs as [Hx1|Hl].
    + destruct (Hx Hx1) as [e ->]. by eexists.
    + destruct (storable x) eqn:Hsx.
      * destruct (serialize_storable x Hsx) as [a [-> _]]. cbn.
        destruct (IHl Hl) as [e He]. destruct (_ l) eqn:E; cbn in *; [done|]. by eexists.
      * destruct (Hx eq_refl) as [e ->]. by eexists.
  - induction IH as [|[k x] d Hx _ IHd]; cbn in *; [done|].
    apply andb_false_iff in Hs as [Hx1|Hd].
    + destruct (Hx Hx1) as [e ->]. by eexists.
    + destruct (storable x) eqn:Hsx.
      * destruct (serialize_storable x Hsx) as [a [-> _]]. cbn.
        destruct (IHd Hd) as [e He]. destruct (_ d) eqn:E; cbn in *; [done|]. by eexists.
      * destruct (Hx eq_refl) as [e ->]. by eexists.
Qed.

Definition storable_dict (d : list (pystr * pyval)) : bool := forallb (fun kv => storable kv.2) d.

Lemma serialize_dict_storable d :
  storable_dict d = true ->
  exists r, serialize_dict d = Ok r /\ r.*1 = d.*1 /\
            map (fun ka => (ka.1, deserialize ka.2)) r = d.
Proof.
  induction d as [|[k x] d IH]; cbn; [by exists []|].
  intros [Hx Hd]%andb_prop.
  destruct (serialize_storable x Hx) as [a [-> <-]]. destruct (IH Hd) as [r [-> [H1 H2]]].
  exists ((k, a) :: r). cbn. by rewrite H1, H2.
Qed.

Lemma serialize_dict_not_storable d :
  storable_dict d = false -> exists e, serialize_dict d = Exc e.
Proof.
  induction d as [|[k x] d IH]; cbn; [done|].
  destruct (storable x) eqn:Hx; cbn.
  - intros Hd. destruct (serialize_storable x Hx) as [a [-> _]].
    destruct (IH Hd) as [e ->]. by eexists.
  - intros _. destruct (serialize_not_storable x Hx) as [e ->]. by eexists.
Qed.

(** A dict boto3 sent is read back field by field. *)
Lemma serialize_dict_ok_storable d a :
  serialize_dict d = Ok a -> storable_dict d = true.
Proof.
  intros Ha. destruct (storable_dict d) eqn:Hs; [done|].
  destruct (serialize_dict_not_storable d Hs) as [e He]. congruence.
Qed.

Lemma serialize_dict_fields d a :
  serialize_dict d = Ok a ->
  a.*1 = d.*1 /\ map (fun ka => (ka.1, deserialize ka.2)) a = d.
Proof.
  intros Ha. destruct (serialize_dict_storable d (serialize_dict_ok_storable d a Ha))
    as [r [Hr H]]. rewrite Ha in Hr. by simplify_eq.
Qed.

Lemma stored_field d a (f : pystr) :
  serialize_dict d = Ok a -> NoDup d.*1 ->
  deserialize <$> (list_to_map a : item) !! f = assoc f d.
Proof.
  intros Ha Hnd. destruct (serialize_dict_fields d a Ha) as [H1 H2].
  rewrite assoc_list_to_map by congruence. by rewrite <- H2, assoc_map.
Qed.

Lemma deserialize_AS a k : deserialize a = PStr k -> a = AS k.
Proof. destruct a; cbn; congruence. Qed.

(** The item boto3 sends for a dict with a string [id] within the key
    limits and no empty field name is one [PutItem] accepts, under that
    key. *)
Lemma put_valid_of_dict d a k :
  serialize_dict d = Ok a -> NoDup d.*1 ->
  assoc (u "id") d = Some (PStr k) -> key_ok k = true -> assoc [] d = None ->
  put_valid (list_to_map a) = Some k.
Proof.
  intros Ha Hnd Hid Hk Hempty. destruct (serialize_dict_fields d a Ha) as [H1 H2].
  unfold put_valid, item_key. rewrite !assoc_list_to_map by congruence.
  rewrite <- H2, assoc_map in Hid, Hempty.
  destruct (assoc (u "id") a) as [x|]; [|done]. injection Hid as Hx.
  rewrite (deserialize_AS x k Hx), Hk. by destruct (assoc [] a).
Qed.

(** Conversely, the key [PutItem] accepts is the dict's string [id],
    within the key limits. *)
Lemma put_valid_id d a k :
  serialize_dict d = Ok a -> NoDup d.*1 -> put_valid (list_to_map a) = Some k ->
  assoc (u "id") d = Some (PStr k) /\ key_ok k = true.
Proof.
  intros Ha Hnd Hv. destruct (serialize_dict_fields d a Ha) as [H1 H2].
  unfold put_valid, item_key in Hv. rewrite assoc_list_to_map in Hv by congruence.
  rewrite <- H2, assoc_map.
  destruct (assoc (u "id") a) as [[s| | | | |]|]; cbn in *; try discriminate.
  destruct (key_ok s) eqn:Hs; [|done]. by destruct (_ !! []); simplify_eq.
Qed.

(** A dict whose string [id] exceeds the key limits is refused. *)
Lemma put_valid_long_key d a k :
  serialize_dict d = Ok a -> NoDup d.*1 ->
  assoc (u "id") d = Some (PStr k) -> key_ok k = false -> put_valid (list_to_map a) = None.
Proof.
  intros Ha Hnd Hid Hk. destruct (put_valid (list_to_map a)) as [k'|] eqn:Hv; [|done].
  destruct (put_valid_id d a k' Ha Hnd Hv) as [Hid' Hk']. congruence.
Qed.

(** The only value boto3 sends as a string attribute is a string. *)
Lemma serialize_AS v k : serialize v = Ok (AS k) -> v = PStr k.
Proof. destruct v; cbn; unfold res_bind; intros Hs; repeat case_match; by simplify_eq. Qed.

(** Reading an item back gives, for each field, the stored attribute
    deserialised. *)
Lemma field_get_item `{Table T} (k f : pystr) (t : T) :
  (get_item k t ≫= fun v => field v f) = (table_get k t ≫= fun it => deserialize <$> it !! f).
Proof.
  unfold get_item. destruct (table_get k t) as [it|]; cbn; [|done].
  by rewrite assoc_map, assoc_map_to_list.
Qed.

(** Field [f] of record [k], as [get_item] reads it back. *)
Definition read_field `{Table T} (k f : pystr) (t : T) : option pyval :=
  get_item k t ≫= fun v => field v f.

Lemma serialize_dict_rekey (h : pystr -> pystr) d a :
  serialize_dict d = Ok a ->
  serialize_dict (map (fun kv => (h kv.1, kv.2)) d) = Ok (map (fun ka => (h ka.1, ka.2)) a).
Proof.
  revert a. induction d as [|[k x] d IH]; intros a Ha; cbn in *; [by simplify_eq|].
  destruct (serialize x) as [y|]; [|done]. cbn in *.
  destruct (serialize_dict d) as [r|]; [|done]. cbn in *. simplify_eq.
  by rewrite (IH r eq_refl).
Qed.

(** What boto3 sent for a re-keyed dict is the re-keyed serialisation of
    the dict. *)
Lemma serialize_dict_rekey_inv (h : pystr -> pystr) d vs :
  serialize_dict (map (fun kv => (h kv.1, kv.2)) d) = Ok vs ->
  exists a, serialize_dict d = Ok a /\ vs = map (fun ka => (h ka.1, ka.2)) a.
Proof.
  revert vs. induction d as [|[k x] d IH]; intros vs Hvs; cbn in *; [simplify_eq; by exists []|].
  destruct (serialize x) as [y|]; [|done]. cbn in *.
  destruct (serialize_dict (map _ d)) as [r|]; [|done]. cbn in *. simplify_eq.
  destruct (IH r eq_refl) as (a & -> & ->). by exists ((k, y) :: a).
Qed.

(** ** The boto3 calls, against the contract *)

Section Calls.
Context `{Table T}.

Lemma svc_call_exc f (t t' : T) e : svc_call f t = (Exc e, t') -> t' = t.
Proof. unfold svc_call. destruct (f t); by intros [=]. Qed.

(** A call that raises leaves the table as it was. *)
Lemma put_item_exc v (t t' : T) e : put_item v t = (Exc e, t') -> t' = t.
Proof.
  unfold put_item. destruct v; try by intros [=].
  destruct (serialize_dict _); [apply svc_call_exc | by intros [=]].
Qed.

Lemma delete_item_exc v (t t' : T) e : delete_item v t = (Exc e, t') -> t' = t.
Proof.
  unfold delete_item. destruct (serialize v); [apply svc_call_exc | by intros [=]].
Qed.

Lemma update_item_exc v ex vals (t t' : T) e : update_item v ex vals t = (Exc e, t') -> t' = t.
Proof.
  unfold update_item. destruct (serialize v); [|by intros [=]].
  destruct (serialize_dict vals); [apply svc_call_exc | by intros [=]].
Qed.

Context `{!TableLaws T}.

Lemma svc_call_ok_inv f (t t' : T) x : svc_call f t = (Ok x, t') -> f t = Ok t'.
Proof. unfold svc_call. destruct (f t); intros [=]; by subst. Qed.

Lemma put_item_ok_inv v (t t' : T) x :
  put_item v t = (Ok x, t') ->
  exists d a k, v = PDict d /\ serialize_dict d = Ok a /\
    put_valid (list_to_map a) = Some k /\
    forall k', table_get k' t' = if decide (k' = k) then Some (list_to_map a) else table_get k' t.
Proof.
  unfold put_item. destruct v as [| | | | |l|d]; try by intros [=].
  destruct (serialize_dict d) as [a|] eqn:Ha; [|by intros [=]].
  intros Hc%svc_call_ok_inv.
  destruct (put_item_get _ _ _ [] Hc) as [k [Hk _]].
  exists d, a, k. do 3 (split; [done|]). intros k'.
  destruct (put_item_get _ _ _ k' Hc) as [k2 [Hk2 ->]]. by simplify_eq.
Qed.

Lemma put_item_succeeds d a (t : T) :
  serialize_dict d = Ok a -> put_valid (list_to_map a) <> None ->
  exists t', put_item (PDict d) t = (Ok tt, t').
Proof.
  intros Ha Hv. unfold put_item. rewrite Ha.
  destruct (put_item_ok _ t Hv) as [t' Ht']. exists t'. unfold svc_call. by rewrite Ht'.
Qed.

Lemma delete_item_ok_inv v (t t' : T) x :
  delete_item v t = (Ok x, t') ->
  exists k, serialize v = Ok (AS k) /\ key_ok k = true /\
    forall k', table_get k' t' = if decide (k' = k) then None else table_get k' t.
Proof.
  unfold delete_item. destruct (serialize v) as [a|] eqn:Ha; [|by intros [=]].
  intros Hc%svc_call_ok_inv.
  destruct (delete_item_get _ _ _ [] Hc) as [k [Hk _]].
  destruct a as [s| | | | |]; try discriminate. cbn in Hk.
  destruct (key_ok s) eqn:Hs; [injection Hk as <-|discriminate].
  exists s. do 2 (split; [done|]). intros k'.
  destruct (delete_item_get _ _ _ k' Hc) as [k2 [Hk2 ->]]. cbn in Hk2. rewrite Hs in Hk2.
  by simplify_eq.
Qed.

Lemma delete_item_succeeds (k : pystr) (t : T) :
  key_ok k = true -> exists t', delete_item (PStr k) t = (Ok tt, t').
Proof.
  intros Hk. unfold delete_item. cbn.
  destruct (delete_item_ok (AS k) t) as [t' Ht'].
  { cbn. by rewrite Hk. }
  exists t'. unfold svc_call. by rewrite Ht'.
Qed.

(** A key beyond the key limits is refused with [ValidationException]
    and the table is left as it was. *)
Lemma delete_item_long_key (k : pystr) (t : T) :
  key_ok k = false -> delete_item (PStr k) t = (Exc validation, t).
Proof.
  intros Hk. unfold delete_item, svc_call. cbn.
  by rewrite delete_item_err by (cbn; by rewrite Hk).
Qed.

Lemma update_item_ok_inv v ex vals (t t' : T) x :
  update_item v ex vals t = (Ok x, t') ->
  exists k vs cl, serialize v = Ok (AS k) /\ key_ok k = true /\ serialize_dict vals = Ok vs /\
    update_valid ex vs = Some cl /\
    forall k', table_get k' t' =
      if decide (k' = k) then Some (apply_set cl vs (base_item k (table_get k t)))
      else table_get k' t.
Proof.
  unfold update_item. destruct (serialize v) as [a|] eqn:Ha; [|by intros [=]].
  destruct (serialize_dict vals) as [vs|] eqn:Hvs; [|by intros [=]].
  intros Hc%svc_call_ok_inv.
  destruct (update_item_get _ _ _ _ _ [] Hc) as [k [cl [Hk [Hcl _]]]].
  destruct a as [s| | | | |]; try discriminate. cbn in Hk.
  destruct (key_ok s) eqn:Hs; [injection Hk as <-|discriminate].
  exists s, vs, cl. do 4 (split; [done|]). intros k'.
  destruct (update_item_get _ _ _ _ _ k' Hc) as [k2 [cl2 [Hk2 [Hcl2 ->]]]].
  cbn in Hk2. rewrite Hs in Hk2. by simplify_eq.
Qed.

(** A request the service refuses raises [ValidationException] and
    leaves the table as it was. *)
Lemma update_item_refused (k : pystr) ex vals vs (t : T) :
  serialize_dict vals = Ok vs -> update_valid ex vs = None ->
  update_item (PStr k) ex vals t = (Exc validation, t).
Proof.
  intros Hvs Hv. unfold update_item. cbn. rewrite Hvs. unfold svc_call.
  by rewrite update_item_err by auto.
Qed.

Lemma update_item_succeeds (k : pystr) ex vals vs (t : T) :
  key_ok k = true -> serialize_dict vals = Ok vs -> update_valid ex vs <> None ->
  exists t', update_item (PStr k) ex vals t = (Ok tt, t').
Proof.
  intros Hk Hvs Hv. unfold update_item. cbn. rewrite Hvs.
  destruct (update_item_ok (AS k) ex vs t) as [t' Ht']; [cbn; by rewrite Hk|done|].
  exists t'. unfold svc_call. by rewrite Ht'.
Qed.

Lemma update_item_long_key (k : pystr) ex vals vs (t : T) :
  key_ok k = false -> serialize_dict vals = Ok vs ->
  update_item (PStr k) ex vals t = (Exc validation, t).
Proof.
  intros Hk Hvs. unfold update_item, svc_call. cbn. rewrite Hvs.
  by rewrite update_item_err by (left; cbn; by rewrite Hk).
Qed.
End Calls.
