(* ===== verification/CreateUser.v ===== *)
(** * [create_user.py]: the create handler

    [lambda_handler] reads the raw body of the API Gateway event, parses
    it with [json.loads], reads its [id], writes the whole body with
    [table.put_item(Item=body)] and answers 201.  Nothing checks the
    input: every failure is an exception of the runtime, boto3 or
    DynamoDB, raised before the table is touched.
    [module_init] is the import of the module (lines 5-6). *)

From S2P Require Import Prelude PyValue Json UpdateExpr Dynamo.

Module create_user.

(** Lines 5-6, run when the module is loaded: [boto3.resource('dynamodb')]
    and [dynamodb.Table(name)] only build handles, without a request, so
    [os.environ['TABLE_NAME']] is the one step that can fail; its value
    names the table [table] stands for. *)
Definition module_init (environ : list (pystr * pystr)) : res pystr :=
  environ_getitem environ (u "TABLE_NAME").

Section CreateUser.
Context `{Table T}.

(** [lambda_handler(event, context)]; [context] is not used. *)
Definition lambda_handler (event : pyval) : PyM T pyval :=
  raw <- lift (getitem event (u "body")) ;;
  body <- lift (json_loads raw) ;;
  user_id <- lift (getitem body (u "id")) ;;
  put_item body ;;
  ret (PDict [(u "statusCode", PInt 201);
              (u "body", PStr (json_dumps (PDict [(u "message",
                 PStr (u "User " ++ py_str user_id ++ u " created"))])))]).
End CreateUser.
End create_user.
Import create_user.

Section CreateUserRun.
Context `{Table T}.

(** A body that parses to a dict with an [id] reaches [put_item]. *)
Lemma lambda_handler_dict (event : pyval) (t : T) (s : pystr) d x :
  getitem event (u "body") = Ok (PStr s) -> json_loads_str s = Ok (PDict d) ->
  assoc (u "id") d = Some x ->
  lambda_handler event t
  = (put_item (PDict d) ;; ret (api_response 201 (u "User " ++ py_str x ++ u " created"))) t.
Proof.
  intros Hev Hjs Hx. unfold lambda_handler. rewrite Hev. simpl_py. cbn [json_loads]. rewrite Hjs.
  simpl_py. cbn [getitem]. rewrite Hx. by simpl_py.
Qed.
End CreateUserRun.

Section CreateUserSpec.
Context `{TableLaws T}.

(** The effect of a successful [put_item] of a dict, seen field by field
    through [get_item]. *)
Lemma put_item_fields d (t t' : T) x k :
  NoDup d.*1 -> assoc (u "id") d = Some (PStr k) ->
  put_item (PDict d) t = (Ok x, t') ->
  forall k' f, (get_item k' t' ≫= fun v => field v f) =
    if decide (k' = k) then assoc f d else (get_item k' t ≫= fun v => field v f).
Proof.
  intros Hnd Hid Hput k' f.
  destruct (put_item_ok_inv _ _ _ _ Hput) as (d' & a & k2 & [= <-] & Ha & Hv & Hget).
  rewrite !field_get_item, Hget.
  assert (k2 = k) as ->.
  { destruct (put_valid_id d a k2 Ha Hnd Hv) as [Hid2 _]. congruence. }
  case_decide; [|done]. cbn. by apply stored_field.
Qed.

(** C1. A request whose body parses to a dict with a string [id] of 1
    to 2048 UTF-8 bytes, fields boto3 can send and no empty field name
    is answered 201
    with ["User <id> created"]; afterwards the record [id] holds exactly
    the body's fields and every other record is as before. *)
Theorem create_user_stores (event : pyval) (t : T) (s k : pystr) (d : list (pystr * pyval)) :
  getitem event (u "body") = Ok (PStr s) ->
  json_loads_str s = Ok (PDict d) -> NoDup d.*1 ->
  assoc (u "id") d = Some (PStr k) -> key_ok k = true ->
  storable_dict d = true -> assoc [] d = None ->
  exists t', lambda_handler event t = (Ok (api_response 201 (u "User " ++ k ++ u " created")), t')
    /\ forall k' f, (get_item k' t' ≫= fun v => field v f) =
         if decide (k' = k) then assoc f d else (get_item k' t ≫= fun v => field v f).
Proof.
  intros Hev Hjs Hnd Hid Hk Hs Hempty.
  destruct (serialize_dict_storable d Hs) as [a [Ha _]].
  destruct (put_item_succeeds d a t Ha) as [t' Ht'].
  { by rewrite (put_valid_of_dict d a k). }
  exists t'. split.
  - rewrite (lambda_handler_dict _ _ _ _ _ Hev Hjs Hid). by rewrite (bind_run_ok _ _ _ _ _ Ht').
  - by apply (put_item_fields d t t' tt).
Qed.
End CreateUserSpec.

Definition create_body : pystr := uq "{'id': 'u1', 'name': 'Ann', 'age': 30}".

Definition create_fields : list (pystr * pyval) :=
  [(u "id", PStr (u "u1")); (u "name", PStr (u "Ann")); (u "age", PInt 30)].

Lemma create_user_stores_witness :
  exists t', lambda_handler (PDict [(u "body", PStr create_body)]) (∅ : ddb_table)
               = (Ok (api_response 201 (u "User " ++ u "u1" ++ u " created")), t')
    /\ forall k' f, (get_item k' t' ≫= fun v => field v f) =
         if decide (k' = u "u1") then assoc f create_fields
         else (get_item k' (∅ : ddb_table) ≫= fun v => field v f).
Proof.
  apply (create_user_stores _ _ create_body).
  - reflexivity.
  - vm_compute. reflexivity.
  - by_decide.
  - reflexivity.
  - vm_compute. reflexivity.
  - vm_compute. reflexivity.
  - vm_compute. reflexivity.
Defined.

(** ** Every run of the handler *)

Section CreateUserRuns.
Context `{Table T}.

(** A run raises and leaves the table as it was, or it read the body,
    parsed it, read its [id], and [put_item] succeeded. *)
Lemma create_user_cases event (t t' : T) o :
  lambda_handler event t = (o, t') ->
  (exists e, o = Exc e /\ t' = t) \/
  exists raw body uid, getitem event (u "body") = Ok raw /\ json_loads raw = Ok body /\
    getitem body (u "id") = Ok uid /\ put_item body t = (Ok tt, t') /\
    o = Ok (api_response 201 (u "User " ++ py_str uid ++ u " created")).
Proof.
  unfold lambda_handler. intros Hrun. lift_steps Hrun.
  apply bind_inv in Hrun as [(e & He & ->)|([] & t1 & Hput & Hrun)].
  - left. exists e. split; [done|]. by apply put_item_exc in He.
  - right. injection Hrun as <- <-. eauto 10.
Qed.
End CreateUserRuns.

Section CreateUserRejects.
Context `{Table T}.

(** C13. A create whose body has no [id] raises [KeyError('id')]; one
    with an [id] but a value boto3 cannot send (a [float], or an integer
    of more than 38 digits, at any depth) raises before any request; in
    both cases the table is unchanged. *)
Theorem create_user_rejects (event : pyval) (t : T) (s : pystr) (d : list (pystr * pyval)) :
  getitem event (u "body") = Ok (PStr s) -> json_loads_str s = Ok (PDict d) ->
  (assoc (u "id") d = None -> lambda_handler event t = (Exc (KeyError (u "id")), t))
  /\ (is_Some (assoc (u "id") d) -> storable_dict d = false ->
      exists e, lambda_handler event t = (Exc e, t)).
Proof.
  intros Hev Hjs. split.
  - intros Hid. unfold lambda_handler. rewrite Hev. simpl_py. cbn [json_loads]. rewrite Hjs.
    simpl_py. cbn [getitem]. rewrite Hid. by simpl_py.
  - intros [x Hx] Hs. destruct (serialize_dict_not_storable d Hs) as [e He].
    exists e. rewrite (lambda_handler_dict _ _ _ _ _ Hev Hjs Hx). apply bind_run_exc.
    cbn [put_item]. by rewrite He.
Qed.
End CreateUserRejects.

Lemma create_user_rejects_witness :
  lambda_handler (PDict [(u "body", PStr (uq "{'name': 'Ann'}"))]) (∅ : ddb_table)
    = (Exc (KeyError (u "id")), ∅)
  /\ exists e, lambda_handler (PDict [(u "body", PStr (uq "{'id': 'u2', 'score': 1.5}"))])
                (∅ : ddb_table) = (Exc e, ∅).
Proof.
  split.
  - apply (create_user_rejects _ _ (uq "{'name': 'Ann'}") [(u "name", PStr (u "Ann"))]);
      reflexivity || (vm_compute; reflexivity).
  - apply (create_user_rejects _ _ (uq "{'id': 'u2', 'score': 1.5}")
             [(u "id", PStr (u "u2")); (u "score", PFloat (u "1.5"))]);
      first [reflexivity | vm_compute; reflexivity | by eexists].
Defined.

(** The exception a float field raises: boto3's [TypeError]. *)
Example create_user_float_error :
  lambda_handler (PDict [(u "body", PStr (uq "{'id': 'u2', 'score': 1.5}"))]) (∅ : ddb_table)
  = (Exc (TypeError "Float types are not supported. Use Decimal types instead."), ∅).
Proof. vm_compute. reflexivity. Qed.

Section CreateUserBound.
Context `{TableLaws T}.

(** C16. A create whose body has a string [id] and no empty field name
    succeeds exactly when the [id] fits DynamoDB's key limits (1 to 2048
    bytes in UTF-8) and boto3 can send every value: no [float], and
    every integer, at any depth, of absolute value below [10^38] (the
    precision of boto3's [decimal] context). *)
Theorem create_user_storable_iff (event : pyval) (t : T) (s k : pystr) (d : list (pystr * pyval)) :
  getitem event (u "body") = Ok (PStr s) -> json_loads_str s = Ok (PDict d) ->
  assoc (u "id") d = Some (PStr k) -> assoc [] d = None ->
  (exists v t', lambda_handler event t = (Ok v, t')) <-> key_ok k && storable_dict d = true.
Proof.
  intros Hev Hjs Hid He. pose proof (json_loads_dict_wf s d Hjs) as Hnd.
  rewrite (lambda_handler_dict _ t _ _ _ Hev Hjs Hid). split.
  - intros (v & t' & Hrun). apply bind_inv in Hrun as [(e & _ & [=])|([] & t1 & Hput & _)].
    destruct (put_item_ok_inv _ _ _ _ Hput) as (d' & a & k' & [= <-] & Ha & Hv & _).
    destruct (put_valid_id d a k' Ha Hnd Hv) as [Hid' Hk']. rewrite Hid in Hid'. simplify_eq.
    by rewrite Hk', (serialize_dict_ok_storable d a).
  - intros [Hk Hs]%andb_prop. destruct (serialize_dict_storable d Hs) as [a [Ha _]].
    destruct (put_item_succeeds d a t Ha) as [t' Ht']; [by rewrite (put_valid_of_dict d a k)|].
    eexists _, t'. by rewrite (bind_run_ok _ _ _ _ _ Ht').
Qed.
End CreateUserBound.

(** A body whose number has 39 digits. *)
Definition big_body : pystr := uq "{'id': 'u3', 'n': 100000000000000000000000000000000000000}".

Lemma create_user_storable_iff_witness :
  (exists v t', lambda_handler (PDict [(u "body", PStr big_body)]) (∅ : ddb_table) = (Ok v, t'))
  <-> key_ok (u "u3") && storable_dict [(u "id", PStr (u "u3")); (u "n", PInt (10 ^ 38))] = true.
Proof.
  apply (create_user_storable_iff _ _ big_body (u "u3")).
  - reflexivity.
  - vm_compute. reflexivity.
  - reflexivity.
  - reflexivity.
Defined.

