(* ===== verification/DeleteUser.v ===== *)
(** * [delete_user.py]: the delete handler

    [lambda_handler] reads the id from the path parameters, deletes the
    item with [table.delete_item(Key={'id': user_id})] and answers 200,
    whether or not the item existed: [DeleteItem] on a missing key
    succeeds.
    [module_init] is the import of the module (lines 5-6). *)

From S2P Require Import Prelude PyValue Json UpdateExpr Dynamo.

Module delete_user.

(** Lines 5-6, run when the module is loaded: [boto3.resource('dynamodb')]
    and [dynamodb.Table(name)] only build handles, without a request, so
    [os.environ['TABLE_NAME']] is the one step that can fail; its value
    names the table [table] stands for. *)
Definition module_init (environ : list (pystr * pystr)) : res pystr :=
  environ_getitem environ (u "TABLE_NAME").

Section DeleteUser.
Context `{Table T}.

(** [lambda_handler(event, context)]. *)
Definition lambda_handler (event : pyval) : PyM T pyval :=
  params <- lift (getitem event (u "pathParameters")) ;;
  user_id <- lift (getitem params (u "id")) ;;
  delete_item user_id ;;
  ret (PDict [(u "statusCode", PInt 200);
              (u "body", PStr (json_dumps (PDict [(u "message",
                 PStr (u "User " ++ py_str user_id ++ u " deleted"))])))]).
End DeleteUser.
End delete_user.
Import delete_user.

(** The path parameters of an event: [{'pathParameters': {'id': k}}]. *)
Definition path_event (k : pystr) : pyval :=
  PDict [(u "pathParameters", PDict [(u "id", PStr k)])].

Section DeleteUserSpec.
Context `{TableLaws T}.

(** The steps of the handler before its request, on an event whose
    path carries the id [k]. *)
Lemma delete_handler_key (event p : pyval) (k : pystr) (t : T) :
  getitem event (u "pathParameters") = Ok p -> getitem p (u "id") = Ok (PStr k) ->
  lambda_handler event t
  = (delete_item (PStr k) ;; ret (api_response 200 (u "User " ++ k ++ u " deleted"))) t.
Proof.
  intros Hp Hid. unfold lambda_handler. rewrite Hp. simpl_py. rewrite Hid. by simpl_py.
Qed.

(** A delete of an id within the key limits answers 200 and removes
    exactly that record. *)
Lemma delete_run (event p : pyval) (k : pystr) (t : T) :
  getitem event (u "pathParameters") = Ok p -> getitem p (u "id") = Ok (PStr k) ->
  key_ok k = true ->
  exists t', lambda_handler event t = (Ok (api_response 200 (u "User " ++ k ++ u " deleted")), t')
    /\ forall k', table_get k' t' = if decide (k' = k) then None else table_get k' t.
Proof.
  intros Hp Hid Hk. destruct (delete_item_succeeds k t Hk) as [t' Ht'].
  exists t'. split.
  - by rewrite (delete_handler_key event p k t Hp Hid), (bind_run_ok _ _ _ _ _ Ht').
  - destruct (delete_item_ok_inv _ _ _ _ Ht') as (k2 & [= <-] & _ & Hget). exact Hget.
Qed.

Lemma delete_path_run (k : pystr) (t : T) :
  key_ok k = true ->
  exists t', lambda_handler (path_event k) t = (Ok (api_response 200 (u "User " ++ k ++ u " deleted")), t')
    /\ forall k', table_get k' t' = if decide (k' = k) then None else table_get k' t.
Proof. apply delete_run with (p := PDict [(u "id", PStr k)]); reflexivity. Qed.

(** C3. Deleting an id of 1 to 2048 UTF-8 bytes is answered 200
    ["User <id> deleted"]
    whether or not the record existed; afterwards the record is gone and
    every other record is as before. *)
Theorem delete_user_removes (k : pystr) (t : T) :
  key_ok k = true ->
  exists t', lambda_handler (path_event k) t = (Ok (api_response 200 (u "User " ++ k ++ u " deleted")), t')
    /\ get_item k t' = None
    /\ forall k', k' <> k -> get_item k' t' = get_item k' t.
Proof.
  intros Hk. destruct (delete_path_run k t Hk) as (t' & Hrun & Hget).
  exists t'. split; [done|]. unfold get_item. split.
  - rewrite Hget. by rewrite decide_True.
  - intros k' Hne. rewrite !Hget. by rewrite decide_False.
Qed.

(** C10. Deleting is idempotent (spec section 4.3): a second delete of
    the same id answers the same 200 and leaves the table as the first
    left it. *)
Theorem delete_user_idempotent (k : pystr) (t : T) :
  key_ok k = true ->
  exists t1 t2,
    lambda_handler (path_event k) t = (Ok (api_response 200 (u "User " ++ k ++ u " deleted")), t1)
    /\ lambda_handler (path_event k) t1 = (Ok (api_response 200 (u "User " ++ k ++ u " deleted")), t2)
    /\ forall k', table_get k' t2 = table_get k' t1.
Proof.
  intros Hk. destruct (delete_path_run k t Hk) as (t1 & Hrun1 & Hget1).
  destruct (delete_path_run k t1 Hk) as (t2 & Hrun2 & Hget2).
  exists t1, t2. split_and!; [done|done|]. intros k'.
  rewrite Hget2. case_decide as Hk'; [|done]. subst. by rewrite Hget1, decide_True.
Qed.
End DeleteUserSpec.

Lemma delete_user_removes_witness :
  exists t', lambda_handler (path_event (u "u1")) (∅ : ddb_table)
               = (Ok (api_response 200 (u "User " ++ u "u1" ++ u " deleted")), t')
    /\ get_item (u "u1") t' = None
    /\ forall k', k' <> u "u1" -> get_item k' t' = get_item k' (∅ : ddb_table).
Proof. apply delete_user_removes. reflexivity. Defined.

(** ** Every run of the handler *)

Section DeleteUserRuns.
Context `{Table T}.

(** A run raises and leaves the table as it was, or it read the path id
    and [delete_item] succeeded. *)
Lemma delete_user_cases event (t t' : T) o :
  lambda_handler event t = (o, t') ->
  (exists e, o = Exc e /\ t' = t) \/
  exists p uid, getitem event (u "pathParameters") = Ok p /\ getitem p (u "id") = Ok uid /\
    delete_item uid t = (Ok tt, t') /\
    o = Ok (api_response 200 (u "User " ++ py_str uid ++ u " deleted")).
Proof.
  unfold lambda_handler. intros Hrun. lift_steps Hrun.
  apply bind_inv in Hrun as [(e & He & ->)|([] & t1 & Hdel & Hrun)].
  - left. exists e. split; [done|]. by apply delete_item_exc in He.
  - right. injection Hrun as <- <-. eauto 10.
Qed.
End DeleteUserRuns.

Lemma delete_user_idempotent_witness :
  exists t1 t2,
    lambda_handler (path_event (u "u1")) (<[u "u1" := {[u "id" := AS (u "u1")]}]> ∅ : ddb_table)
      = (Ok (api_response 200 (u "User " ++ u "u1" ++ u " deleted")), t1)
    /\ lambda_handler (path_event (u "u1")) t1
      = (Ok (api_response 200 (u "User " ++ u "u1" ++ u " deleted")), t2)
    /\ forall k', table_get k' t2 = table_get k' t1.
Proof. apply delete_user_idempotent. reflexivity. Defined.
