(* ===== verification/UpdateUser.v ===== *)
(** * [update_user.py]: the update handler

    [lambda_handler] reads the id from the path parameters and a JSON
    body, builds in a [for] loop over [body.items()] the string
    ["SET k1 = :k1, k2 = :k2, "] and the dict [{":k1": v1, ":k2": v2}],
    strips the trailing [", "] with [rstrip(", ")], and calls
    [table.update_item].  The service then parses the expression
    ([UpdateExpr]) and sets each named field to its value, creating the
    record when it is missing.  The theorems below show when this
    succeeds (every key a DynamoDB name, not reserved, not the key [id]),
    and that it then changes exactly the fields of the body.
    [module_init] is the import of the module (lines 5-6). *)

From S2P Require Import Prelude PyValue Json UpdateExpr Dynamo.

Module update_user.

(** Lines 5-6, run when the module is loaded: [boto3.resource('dynamodb')]
    and [dynamodb.Table(name)] only build handles, without a request, so
    [os.environ['TABLE_NAME']] is the one step that can fail; its value
    names the table [table] stands for. *)
Definition module_init (environ : list (pystr * pystr)) : res pystr :=
  environ_getitem environ (u "TABLE_NAME").

(** [s.rstrip(chars)]: drops every trailing character that is one of
    [chars] (not a trailing copy of the string [chars]). *)
Fixpoint lstrip_chars (chars s : pystr) : pystr :=
  match s with
  | c :: s' => if bool_decide (c ∈ chars) then lstrip_chars chars s' else s
  | [] => []
  end.

Definition rstrip (chars s : pystr) : pystr := rev (lstrip_chars chars (rev s)).

Section UpdateUser.
Context `{Table T}.

(** The [for key, value in body.items()] loop: each item appends
    ["key = :key, "] to [update_expression] and stores
    [expression_attributes[":key"] = value]. *)
Fixpoint build_update (its : list (pystr * pyval)) (update_expression : pystr)
  (expression_attributes : list (pystr * pyval)) : pystr * list (pystr * pyval) :=
  match its with
  | [] => (update_expression, expression_attributes)
  | (key, value) :: its' =>
      build_update its' (update_expression ++ key ++ u " = :" ++ key ++ u ", ")
        (dict_set (u ":" ++ key) value expression_attributes)
  end.

(** [lambda_handler(event, context)]. *)
Definition lambda_handler (event : pyval) : PyM T pyval :=
  params <- lift (getitem event (u "pathParameters")) ;;
  user_id <- lift (getitem params (u "id")) ;;
  raw <- lift (getitem event (u "body")) ;;
  body <- lift (json_loads raw) ;;
  its <- lift (items body) ;;
  let '(update_expression, expression_attributes) := build_update its (u "SET ") [] in
  let update_expression := rstrip (u ", ") update_expression in
  update_item user_id update_expression expression_attributes ;;
  ret (PDict [(u "statusCode", PInt 200);
              (u "body", PStr (json_dumps (PDict [(u "message",
                 PStr (u "User " ++ py_str user_id ++ u " updated"))])))]).
End UpdateUser.
End update_user.
Import update_user.

(** ** What the loop builds *)

Lemma build_update_expr its e acc :
  (build_update its e acc).1 = e ++ mjoin (map (fun kv => set_clause kv.1 ++ u ", ") its).
Proof.
  revert e acc. induction its as [|[k v] its IH]; intros e acc.
  - cbn [build_update map mjoin fst]. by rewrite app_nil_r.
  - change (build_update ((k, v) :: its) e acc)
      with (build_update its (e ++ k ++ u " = :" ++ k ++ u ", ") (dict_set (u ":" ++ k) v acc)).
    rewrite IH.
    change (mjoin (map (fun kv => set_clause kv.1 ++ u ", ") ((k, v) :: its)))
      with ((set_clause k ++ u ", ") ++ mjoin (map (fun kv => set_clause kv.1 ++ u ", ") its)).
    unfold set_clause. by rewrite <- !app_assoc.
Qed.

Lemma build_update_attrs its e acc :
  NoDup its.*1 -> (forall k, k ∈ its.*1 -> 58 :: k ∉ acc.*1) ->
  (build_update its e acc).2 = acc ++ map (fun kv => (58 :: kv.1, kv.2)) its.
Proof.
  revert e acc. induction its as [|[k v] its IH]; intros e acc Hnd Hfresh; cbn [build_update map].
  - by rewrite app_nil_r.
  - apply NoDup_cons in Hnd as [Hk Hnd].
    replace (u ":" ++ k) with (58 :: k) by reflexivity.
    rewrite dict_set_fresh by (apply Hfresh; cbn; set_solver).
    rewrite IH; [by rewrite <- app_assoc| done |].
    intros k' Hk'. rewrite fmap_app. cbn. rewrite elem_of_app, list_elem_of_singleton.
    intros [Hin | [= ->]]; [|done]. apply (Hfresh k'); [cbn; set_solver | done].
Qed.

Lemma lstrip_chars_app chars l r :
  Forall (fun c => c ∈ chars) l -> lstrip_chars chars (l ++ r) = lstrip_chars chars r.
Proof.
  induction 1 as [|c l Hc _ IH]; [done|]. cbn. by rewrite bool_decide_eq_true_2.
Qed.

(** [rstrip(chars)] removes a trailing run of [chars] and stops at the
    first character that is not one of them. *)
Lemma rstrip_app chars pre c sep :
  c ∉ chars -> Forall (fun x => x ∈ chars) sep ->
  rstrip chars (pre ++ [c] ++ sep) = pre ++ [c].
Proof.
  intros Hc Hsep. unfold rstrip. rewrite !rev_app_distr, <- app_assoc.
  rewrite lstrip_chars_app by (by apply Forall_rev).
  cbn. rewrite bool_decide_eq_false_2 by done. cbn [rev]. by rewrite rev_involutive.
Qed.

(** [rstrip(", ")] removes the last separator the loop appended, and
    nothing more, as the last key ends with a word character. *)
Lemma rstrip_set_expr ks :
  ks <> [] -> Forall (fun k => word_key k = true) ks ->
  rstrip (u ", ") (u "SET " ++ mjoin (map (fun k => set_clause k ++ u ", ") ks))
  = u "SET " ++ join (u ", ") (map set_clause ks).
Proof.
  intros Hne Hks.
  rewrite <- (map_map set_clause (fun x => x ++ u ", ")), mjoin_map_sep
    by (by destruct ks).
  destruct (exists_last Hne) as [ks' [k ->]].
  apply Forall_app in Hks as [_ Hk%Forall_inv].
  destruct k as [|c w _] using rev_ind; [discriminate|].
  assert (is_word c = true) as Hc.
  { apply andb_prop in Hk as [_ Hk]. rewrite forallb_app in Hk.
    apply andb_prop in Hk as [_ Hk]. cbn in Hk. by destruct (is_word c). }
  rewrite map_app. cbn [map]. destruct (join_last (u ", ") (map set_clause ks') (set_clause (w ++ [c])))
    as [pre ->].
  unfold set_clause. rewrite !app_assoc, <- (app_assoc _ [c]), rstrip_app.
  - by rewrite <- !app_assoc.
  - rewrite u_comma_sep. intros Hin. apply elem_of_cons in Hin as [->|Hin];
      [discriminate|]. apply list_elem_of_singleton in Hin as ->. discriminate.
  - rewrite u_comma_sep. repeat constructor.
Qed.

(** ** What the service does with it *)

(** A key the update handler can set: a DynamoDB name, not a reserved
    word, not the key attribute. *)
Definition update_key_ok (k : pystr) : bool :=
  valid_name k && negb (is_reserved k) && negb (bool_decide (k = u "id")).

Lemma valid_name_word_key k : valid_name k = true -> word_key k = true.
Proof.
  destruct k as [|c w]; [done|]. unfold valid_name, word_key. intros [Hc Hw]%andb_prop.
  rewrite bool_decide_eq_false_2 by done. cbn [negb andb forallb]. rewrite Hw, andb_true_r.
  unfold is_word. destruct (is_alpha c), (c =? 95); cbn in Hc |- *; by rewrite ?orb_true_r.
Qed.

Lemma assoc_colon {A} k (l : list (pystr * A)) :
  assoc (58 :: k) (map (fun ka => (58 :: ka.1, ka.2)) l) = assoc k l.
Proof.
  induction l as [|[k' x] l IH]; [done|]. cbn.
  destruct (decide (k = k')) as [->|Hne]; [by rewrite decide_True|].
  rewrite decide_False by congruence. done.
Qed.

(** The service accepts the request the handler builds exactly when every
    key is one it can set; the clauses are then [k = :k], one per key. *)
Lemma update_valid_handler (ks : list pystr) (a : list (pystr * attr)) :
  a.*1 = ks -> ks <> [] -> NoDup ks ->
  update_valid (rstrip (u ", ") (u "SET " ++ mjoin (map (fun k => set_clause k ++ u ", ") ks)))
    (map (fun ka => (58 :: ka.1, ka.2)) a)
  = if forallb update_key_ok ks then Some (map (fun k => (k, 58 :: k)) ks) else None.
Proof.
  intros Ha Hne Hnd. unfold update_valid.
  destruct a as [|[k0 x0] a0]; [by subst|]. cbn [map].
  change ((58 :: (k0, x0).1, (k0, x0).2) :: map (fun ka => (58 :: ka.1, ka.2)) a0)
    with (map (fun ka : pystr * attr => (58 :: ka.1, ka.2)) ((k0, x0) :: a0)).
  set (a := (k0, x0) :: a0) in *.
  assert ((map (fun ka : pystr * attr => (58 :: ka.1, ka.2)) a).*1 = map (cons 58) ks) as Hph.
  { subst ks. rewrite <- list_fmap_compose. clear. induction a as [|[]]; cbn; [done|]. congruence. }
  rewrite Hph.
  assert (forallb valid_placeholder (map (cons 58) ks) = forallb word_key ks) as ->.
  { clear. induction ks; [done|]. cbn. by rewrite IHks. }
  destruct (forallb word_key ks) eqn:Hw.
  2:{ destruct (forallb update_key_ok ks) eqn:Hok; [|done]. exfalso.
      apply not_true_iff_false in Hw. apply Hw, forallb_forall. intros k Hk.
      eapply forallb_forall in Hok; [|done]. apply valid_name_word_key.
      unfold update_key_ok in Hok. by destruct (valid_name k). }
  assert (Forall (fun k => word_key k = true) ks) as HwF.
  { apply Forall_forall. intros k Hk. eapply forallb_forall in Hw; [done|]. by apply list_elem_of_In. }
  rewrite rstrip_set_expr, parse_update_set by done.
  destruct (forallb valid_name ks) eqn:Hv.
  2:{ destruct (forallb update_key_ok ks) eqn:Hok; [|done]. exfalso.
      apply not_true_iff_false in Hv. apply Hv, forallb_forall. intros k Hk.
      eapply forallb_forall in Hok; [|done]. unfold update_key_ok in Hok. by destruct (valid_name k). }
  unfold names_of, placeholders_of.
  assert ((map (fun k => (k, 58 :: k)) ks).*1 = ks) as ->.
  { clear. induction ks; cbn; congruence. }
  assert ((map (fun k => (k, 58 :: k)) ks).*2 = map (cons 58) ks) as ->.
  { clear. induction ks; cbn; congruence. }
  rewrite (bool_decide_eq_true_2 (NoDup ks)) by done.
  assert (forallb (fun p => bool_decide (p ∈ map (cons 58) ks)) (map (cons 58) ks) = true) as ->.
  { apply forallb_forall. intros p Hp. apply bool_decide_eq_true_2. by apply list_elem_of_In. }
  rewrite !andb_true_r.
  destruct (forallb update_key_ok ks) eqn:Hok.
  - rewrite forallb_forall in Hok. rewrite (proj2 (forallb_forall _ _)).
    + rewrite bool_decide_eq_false_2; [done|]. intros Hid%list_elem_of_In.
      specialize (Hok _ Hid). unfold update_key_ok in Hok.
      rewrite bool_decide_eq_true_2 in Hok by done. by rewrite andb_false_r in Hok.
    + intros k Hk. specialize (Hok k Hk). unfold update_key_ok in Hok.
      by destruct (is_reserved k); rewrite ?andb_false_r in Hok.
  - apply not_true_iff_false in Hok. destruct (forallb (fun n => negb (is_reserved n)) ks) eqn:Hr;
      [|done]. cbn. case_bool_decide as Hid; [done|]. exfalso. apply Hok, forallb_forall.
    intros k Hk. unfold update_key_ok. eapply forallb_forall in Hv, Hr; [|done..].
    rewrite Hv, Hr. cbn. rewrite bool_decide_eq_false_2; [done|]. intros ->.
    by apply Hid, list_elem_of_In.
Qed.

(** The clauses [k = :k] set each key of the body to its value and leave
    every other field as it was. *)
Lemma apply_set_handler (ks : list pystr) (a : list (pystr * attr)) (it : item) f :
  a.*1 = ks ->
  apply_set (map (fun k => (k, 58 :: k)) ks) (map (fun ka => (58 :: ka.1, ka.2)) a) it !! f
  = match assoc f a with Some x => Some x | None => it !! f end.
Proof.
  intros Ha. unfold apply_set. rewrite foldl_map. cbn.
  rewrite (foldl_insert_lookup (fun k => assoc (58 :: k) (map (fun ka => (58 :: ka.1, ka.2)) a))).
  - rewrite assoc_colon. case_bool_decide as Hin.
    + destruct (assoc f a) eqn:E; [done|]. apply assoc_None in E. by rewrite Ha in E.
    + rewrite (proj2 (assoc_None f a)); [done|]. by rewrite Ha.
  - apply Forall_forall. intros k Hk. subst ks. rewrite assoc_colon.
    destruct (assoc k a) eqn:E; [done|]. apply assoc_None in E.
    exfalso. apply E. by apply list_elem_of_In.
Qed.

(** ** The handler *)

Section UpdateUserSpec.
Context `{TableLaws T}.

(** Record [k] after [SET k1 = :k1, ...] with the serialised body [a]:
    the body's fields, and the others of the old record, or only the key
    when there was none. *)
Lemma update_read_field (k : pystr) d a (t t' : T) :
  serialize_dict d = Ok a -> NoDup d.*1 ->
  (forall k', table_get k' t' =
     if decide (k' = k)
     then Some (apply_set (map (fun k => (k, 58 :: k)) d.*1)
                 (map (fun ka => (58 :: ka.1, ka.2)) a) (base_item k (table_get k t)))
     else table_get k' t) ->
  forall k' f, read_field k' f t' =
    if decide (k' = k) then
      match assoc f d with
      | Some v => Some v
      | None => match get_item k t with
                | Some _ => read_field k f t
                | None => if decide (f = u "id") then Some (PStr k) else None
                end
      end
    else read_field k' f t.
Proof.
  intros Ha Hnd Hget k' f. unfold read_field. rewrite !field_get_item, Hget.
  destruct (decide (k' = k)) as [->|Hne]; [|done]. cbn [mbind option_bind].
  destruct (serialize_dict_fields d a Ha) as [H1 H2].
  rewrite apply_set_handler by done.
  rewrite <- H2 at 1. rewrite assoc_map. destruct (assoc f a); [done|].
  cbn beta iota delta [fmap option_fmap option_map].
  unfold get_item at 1. destruct (table_get k t) as [it|] eqn:E; cbn [base_item default fmap option_fmap option_map].
  - done.
  - destruct (decide (f = u "id")) as [->|Hf].
    + by rewrite lookup_singleton_eq.
    + by rewrite lookup_singleton_ne by congruence.
Qed.
(** The request the handler sends for a body [d]. *)
Lemma build_update_body d :
  NoDup d.*1 ->
  build_update d (u "SET ") [] =
    (u "SET " ++ mjoin (map (fun k => set_clause k ++ u ", ") d.*1),
     map (fun kv => (58 :: kv.1, kv.2)) d).
Proof.
  intros Hnd. apply injective_projections.
  - by rewrite build_update_expr, (map_fst_fmap (fun k => set_clause k ++ u ", ")).
  - by rewrite build_update_attrs by set_solver.
Qed.

(** The run of an update the service accepts, and the record after it. *)
Lemma update_run (event p : pyval) (t : T) (k s : pystr) (d : list (pystr * pyval)) :
  getitem event (u "pathParameters") = Ok p -> getitem p (u "id") = Ok (PStr k) ->
  key_ok k = true ->
  getitem event (u "body") = Ok (PStr s) -> json_loads_str s = Ok (PDict d) -> NoDup d.*1 ->
  d <> [] -> forallb update_key_ok d.*1 = true -> storable_dict d = true ->
  exists t', lambda_handler event t = (Ok (api_response 200 (u "User " ++ k ++ u " updated")), t')
    /\ is_Some (table_get k t') /\ forall k' f, read_field k' f t' =
         if decide (k' = k) then
           match assoc f d with
           | Some v => Some v
           | None => match get_item k t with
                     | Some _ => read_field k f t
                     | None => if decide (f = u "id") then Some (PStr k) else None
                     end
           end
         else read_field k' f t.
Proof.
  intros Hp Hid Hk Hb Hjs Hnd Hne Hok Hs.
  destruct (serialize_dict_storable d Hs) as [a [Ha [Ha1 _]]].
  assert (Hvalid : update_valid (rstrip (u ", ") (u "SET " ++ mjoin (map (fun k => set_clause k ++ u ", ") d.*1)))
            (map (fun ka => (58 :: ka.1, ka.2)) a) = Some (map (fun k => (k, 58 :: k)) d.*1)).
  { rewrite update_valid_handler, Hok by (done || by destruct d). done. }
  pose proof (serialize_dict_rekey (cons 58) d a Ha) as Hva.
  destruct (update_item_succeeds k
    (rstrip (u ", ") (u "SET " ++ mjoin (map (fun k => set_clause k ++ u ", ") d.*1)))
    _ _ t Hk Hva) as [t' Ht']; [by rewrite Hvalid|].
  exists t'. split.
  - unfold lambda_handler. rewrite Hp. simpl_py. rewrite Hid. simpl_py. rewrite Hb. simpl_py.
    cbn [json_loads]. rewrite Hjs. simpl_py. cbn [items]. simpl_py.
    rewrite build_update_body by done. by rewrite (bind_run_ok _ _ _ _ _ Ht').
  - destruct (update_item_ok_inv _ _ _ _ _ _ Ht') as (k2 & vs & cl & [= <-] & _ & Hvs & Hcl & Hget).
    rewrite Hva in Hvs. injection Hvs as <-. rewrite Hvalid in Hcl. injection Hcl as <-.
    split; [rewrite Hget, decide_True; by eexists|by apply (update_read_field k d a t t')].
Qed.

(** C2. An update of an id of 1 to 2048 UTF-8 bytes whose body is a
    non-empty dict of storable values keyed by DynamoDB names, none
    reserved and none the key [id], is
    answered 200 ["User <id> updated"]; afterwards record [id] has the
    body's fields, keeps its other fields (or holds only its key if it
    did not exist), and every other record is as before. *)
Theorem update_user_merges (event p : pyval) (t : T) (k s : pystr) (d : list (pystr * pyval)) :
  getitem event (u "pathParameters") = Ok p -> getitem p (u "id") = Ok (PStr k) ->
  key_ok k = true ->
  getitem event (u "body") = Ok (PStr s) -> json_loads_str s = Ok (PDict d) -> NoDup d.*1 ->
  d <> [] -> forallb update_key_ok d.*1 = true -> storable_dict d = true ->
  exists t', lambda_handler event t = (Ok (api_response 200 (u "User " ++ k ++ u " updated")), t')
    /\ forall k' f, read_field k' f t' =
         if decide (k' = k) then
           match assoc f d with
           | Some v => Some v
           | None => match get_item k t with
                     | Some _ => read_field k f t
                     | None => if decide (f = u "id") then Some (PStr k) else None
                     end
           end
         else read_field k' f t.
Proof.
  intros Hp Hid Hk Hb Hjs Hnd Hne Hok Hs.
  destruct (update_run event p t k s d Hp Hid Hk Hb Hjs Hnd Hne Hok Hs) as (t' & Hrun & _ & Hf).
  by exists t'.
Qed.
End UpdateUserSpec.

Section UpdateUserRefused.
Context `{TableLaws T}.

(** C4. An update whose body is a dict of storable values (a float or
    an integer of more than 38 digits raises [TypeError] earlier) that
    is empty, or has a key that is not a DynamoDB name, is a reserved
    word (such as [name] or [status]) or is the key [id], raises
    [ValidationException] and leaves the table unchanged. *)
Theorem update_user_refused (event p : pyval) (t : T) (k s : pystr) (d : list (pystr * pyval)) :
  getitem event (u "pathParameters") = Ok p -> getitem p (u "id") = Ok (PStr k) ->
  getitem event (u "body") = Ok (PStr s) -> json_loads_str s = Ok (PDict d) -> NoDup d.*1 ->
  storable_dict d = true -> d = [] \/ forallb update_key_ok d.*1 = false ->
  lambda_handler event t = (Exc validation, t).
Proof.
  intros Hp Hid Hb Hjs Hnd Hs Hbad.
  destruct (serialize_dict_storable d Hs) as [a [Ha [Ha1 _]]].
  pose proof (serialize_dict_rekey (cons 58) d a Ha) as Hva.
  unfold lambda_handler. rewrite Hp. simpl_py. rewrite Hid. simpl_py. rewrite Hb. simpl_py.
  cbn [json_loads]. rewrite Hjs. simpl_py. cbn [items]. simpl_py.
  rewrite build_update_body by done.
  assert (Hnone : update_valid (rstrip (u ", ") (u "SET " ++ mjoin (map (fun k => set_clause k ++ u ", ") d.*1)))
            (map (fun ka => (58 :: ka.1, ka.2)) a) = None).
  { destruct Hbad as [-> | Hbad].
    - by destruct a.
    - destruct d as [|kv d]; [done|].
      rewrite update_valid_handler, Hbad by (done || by rewrite Ha1). done. }
  by rewrite (bind_run_exc _ _ _ _ _ (update_item_refused _ _ _ _ t Hva Hnone)).
Qed.
End UpdateUserRefused.

(** An update event: the id in the path, the JSON text as the body. *)
Definition update_event (k body : pystr) : pyval :=
  PDict [(u "pathParameters", PDict [(u "id", PStr k)]); (u "body", PStr body)].

Definition update_table : ddb_table :=
  {[u "u1" := {[u "id" := AS (u "u1"); u "city" := AS (u "Oslo")]}]}.

Lemma update_user_merges_witness :
  exists t', lambda_handler (update_event (u "u1") (uq "{'email': 'a@b.c', 'age': 31}"))
               update_table = (Ok (api_response 200 (u "User " ++ u "u1" ++ u " updated")), t')
    /\ forall k' f, read_field k' f t' =
         if decide (k' = u "u1") then
           match assoc f [(u "email", PStr (u "a@b.c")); (u "age", PInt 31)] with
           | Some v => Some v
           | None => match get_item (u "u1") update_table with
                     | Some _ => read_field (u "u1") f update_table
                     | None => if decide (f = u "id") then Some (PStr (u "u1")) else None
                     end
           end
         else read_field k' f update_table.
Proof.
  apply (update_user_merges _ (PDict [(u "id", PStr (u "u1"))]) _ _
           (uq "{'email': 'a@b.c', 'age': 31}")).
  all: first [discriminate | by_decide | (vm_compute; reflexivity)].
Defined.

Lemma update_user_refused_witness :
  lambda_handler (update_event (u "u1") (uq "{'name': 'x'}")) update_table
  = (Exc validation, update_table).
Proof.
  apply (update_user_refused _ (PDict [(u "id", PStr (u "u1"))]) _ (u "u1")
           (uq "{'name': 'x'}") [(u "name", PStr (u "x"))]).
  all: first [by_decide | (vm_compute; reflexivity) | (right; vm_compute; reflexivity)].
Defined.

(** ** Every run of the handler *)

Section UpdateUserRuns.
Context `{Table T}.

(** A run raises and leaves the table as it was, or it read the path id
    and the body, built the expression and the placeholders from the
    body's items, and [update_item] succeeded. *)
Lemma update_user_cases event (t t' : T) o :
  lambda_handler event t = (o, t') ->
  (exists e, o = Exc e /\ t' = t) \/
  exists p uid raw body its, getitem event (u "pathParameters") = Ok p /\
    getitem p (u "id") = Ok uid /\ getitem event (u "body") = Ok raw /\
    json_loads raw = Ok body /\ items body = Ok its /\
    update_item uid (rstrip (u ", ") (build_update its (u "SET ") []).1)
      (build_update its (u "SET ") []).2 t = (Ok tt, t') /\
    o = Ok (api_response 200 (u "User " ++ py_str uid ++ u " updated")).
Proof.
  unfold lambda_handler. intros Hrun. lift_steps Hrun.
  destruct (build_update _ (u "SET ") []) as [ex attrs] eqn:Eb.
  apply bind_inv in Hrun as [(e & He & ->)|([] & t1 & Hupd & Hrun)].
  - left. exists e. split; [done|]. by apply update_item_exc in He.
  - right. injection Hrun as <- <-. do 5 eexists.
    split_and!; [eassumption..| |reflexivity]. by rewrite Eb.
Qed.
End UpdateUserRuns.
