(* ===== verification/SlackAlert.v ===== *)
(** * [slack_alert.py]: the alarm relay

    [lambda_handler] iterates over [event['Records']]; for each SNS
    record it parses the alarm message, formats a three-line text with
    [message.get(...)], encodes [{"text": text}] as UTF-8 JSON and POSTs
    it to the Slack webhook with urllib3.  It returns [{"status": "ok"}]
    after the loop.  The network is explicit state ([net]): the requests
    sent so far and the outcome the [n]-th request meets.  urllib3
    returns a response whatever its status code and raises only when the
    transport fails (after its own retries), so a failing POST stops the
    loop: the records after it are not relayed.  [module_init] is the
    import (lines 5-6) and [invoke_relay] an invocation: the import,
    then the handler with the URL it read. *)

From S2P Require Import Prelude PyValue Json JsonRoundtrip.

(** ** HTTP *)

Record request := mk_request {
  req_method : pystr;
  req_url : pystr;
  req_body : list Z;
  req_headers : list (pystr * pystr);
}.

Inductive http_outcome :=
| Response (status : Z)     (** any status code, 2xx or not *)
| TransportError.           (** the connection fails: urllib3 raises *)

Record net := mk_net {
  sent : list request;
  outcome : nat -> http_outcome;
}.

(** [http.request(method, url, body=..., headers=...)]: the request is
    sent, then the call returns its status or raises. *)
Definition http_request (r : request) : PyM net Z :=
  fun n =>
    let n' := mk_net (sent n ++ [r]) (outcome n) in
    match outcome n (length (sent n)) with
    | Response st => (Ok st, n')
    | TransportError => (Exc URLLibError, n')
    end.

(** ** The handler *)

Module slack_alert.

(** Line 11: the f-string; each [.get] gives [None] for a missing key and
    [str(None)] is ["None"]. *)
Definition alert_text (message : pyval) : res pystr :=
  name <-! get message (u "AlarmName") ;;
  state <-! get message (u "NewStateValue") ;;
  reason <-! get message (u "NewStateReason") ;;
  Ok (u "ALERT: " ++ py_str name ++ u " triggered" ++ [10] ++
      u "Status: " ++ py_str state ++ [10] ++ u "Reason: " ++ py_str reason).

Definition json_headers : list (pystr * pystr) := [(u "Content-Type", u "application/json")].

(** The body of the [for] loop, lines 10-15. *)
Definition relay_record (slack_webhook : pystr) (record : pyval) : PyM net unit :=
  sns <- lift (getitem record (u "Sns")) ;;
  raw <- lift (getitem sns (u "Message")) ;;
  message <- lift (json_loads raw) ;;
  text <- lift (alert_text message) ;;
  let payload := PDict [(u "text", PStr text)] in
  encoded_data <- lift (encode_utf8 (json_dumps payload)) ;;
  resp <- http_request (mk_request (u "POST") slack_webhook encoded_data json_headers) ;;
  ret tt.

(** [lambda_handler(event, context)], with the webhook URL read at
    module load. *)
Definition lambda_handler (slack_webhook : pystr) (event : pyval) : PyM net pyval :=
  records_v <- lift (getitem event (u "Records")) ;;
  records <- lift (py_iter records_v) ;;
  for_each records (relay_record slack_webhook) ;;
  ret (PDict [(u "status", PStr (u "ok"))]).

(** Lines 5-6, run when the module is loaded: [os.environ[...]] raises
    [KeyError] when the variable is not set. *)
Definition module_init (environ : list (pystr * pystr)) : res pystr :=
  environ_getitem environ (u "SLACK_WEBHOOK_URL").
End slack_alert.
Import slack_alert.

(** ** What a record becomes *)

(** An SNS record whose message is the JSON text of the alarm dict [d]. *)
Definition envelope (record : pyval) (d : list (pystr * pyval)) : Prop :=
  exists sns s, getitem record (u "Sns") = Ok sns /\ getitem sns (u "Message") = Ok (PStr s)
    /\ json_loads_str s = Ok (PDict d).

(** The text the f-string gives for the alarm dict [d]. *)
Definition text_of (d : list (pystr * pyval)) : pystr :=
  u "ALERT: " ++ py_str (default PNone (assoc (u "AlarmName") d)) ++ u " triggered" ++ [10] ++
  u "Status: " ++ py_str (default PNone (assoc (u "NewStateValue") d)) ++ [10] ++
  u "Reason: " ++ py_str (default PNone (assoc (u "NewStateReason") d)).

(** The POST the handler sends for the alarm dict [d]. *)
Definition alert_request (url : pystr) (d : list (pystr * pyval)) : request :=
  mk_request (u "POST") url (json_dumps (PDict [(u "text", PStr (text_of d))])) json_headers.

Lemma payload_printable t :
  Forall (fun x => printable_ascii x = true) (json_dumps (PDict [(u "text", PStr t)])).
Proof.
  cbn [json_dumps map join fst snd].
  repeat first [apply json_str_printable | apply u_printable; reflexivity | apply Forall_app; split].
Qed.

(** One record: the POST is sent; the call returns or raises as the
    transport does. *)
Lemma relay_record_run url r d n :
  envelope r d ->
  relay_record url r n =
    (match outcome n (length (sent n)) with Response _ => Ok tt | TransportError => Exc URLLibError end,
     mk_net (sent n ++ [alert_request url d]) (outcome n)).
Proof.
  intros (sns & s & Hsns & Hmsg & Hjs). unfold relay_record.
  rewrite Hsns. simpl_py. rewrite Hmsg. simpl_py. cbn [json_loads]. rewrite Hjs. simpl_py.
  cbn [alert_text get res_bind]. simpl_py.
  unfold encode_utf8. rewrite encode_utf8_printable by apply payload_printable. simpl_py.
  unfold bind, http_request. by destruct (outcome n (length (sent n))).
Qed.

Section Relay.
Variable url : pystr.

(** The loop over well-formed records whose POSTs all get a response. *)
Lemma relay_all records ds n :
  Forall2 envelope records ds ->
  (forall i, (i < length ds)%nat -> outcome n (length (sent n) + i) <> TransportError) ->
  for_each records (relay_record url) n
  = (Ok tt, mk_net (sent n ++ map (alert_request url) ds) (outcome n)).
Proof.
  intros Hf. revert n. induction Hf as [|r d records ds Hr Hf IH]; intros n Hok.
  - cbn. destruct n. by rewrite app_nil_r.
  - cbn [for_each]. rewrite (bind_run_ok _ _ _ tt (mk_net (sent n ++ [alert_request url d]) (outcome n))).
    + rewrite IH; cbn [sent outcome].
      * by rewrite <- app_assoc.
      * intros i Hi. rewrite length_app. cbn. rewrite <- Nat.add_assoc. apply Hok. cbn. lia.
    + rewrite (relay_record_run _ _ d) by done. specialize (Hok 0%nat ltac:(cbn; lia)).
      rewrite Nat.add_0_r in Hok. by destruct (outcome n (length (sent n))).
Qed.

(** The loop stops at the first record whose relay raises: the records
    after it are not touched. *)
Lemma relay_stops_at pre r post ds n e n' :
  Forall2 envelope pre ds ->
  (forall i, (i < length ds)%nat -> outcome n (length (sent n) + i) <> TransportError) ->
  relay_record url r (mk_net (sent n ++ map (alert_request url) ds) (outcome n)) = (Exc e, n') ->
  for_each (pre ++ r :: post) (relay_record url) n = (Exc e, n').
Proof.
  intros Hpre Hok Hr. rewrite for_each_app.
  rewrite (bind_run_ok _ _ _ tt _ (relay_all pre ds n Hpre Hok)).
  cbn [for_each]. by apply bind_run_exc.
Qed.

(** A record whose message is not JSON raises before its POST. *)
Lemma relay_record_bad_message r sns s e n :
  getitem r (u "Sns") = Ok sns -> getitem sns (u "Message") = Ok (PStr s) ->
  json_loads_str s = Exc e -> relay_record url r n = (Exc e, n).
Proof.
  intros Hsns Hmsg Hjs. unfold relay_record. rewrite Hsns. simpl_py. rewrite Hmsg. simpl_py.
  cbn [json_loads]. rewrite Hjs. by simpl_py.
Qed.

(** A record whose POST meets a transport error raises after the POST. *)
Lemma relay_record_transport r d n :
  envelope r d -> outcome n (length (sent n)) = TransportError ->
  relay_record url r n = (Exc URLLibError, mk_net (sent n ++ [alert_request url d]) (outcome n)).
Proof. intros Hr Hfail. rewrite (relay_record_run _ _ d) by done. by rewrite Hfail. Qed.
End Relay.

(** An event whose ['Records'] list is [records]. *)
Definition records_event (records : list pyval) : pyval :=
  PDict [(u "Records", PList records)].

(** ** Properties of the relay *)

(** The handler on an event with a list of records is the loop. *)
Lemma lambda_handler_records url records n :
  lambda_handler url (records_event records) n
  = (for_each records (relay_record url) ;; ret (PDict [(u "status", PStr (u "ok"))])) n.
Proof.
  unfold lambda_handler. simpl_py. cbn [getitem records_event assoc py_iter].
  rewrite decide_True by reflexivity. by simpl_py.
Qed.

(** C6. When every record is an SNS envelope of an alarm dict and no POST
    meets a transport error, the handler returns [{"status": "ok"}] after
    sending exactly one POST per record, in the records' order, to the
    webhook, with the JSON payload of that record's alert text; the
    status codes of the responses are ignored. *)
Theorem slack_relays_all (url : pystr) (records : list pyval) (ds : list (list (pystr * pyval))) (n : net) :
  Forall2 envelope records ds ->
  (forall i, (i < length ds)%nat -> outcome n (length (sent n) + i) <> TransportError) ->
  lambda_handler url (records_event records) n
  = (Ok (PDict [(u "status", PStr (u "ok"))]),
     mk_net (sent n ++ map (alert_request url) ds) (outcome n)).
Proof.
  intros Hf Hok. rewrite lambda_handler_records.
  by rewrite (bind_run_ok _ _ _ _ _ (relay_all url records ds n Hf Hok)).
Qed.

(** C7. A transport error on the POST of one record raises out of the
    handler: the records before it and that record have been sent, and no
    record after it is attempted. *)
Theorem slack_stops_at_transport_error (url : pystr) (pre post : list pyval) (r : pyval)
    (ds : list (list (pystr * pyval))) (d : list (pystr * pyval)) (n : net) :
  Forall2 envelope pre ds -> envelope r d ->
  (forall i, (i < length ds)%nat -> outcome n (length (sent n) + i) <> TransportError) ->
  outcome n (length (sent n) + length ds) = TransportError ->
  lambda_handler url (records_event (pre ++ r :: post)) n
  = (Exc URLLibError, mk_net (sent n ++ map (alert_request url) (ds ++ [d])) (outcome n)).
Proof.
  intros Hpre Hr Hok Hfail. rewrite lambda_handler_records.
  assert (Hf : outcome (mk_net (sent n ++ map (alert_request url) ds) (outcome n))
                 (length (sent (mk_net (sent n ++ map (alert_request url) ds) (outcome n))))
               = TransportError) by (cbn [sent outcome]; by rewrite length_app, length_map).
  rewrite (bind_run_exc _ _ _ _ _ (relay_stops_at url pre r post ds n URLLibError _ Hpre Hok
    (relay_record_transport url r d _ Hr Hf))).
  cbn [sent]. by rewrite map_app, app_assoc.
Qed.

(** C11. The alert text of an alarm without a [NewStateReason] field ends
    in the line ["Reason: None"]; a message that is not a JSON object has
    no [.get] and raises [AttributeError]. *)
Theorem alert_text_missing_reason (d : list (pystr * pyval)) (v : pyval) :
  assoc (u "NewStateReason") d = None ->
  (forall d', v <> PDict d') ->
  (exists pre, alert_text (PDict d) = Ok (pre ++ [10] ++ u "Reason: None"))
  /\ exists what, alert_text v = Exc (AttributeError what).
Proof.
  intros Hd Hv. split.
  - eexists. cbn [alert_text get res_bind]. rewrite Hd. cbn [default py_str].
    change (u "Reason: None") with (u ("Reason: " +:+ "None")). rewrite u_app.
    rewrite !app_assoc. reflexivity.
  - destruct v; try (eexists; reflexivity). by destruct (Hv d0).
Qed.

(** C14. A record whose message is not valid JSON raises out of the
    handler with the decoder's error: the records before it have been
    POSTed, it is not, and no record after it is attempted. *)
Theorem slack_stops_at_bad_message (url : pystr) (pre post : list pyval) (r sns : pyval) (s : pystr)
    (e : exn) (ds : list (list (pystr * pyval))) (n : net) :
  Forall2 envelope pre ds ->
  (forall i, (i < length ds)%nat -> outcome n (length (sent n) + i) <> TransportError) ->
  getitem r (u "Sns") = Ok sns -> getitem sns (u "Message") = Ok (PStr s) ->
  json_loads_str s = Exc e ->
  lambda_handler url (records_event (pre ++ r :: post)) n
  = (Exc e, mk_net (sent n ++ map (alert_request url) ds) (outcome n)).
Proof.
  intros Hpre Hok Hsns Hmsg Hjs. rewrite lambda_handler_records.
  by rewrite (bind_run_exc _ _ _ _ _ (relay_stops_at url pre r post ds n e _ Hpre Hok
    (relay_record_bad_message url r sns s e _ Hsns Hmsg Hjs))).
Qed.

(** C15. The POST the relay sends for a record is the request the spec
    describes: method [POST] to the webhook, header
    [Content-Type: application/json], and a body that [json.loads]
    reads back as [{"text": t}], where [t] is the record's alert text
    (when [t] is a Unicode string). *)
Theorem relay_record_posts_json (url : pystr) (r : pyval) (d : list (pystr * pyval)) (n : net) :
  envelope r d ->
  exists req, sent (relay_record url r n).2 = sent n ++ [req]
    /\ req_method req = u "POST" /\ req_url req = url /\ req_headers req = json_headers
    /\ alert_text (PDict d) = Ok (text_of d)
    /\ (forallb str_char_ok (text_of d) = true ->
        json_loads_str (req_body req) = Ok (PDict [(u "text", PStr (text_of d))])).
Proof.
  intros Hr. exists (alert_request url d). rewrite (relay_record_run _ _ d) by done.
  split_and!; try done. intros Hok. apply json_loads_dumps.
  change (json_value (PDict [(u "text", PStr (text_of d))]))
    with (bool_decide (NoDup [u "text"]) && (forallb str_char_ok (u "text")
          && forallb str_char_ok (text_of d) && true)).
  rewrite Hok. by rewrite bool_decide_true by (repeat constructor; set_solver).
Qed.

(** ** Where the relay sends *)

(** The import of the module, then the handler with the webhook URL it
    read; a failing import ends the invocation before the handler. *)
Definition invoke_relay (environ : list (pystr * pystr)) (event : pyval) : PyM net pyval :=
  match module_init environ with
  | Ok url => lambda_handler url event
  | Exc e => raise e
  end.

(** A request as line 15 sends it: [POST] to [url] with the JSON header. *)
Definition webhook_post (url : pystr) (q : request) : Prop :=
  req_method q = u "POST" /\ req_url q = url /\ req_headers q = json_headers.

(** A computation that leaves the network's answers alone and only
    appends requests of that shape to the log. *)
Definition sends_only {A} (url : pystr) (m : PyM net A) : Prop :=
  forall n, outcome (m n).2 = outcome n /\
    exists qs, sent (m n).2 = sent n ++ qs /\ Forall (webhook_post url) qs.

Section SendsOnly.
Variable url : pystr.

Lemma sends_only_ret {A} (a : A) : sends_only url (ret a).
Proof. intros n. split; [done|]. exists []. by rewrite app_nil_r. Qed.

Lemma sends_only_lift {A} (r : res A) : sends_only url (lift r).
Proof. intros n. split; [by destruct r|]. exists []. rewrite app_nil_r. by destruct r. Qed.

Lemma sends_only_bind {A B} (m : PyM net A) (f : A -> PyM net B) :
  sends_only url m -> (forall a, sends_only url (f a)) -> sends_only url (bind m f).
Proof.
  intros Hm Hf n. unfold bind. destruct (Hm n) as [Ho (qs & Hs & Hqs)].
  destruct (m n) as [[a|e] n1]; cbn [fst snd] in *; [|split; [done|by exists qs]].
  destruct (Hf a n1) as [Ho' (qs' & Hs' & Hqs')]. split; [congruence|].
  exists (qs ++ qs'). rewrite Hs', Hs, app_assoc. split; [done|by apply Forall_app].
Qed.

Lemma sends_only_for_each {A} (l : list A) (body : A -> PyM net unit) :
  (forall x, sends_only url (body x)) -> sends_only url (for_each l body).
Proof.
  intros Hb. induction l as [|x l IH]; cbn [for_each];
    [apply sends_only_ret|by apply sends_only_bind].
Qed.

Lemma sends_only_relay_record (r : pyval) : sends_only url (relay_record url r).
Proof.
  unfold relay_record.
  repeat (apply sends_only_bind; [apply sends_only_lift|intros ?]).
  apply sends_only_bind; [|intros; apply sends_only_ret].
  intros n. unfold http_request. split; [by case_match|].
  eexists [_]. split; [by case_match|]. by repeat constructor.
Qed.

Lemma sends_only_handler (event : pyval) : sends_only url (lambda_handler url event).
Proof.
  unfold lambda_handler.
  repeat (apply sends_only_bind; [apply sends_only_lift|intros ?]).
  apply sends_only_bind; [|intros; apply sends_only_ret].
  apply sends_only_for_each, sends_only_relay_record.
Qed.
End SendsOnly.

(** C23. Whatever the event and whatever the network answers, an
    invocation of the relay only ever sends [POST] requests with the
    JSON header to the URL in [SLACK_WEBHOOK_URL], appending them to
    the requests sent before; without that variable the import raises
    [KeyError] and nothing is sent. *)
Theorem relay_posts_only_to_webhook (environ : list (pystr * pystr)) (event : pyval) (n : net) :
  outcome (invoke_relay environ event n).2 = outcome n /\
  exists qs, sent (invoke_relay environ event n).2 = sent n ++ qs /\
    match assoc (u "SLACK_WEBHOOK_URL") environ with
    | Some url => Forall (webhook_post url) qs
    | None => qs = [] /\ (invoke_relay environ event n).1 = Exc (KeyError (u "SLACK_WEBHOOK_URL"))
    end.
Proof.
  unfold invoke_relay, module_init, environ_getitem.
  destruct (assoc (u "SLACK_WEBHOOK_URL") environ) as [url|].
  - apply sends_only_handler.
  - split; [done|]. exists []. by rewrite app_nil_r.
Qed.

(** ** Witnesses *)

(** An SNS record carrying the text [msg]. *)
Definition sns_record (msg : pystr) : pyval :=
  PDict [(u "Sns", PDict [(u "Message", PStr msg)])].

Definition alarm_msg : pystr :=
  uq "{'AlarmName': 'cpu-high', 'NewStateValue': 'ALARM', 'NewStateReason': 'Threshold Crossed'}".

Definition ok_msg : pystr := uq "{'AlarmName': 'cpu-high', 'NewStateValue': 'OK'}".

(** The dict [json.loads] gives for [s] (empty when it is not an object). *)
Definition loaded (s : pystr) : list (pystr * pyval) :=
  match json_loads_str s with Ok (PDict d) => d | _ => [] end.

Ltac envelope_tac :=
  do 2 eexists; split; [reflexivity|split; [reflexivity|vm_compute; reflexivity]].

Lemma slack_relays_all_witness :
  lambda_handler (u "https://hooks.example/T") (records_event [sns_record alarm_msg; sns_record ok_msg])
    (mk_net [] (fun _ => Response 500))
  = (Ok (PDict [(u "status", PStr (u "ok"))]),
     mk_net ([] ++ map (alert_request (u "https://hooks.example/T")) [loaded alarm_msg; loaded ok_msg])
       (fun _ => Response 500)).
Proof.
  apply (slack_relays_all _ _ _ (mk_net [] (fun _ => Response 500))).
  - repeat constructor; envelope_tac.
  - intros i _. discriminate.
Defined.

Lemma slack_stops_at_transport_error_witness :
  lambda_handler (u "https://hooks.example/T")
    (records_event ([sns_record alarm_msg] ++ sns_record ok_msg :: [sns_record alarm_msg]))
    (mk_net [] (fun i => if Nat.eqb i 1 then TransportError else Response 200))
  = (Exc URLLibError,
     mk_net ([] ++ map (alert_request (u "https://hooks.example/T")) ([loaded alarm_msg] ++ [loaded ok_msg]))
       (fun i => if Nat.eqb i 1 then TransportError else Response 200)).
Proof.
  apply (slack_stops_at_transport_error _ _ _ _ _ _
           (mk_net [] (fun i => if Nat.eqb i 1 then TransportError else Response 200))).
  - repeat constructor; envelope_tac.
  - envelope_tac.
  - intros i Hi. cbn in Hi |- *. assert (i = 0%nat) as -> by lia. discriminate.
  - reflexivity.
Defined.

Lemma alert_text_missing_reason_witness :
  (exists pre, alert_text (PDict (loaded ok_msg)) = Ok (pre ++ [10] ++ u "Reason: None"))
  /\ exists what, alert_text (PList [PInt 1]) = Exc (AttributeError what).
Proof.
  apply alert_text_missing_reason.
  - vm_compute. reflexivity.
  - intros d' Hd. discriminate.
Defined.

Lemma slack_stops_at_bad_message_witness :
  lambda_handler (u "https://hooks.example/T")
    (records_event ([sns_record alarm_msg] ++ sns_record (u "not json") :: [sns_record ok_msg]))
    (mk_net [] (fun _ => Response 200))
  = (Exc JSONDecodeError,
     mk_net ([] ++ map (alert_request (u "https://hooks.example/T")) [loaded alarm_msg])
       (fun _ => Response 200)).
Proof.
  apply (slack_stops_at_bad_message _ _ _ _ (PDict [(u "Message", PStr (u "not json"))]) (u "not json")
           _ _ (mk_net [] (fun _ => Response 200))).
  - repeat constructor; envelope_tac.
  - intros i _. discriminate.
  - reflexivity.
  - reflexivity.
  - vm_compute. reflexivity.
Defined.

Lemma relay_record_posts_json_witness :
  exists req, sent (relay_record (u "https://hooks.example/T") (sns_record alarm_msg)
                      (mk_net [] (fun _ => Response 200))).2 = sent (mk_net [] (fun _ => Response 200)) ++ [req]
    /\ req_method req = u "POST" /\ req_url req = u "https://hooks.example/T"
    /\ req_headers req = json_headers
    /\ alert_text (PDict (loaded alarm_msg)) = Ok (text_of (loaded alarm_msg))
    /\ (forallb str_char_ok (text_of (loaded alarm_msg)) = true ->
        json_loads_str (req_body req) = Ok (PDict [(u "text", PStr (text_of (loaded alarm_msg)))])).
Proof. apply relay_record_posts_json. envelope_tac. Defined.

