(* ===== verification/Api.v ===== *)
(** * The user API as a whole: the handlers against an abstract user store

    The three user handlers share one DynamoDB table and nothing else.
    What a client can observe of the table is, for each id, the record
    [get_item] reads back: a map from field names to values ([record]);
    [abstracts t σ] says the table [t] reads back as the store [σ].

    [spec_step] is the contract of the API (spec sections 3 and 4): a
    create puts the body under its [id], replacing any record there; an
    update merges the body's fields into the record, starting from
    [{'id': k}] when there is none; a delete removes the record, present
    or not.  [spec_trace] runs a sequence of requests, each one its own
    Lambda invocation: a request that raises changes nothing, and the
    next request still runs.

    [run_all_refines] shows that every sequence of runs of the handlers,
    on any table that meets [TableLaws], is a trace of the contract: the
    implementation refines the abstract store.  Which requests succeed
    is said by the handler theorems (C1-C4). *)

From S2P Require Import Prelude PyValue Json JsonRoundtrip UpdateExpr Dynamo.
From S2P Require Import CreateUser DeleteUser UpdateUser.

(** ** The abstract store *)

Abbreviation record := (gmap pystr pyval).
Abbreviation store := (gmap pystr record).

(** The record a stored item reads back as. *)
Definition abs_item (it : item) : record := deserialize <$> it.

(** A request to one of the three handlers. *)
Inductive request :=
| Create (event : pyval)
| Update (event : pyval)
| Delete (event : pyval).

(** [json.loads(event['body'])], when it is a dict. *)
Definition body_dict (ev : pyval) : option (list (pystr * pyval)) :=
  match getitem ev (u "body") with
  | Ok (PStr s) => match json_loads_str s with Ok (PDict d) => Some d | _ => None end
  | _ => None
  end.

(** [event['pathParameters']['id']], when it is a string. *)
Definition path_id (ev : pyval) : option pystr :=
  match getitem ev (u "pathParameters") with
  | Ok p => match getitem p (u "id") with Ok (PStr k) => Some k | _ => None end
  | Exc _ => None
  end.

(** The record after merging the fields [d] into record [k] ([o] is the
    record before, if any). *)
Definition merge (d : list (pystr * pyval)) (k : pystr) (o : option record) : record :=
  list_to_map d ∪ default {[u "id" := PStr k]} o.

(** The contract: a request that succeeds answers [v] and changes the
    store from [σ] to [σ']. *)
Inductive spec_step : request -> store -> pyval -> store -> Prop :=
| spec_create ev d k σ :
    body_dict ev = Some d -> assoc (u "id") d = Some (PStr k) ->
    spec_step (Create ev) σ (api_response 201 (u "User " ++ k ++ u " created"))
      (<[k := list_to_map d]> σ)
| spec_update ev k d σ :
    path_id ev = Some k -> body_dict ev = Some d ->
    spec_step (Update ev) σ (api_response 200 (u "User " ++ k ++ u " updated"))
      (<[k := merge d k (σ !! k)]> σ)
| spec_delete ev k σ :
    path_id ev = Some k ->
    spec_step (Delete ev) σ (api_response 200 (u "User " ++ k ++ u " deleted")) (delete k σ).

(** A sequence of requests and their outcomes: a success is a step of
    the contract, an exception leaves the store as it was. *)
Inductive spec_trace : store -> list request -> list (res pyval) -> store -> Prop :=
| trace_nil σ : spec_trace σ [] [] σ
| trace_ok r rs v os σ σ1 σ2 :
    spec_step r σ v σ1 -> spec_trace σ1 rs os σ2 -> spec_trace σ (r :: rs) (Ok v :: os) σ2
| trace_exc r rs e os σ σ2 :
    spec_trace σ rs os σ2 -> spec_trace σ (r :: rs) (Exc e :: os) σ2.

(** The id a request names (the body's [id] for a create, the path's
    for an update or a delete), the status code and the verb of its
    confirmation. *)
Definition request_id (r : request) : option pystr :=
  match r with
  | Create ev =>
      match body_dict ev with
      | Some d => match assoc (u "id") d with Some (PStr k) => Some k | _ => None end
      | None => None
      end
  | Update ev | Delete ev => path_id ev
  end.

Definition status_of (r : request) : Z := match r with Create _ => 201 | _ => 200 end.

Definition verb_of (r : request) : pystr :=
  match r with Create _ => u " created" | Update _ => u " updated" | Delete _ => u " deleted" end.

(** ** The implementation *)

Section Handlers.
Context `{Table T}.

Definition handle (r : request) : PyM T pyval :=
  match r with
  | Create ev => create_user.lambda_handler ev
  | Update ev => update_user.lambda_handler ev
  | Delete ev => delete_user.lambda_handler ev
  end.

(** Each request is its own invocation: an exception ends that
    invocation only, and the table it leaves is the next one's. *)
Fixpoint run_all (rs : list request) (t : T) : list (res pyval) * T :=
  match rs with
  | [] => ([], t)
  | r :: rs' =>
      let '(o, t1) := handle r t in
      let '(os, t2) := run_all rs' t1 in
      (o :: os, t2)
  end.

(** The table reads back as the store. *)
Definition abstracts (t : T) (σ : store) : Prop :=
  forall k, abs_item <$> table_get k t = σ !! k.
End Handlers.

(** ** The contract is deterministic *)

Lemma path_id_Some (ev : pyval) (k : pystr) :
  path_id ev = Some k ->
  exists p, getitem ev (u "pathParameters") = Ok p /\ getitem p (u "id") = Ok (PStr k).
Proof. unfold path_id. repeat case_match; intros; simplify_eq; eauto. Qed.

Lemma body_dict_Some (ev : pyval) (d : list (pystr * pyval)) :
  body_dict ev = Some d ->
  exists s, getitem ev (u "body") = Ok (PStr s) /\ json_loads_str s = Ok (PDict d).
Proof. unfold body_dict. repeat case_match; intros; simplify_eq; eauto. Qed.

Lemma spec_step_create_inv ev σ v σ' d k :
  spec_step (Create ev) σ v σ' -> body_dict ev = Some d -> assoc (u "id") d = Some (PStr k) ->
  σ' = <[k := list_to_map d]> σ.
Proof. inversion 1; intros; simplify_eq. congruence. Qed.

(** The response of a step is the confirmation for the request's id. *)
Lemma spec_step_response r σ v σ' :
  spec_step r σ v σ' ->
  exists k, request_id r = Some k /\ v = api_response (status_of r) (u "User " ++ k ++ verb_of r).
Proof.
  destruct 1 as [ev d k σ Hb Hk|ev k d σ Hp Hb|ev k σ Hp]; exists k; cbn [request_id];
    [rewrite Hb, Hk|rewrite Hp|rewrite Hp]; done.
Qed.

(** ** What a stored item reads back as *)

Lemma abs_item_list_to_map d a :
  serialize_dict d = Ok a -> NoDup d.*1 -> abs_item (list_to_map a) = list_to_map d.
Proof.
  intros Ha Hnd. apply map_eq. intros f. unfold abs_item.
  rewrite lookup_fmap, (stored_field d a) by done. by rewrite assoc_list_to_map.
Qed.

(** The item after the update the handler sends reads back as the merge
    of the body into the record. *)
Lemma abs_item_merge d a k o :
  serialize_dict d = Ok a -> NoDup d.*1 ->
  abs_item (apply_set (map (fun k => (k, 58 :: k)) d.*1) (map (fun ka => (58 :: ka.1, ka.2)) a)
              (base_item k o))
  = merge d k (abs_item <$> o).
Proof.
  intros Ha Hnd. destruct (serialize_dict_fields d a Ha) as [H1 H2].
  apply map_eq. intros f. unfold abs_item, merge.
  rewrite lookup_fmap, UpdateUser.apply_set_handler by done.
  assert (Hd : (list_to_map d : record) !! f = deserialize <$> assoc f a).
  { rewrite assoc_list_to_map by done. by rewrite <- H2, assoc_map. }
  destruct (assoc f a) as [x|] eqn:E.
  - by rewrite (lookup_union_Some_l _ _ _ (deserialize x)).
  - rewrite lookup_union_r by done.
    destruct o as [it|]; cbn [base_item default fmap option_fmap option_map abs_item].
    + by rewrite <- lookup_fmap.
    + by rewrite <- lookup_fmap, map_fmap_singleton.
Qed.

Section Refinement.
Context `{TableLaws T}.

(** A create that succeeds is a create step of the contract. *)
Lemma create_refines ev (t t' : T) o σ :
  abstracts t σ -> create_user.lambda_handler ev t = (o, t') ->
  (exists v σ', o = Ok v /\ spec_step (Create ev) σ v σ' /\ abstracts t' σ')
  \/ (exists e, o = Exc e /\ t' = t).
Proof.
  intros Habs Hrun.
  destruct (CreateUser.create_user_cases _ _ _ _ Hrun)
    as [Hexc|(raw & body & uid & Hraw & Hjs & Hid & Hput & ->)]; [by right|left].
  destruct (put_item_ok_inv _ _ _ _ Hput) as (d & a & k & -> & Ha & Hv & Hget).
  destruct raw as [| | | |s| |]; try discriminate. cbn [json_loads] in Hjs.
  pose proof (json_loads_dict_wf s d Hjs) as Hnd.
  destruct (put_valid_id d a k Ha Hnd Hv) as [Hk _].
  cbn [getitem] in Hid. rewrite Hk in Hid. injection Hid as <-.
  eexists _, (<[k := list_to_map d]> σ). split_and!; [done| |].
  - constructor; [|done]. unfold body_dict. by rewrite Hraw, Hjs.
  - intros k'. rewrite Hget. destruct (decide (k' = k)) as [->|Hne].
    + rewrite lookup_insert_eq. cbn. f_equal. by apply abs_item_list_to_map.
    + rewrite lookup_insert_ne by congruence. apply Habs.
Qed.

(** An update that succeeds is an update step of the contract. *)
Lemma update_refines ev (t t' : T) o σ :
  abstracts t σ -> update_user.lambda_handler ev t = (o, t') ->
  (exists v σ', o = Ok v /\ spec_step (Update ev) σ v σ' /\ abstracts t' σ')
  \/ (exists e, o = Exc e /\ t' = t).
Proof.
  intros Habs Hrun.
  destruct (UpdateUser.update_user_cases _ _ _ _ Hrun)
    as [Hexc|(p & uid & raw & body & its & Hp & Hid & Hraw & Hjs & Hits & Hupd & ->)];
    [by right|left].
  destruct raw as [| | | |s| |]; try discriminate. cbn [json_loads] in Hjs.
  destruct body as [| | | | | |d]; try discriminate. cbn [items] in Hits. injection Hits as <-.
  pose proof (json_loads_dict_wf s d Hjs) as Hnd.
  rewrite UpdateUser.build_update_body in Hupd by done. cbn [fst snd] in Hupd.
  destruct (update_item_ok_inv _ _ _ _ _ _ Hupd) as (k & vs & cl & Huid & _ & Hvs & Hcl & Hget).
  apply serialize_AS in Huid as ->.
  destruct (serialize_dict_rekey_inv (cons 58) d vs Hvs) as (a & Ha & ->).
  destruct (serialize_dict_fields d a Ha) as [H1 _].
  assert (Hne : d.*1 <> []).
  { intros Hd. rewrite <- H1 in Hd. destruct a; [|discriminate]. by cbn in Hcl. }
  rewrite UpdateUser.update_valid_handler in Hcl by done.
  destruct (forallb UpdateUser.update_key_ok d.*1); [injection Hcl as <-|discriminate].
  eexists _, (<[k := merge d k (σ !! k)]> σ). split_and!; [done| |].
  - constructor; [unfold path_id; by rewrite Hp, Hid|unfold body_dict; by rewrite Hraw, Hjs].
  - intros k'. rewrite Hget. destruct (decide (k' = k)) as [->|Hne'].
    + rewrite lookup_insert_eq. cbn [fmap option_fmap option_map]. f_equal.
      by rewrite abs_item_merge, Habs.
    + rewrite lookup_insert_ne by congruence. apply Habs.
Qed.

(** A delete that succeeds is a delete step of the contract. *)
Lemma delete_refines ev (t t' : T) o σ :
  abstracts t σ -> delete_user.lambda_handler ev t = (o, t') ->
  (exists v σ', o = Ok v /\ spec_step (Delete ev) σ v σ' /\ abstracts t' σ')
  \/ (exists e, o = Exc e /\ t' = t).
Proof.
  intros Habs Hrun.
  destruct (DeleteUser.delete_user_cases _ _ _ _ Hrun)
    as [Hexc|(p & uid & Hp & Hid & Hdel & ->)]; [by right|left].
  destruct (delete_item_ok_inv _ _ _ _ Hdel) as (k & Huid & _ & Hget).
  apply serialize_AS in Huid as ->.
  eexists _, (delete k σ). split_and!; [done| |].
  - constructor. unfold path_id. by rewrite Hp, Hid.
  - intros k'. rewrite Hget. destruct (decide (k' = k)) as [->|Hne].
    + by rewrite lookup_delete_eq.
    + rewrite lookup_delete_ne by congruence. apply Habs.
Qed.

Lemma handle_refines r (t t' : T) o σ :
  abstracts t σ -> handle r t = (o, t') ->
  (exists v σ', o = Ok v /\ spec_step r σ v σ' /\ abstracts t' σ')
  \/ (exists e, o = Exc e /\ t' = t).
Proof.
  destruct r; [apply create_refines|apply update_refines|apply delete_refines].
Qed.

(** C5. Refinement: on any table that meets the DynamoDB contract, every
    sequence of requests to the three handlers, each its own invocation,
    is a trace of the abstract user store: each request that returns is
    a create, update or delete step of the contract with the response
    the contract gives, each request that raises changes nothing, and
    the table afterwards reads back as the store the trace ends in. *)
Theorem run_all_refines rs (t t' : T) os σ :
  abstracts t σ -> run_all rs t = (os, t') ->
  exists σ', spec_trace σ rs os σ' /\ abstracts t' σ'.
Proof.
  revert t σ os. induction rs as [|r rs IH]; intros t σ os Habs Hrun; cbn [run_all] in Hrun.
  - injection Hrun as <- <-. eexists. split; [constructor|done].
  - destruct (handle r t) as [o t1] eqn:Eh. destruct (run_all rs t1) as [os' t2] eqn:Er.
    injection Hrun as <- <-.
    destruct (handle_refines r t t1 o σ Habs Eh) as [(v & σ1 & -> & Hstep & Habs1)|(e & -> & ->)].
    + destruct (IH _ _ _ Habs1 Er) as (σ2 & Htr & Habs2). exists σ2. split; [by econstructor|done].
    + destruct (IH _ _ _ Habs Er) as (σ2 & Htr & Habs2). exists σ2. split; [by constructor|done].
Qed.

(** C9. Creating twice with the same id keeps only the second version
    (spec section 8, property 2): after two creates of bodies with id
    [k] that both succeed, record [k] reads back as exactly the second
    body, and every other record as before. *)
Theorem create_twice_overwrites ev1 ev2 (t t1 t2 : T) v1 v2 σ d1 d2 k :
  abstracts t σ ->
  body_dict ev1 = Some d1 -> assoc (u "id") d1 = Some (PStr k) ->
  body_dict ev2 = Some d2 -> assoc (u "id") d2 = Some (PStr k) ->
  create_user.lambda_handler ev1 t = (Ok v1, t1) -> create_user.lambda_handler ev2 t1 = (Ok v2, t2) ->
  abstracts t2 (<[k := list_to_map d2]> σ).
Proof.
  intros Habs Hb1 Hk1 Hb2 Hk2 Hr1 Hr2.
  destruct (create_refines _ _ _ _ _ Habs Hr1) as [(v & σ1 & [= <-] & Hs1 & Habs1)|(e & [=] & _)].
  destruct (create_refines _ _ _ _ _ Habs1 Hr2) as [(v' & σ2 & [= <-] & Hs2 & Habs2)|(e & [=] & _)].
  rewrite (spec_step_create_inv _ _ _ _ _ _ Hs2 Hb2 Hk2), (spec_step_create_inv _ _ _ _ _ _ Hs1 Hb1 Hk1)
    in Habs2.
  by rewrite insert_insert_eq in Habs2.
Qed.

(** C12. The response of every request that succeeds carries the status
    code of the contract (201 for a create, 200 otherwise) and a body
    that [json.loads] reads back as [{'message': 'User <id> created'}]
    (or [updated], [deleted]), where [<id>] is the id the request names,
    when that id is a Unicode string. *)
Theorem handle_response_json r (t t' : T) σ v :
  abstracts t σ -> handle r t = (Ok v, t') ->
  exists k, request_id r = Some k
    /\ getitem v (u "statusCode") = Ok (PInt (status_of r))
    /\ (forallb str_char_ok k = true ->
        res_bind (getitem v (u "body")) json_loads
        = Ok (PDict [(u "message", PStr (u "User " ++ k ++ verb_of r))])).
Proof.
  intros Habs Hrun.
  destruct (handle_refines r t t' _ σ Habs Hrun) as [(v' & σ' & [= <-] & Hstep & _)|(e & [=] & _)].
  destruct (spec_step_response _ _ _ _ Hstep) as (k & Hk & ->).
  exists k. split; [done|]. split; [reflexivity|]. intros Hok.
  apply api_response_json. rewrite !forallb_app, Hok.
  by destruct r.
Qed.
End Refinement.

(** C8. A request that raises leaves the table exactly as it was, for
    every table: each handler writes at most once, last, and a write
    that raises writes nothing. *)
Theorem handle_atomic `{Table T} r (t t' : T) e :
  handle r t = (Exc e, t') -> t' = t.
Proof.
  destruct r as [ev|ev|ev]; cbn [handle]; intros Hrun.
  - destruct (CreateUser.create_user_cases _ _ _ _ Hrun)
      as [(? & _ & ->)|(? & ? & ? & ? & ? & ? & ? & ?)]; [done|discriminate].
  - destruct (UpdateUser.update_user_cases _ _ _ _ Hrun)
      as [(? & _ & ->)|(? & ? & ? & ? & ? & ? & ? & ? & ? & ? & ? & ?)]; [done|discriminate].
  - destruct (DeleteUser.delete_user_cases _ _ _ _ Hrun)
      as [(? & _ & ->)|(? & ? & ? & ? & ? & ?)]; [done|discriminate].
Qed.

(** ** Witnesses *)

(** A session on an empty table: a create, an update, an update with
    the reserved word [name], a delete, and a create whose body holds a
    float. *)
Definition session : list request :=
  [Create (PDict [(u "body", PStr CreateUser.create_body)]);
   Update (UpdateUser.update_event (u "u1") (uq "{'email': 'a@b.c'}"));
   Update (UpdateUser.update_event (u "u1") (uq "{'name': 'x'}"));
   Delete (DeleteUser.path_event (u "u1"));
   Create (PDict [(u "body", PStr (uq "{'id': 'u2', 'score': 1.5}"))])].

Lemma run_all_refines_witness :
  exists σ', spec_trace ∅ session (run_all session (∅ : ddb_table)).1 σ'
    /\ abstracts (run_all session (∅ : ddb_table)).2 σ'.
Proof.
  apply (run_all_refines session (∅ : ddb_table) _ _ ∅).
  - intros k. reflexivity.
  - vm_compute. reflexivity.
Defined.

(** A table holding record [u1]. *)
Definition one_user : ddb_table := <[u "u1" := {[u "id" := AS (u "u1")]}]> ∅.

Lemma handle_atomic_witness :
  (handle (Update (UpdateUser.update_event (u "u1") (uq "{'name': 'x'}"))) one_user).2 = one_user.
Proof.
  apply (handle_atomic (Update (UpdateUser.update_event (u "u1") (uq "{'name': 'x'}")))
           one_user _ validation).
  vm_compute. reflexivity.
Defined.

Definition first_body : pystr := uq "{'id': 'u1', 'name': 'Ann', 'age': 30}".
Definition second_body : pystr := uq "{'id': 'u1', 'email': 'a@b.c'}".

Lemma create_twice_overwrites_witness :
  abstracts (create_user.lambda_handler (PDict [(u "body", PStr second_body)])
               (create_user.lambda_handler (PDict [(u "body", PStr first_body)]) (∅ : ddb_table)).2).2
    (<[u "u1" := list_to_map [(u "id", PStr (u "u1")); (u "email", PStr (u "a@b.c"))]]> ∅).
Proof.
  eapply (create_twice_overwrites (PDict [(u "body", PStr first_body)])
            (PDict [(u "body", PStr second_body)]) (∅ : ddb_table) _ _
            (api_response 201 (u "User " ++ u "u1" ++ u " created"))
            (api_response 201 (u "User " ++ u "u1" ++ u " created")) ∅
            [(u "id", PStr (u "u1")); (u "name", PStr (u "Ann")); (u "age", PInt 30)]).
  - intros k. reflexivity.
  - vm_compute. reflexivity.
  - reflexivity.
  - vm_compute. reflexivity.
  - reflexivity.
  - vm_compute. reflexivity.
  - vm_compute. reflexivity.
Defined.

Lemma handle_response_json_witness :
  exists k, request_id (Create (PDict [(u "body", PStr CreateUser.create_body)])) = Some k
    /\ getitem (api_response 201 (u "User " ++ u "u1" ++ u " created")) (u "statusCode")
       = Ok (PInt (status_of (Create (PDict [(u "body", PStr CreateUser.create_body)]))))
    /\ (forallb str_char_ok k = true ->
        res_bind (getitem (api_response 201 (u "User " ++ u "u1" ++ u " created")) (u "body")) json_loads
        = Ok (PDict [(u "message", PStr (u "User " ++ k
                                          ++ verb_of (Create (PDict [(u "body", PStr CreateUser.create_body)]))))])).
Proof.
  apply (handle_response_json (Create (PDict [(u "body", PStr CreateUser.create_body)]))
           (∅ : ddb_table)
           (create_user.lambda_handler (PDict [(u "body", PStr CreateUser.create_body)]) (∅ : ddb_table)).2
           ∅).
  - intros k. reflexivity.
  - vm_compute. reflexivity.
Defined.

