(* ===== verification/Concurrency.v ===== *)
(** * Concurrent invocations (spec section 5)

    Lambda runs invocations of the three user handlers concurrently, each
    in its own process, against one DynamoDB table whose single-item
    operations are atomic.  [plan_of] computes from an event alone what
    its handler will do: raise, or send one table operation and answer
    a fixed response.  [handle_run_plan] shows each handler is exactly
    its plan: no handler reads the table, and each writes it at most
    once.

    [cstep] is the interleaving semantics of a batch of invocations:
    each invocation computes its plan at any moment (touching nothing
    shared), then performs its operation atomically on the table.
    [interleaving_linearizable] shows that every complete interleaving
    ends with the table and the responses of the sequential run of the
    invocations in the order their operations reached the table. *)

From S2P Require Import Prelude PyValue Json UpdateExpr Dynamo Api.
From S2P Require Import CreateUser DeleteUser UpdateUser.

(** ** Plans *)

(** A table operation, with the arguments boto3 sends. *)
Inductive call :=
| CPut (it : item)
| CDelete (key : attr)
| CUpdate (key : attr) (e : pystr) (vals : list (pystr * attr)).

(** What an invocation does: raise before any request, or send one
    operation and answer [v] when it succeeds. *)
Inductive plan :=
| Raise (e : exn)
| Send (c : call) (v : pyval).

Definition pbind {A} (r : res A) (k : A -> plan) : plan :=
  match r with Ok a => k a | Exc e => Raise e end.

(** [table.put_item(Item=item)] then answer [v]. *)
Definition put_plan (item v : pyval) : plan :=
  match item with
  | PDict d => match serialize_dict d with Ok it => Send (CPut (list_to_map it)) v | Exc e => Raise e end
  | _ => Raise ParamValidationError
  end.

(** [table.delete_item(Key={'id': key})] then answer [v]. *)
Definition delete_plan (key v : pyval) : plan :=
  pbind (serialize key) (fun k => Send (CDelete k) v).

(** [table.update_item(...)] then answer [v]. *)
Definition update_plan (key : pyval) (e : pystr) (vals : list (pystr * pyval)) (v : pyval) : plan :=
  pbind (serialize key) (fun k => pbind (serialize_dict vals) (fun vs => Send (CUpdate k e vs) v)).

(** The plan of a request, from its event alone, step for step as the
    handlers compute it. *)
Definition plan_of (r : request) : plan :=
  match r with
  | Create ev =>
      pbind (getitem ev (u "body")) (fun raw =>
      pbind (json_loads raw) (fun body =>
      pbind (getitem body (u "id")) (fun uid =>
      put_plan body (api_response 201 (u "User " ++ py_str uid ++ u " created")))))
  | Update ev =>
      pbind (getitem ev (u "pathParameters")) (fun params =>
      pbind (getitem params (u "id")) (fun uid =>
      pbind (getitem ev (u "body")) (fun raw =>
      pbind (json_loads raw) (fun body =>
      pbind (items body) (fun its =>
      let '(ex, attrs) := update_user.build_update its (u "SET ") [] in
      update_plan uid (update_user.rstrip (u ", ") ex) attrs
        (api_response 200 (u "User " ++ py_str uid ++ u " updated")))))))
  | Delete ev =>
      pbind (getitem ev (u "pathParameters")) (fun params =>
      pbind (getitem params (u "id")) (fun uid =>
      delete_plan uid (api_response 200 (u "User " ++ py_str uid ++ u " deleted"))))
  end.

Section Run.
Context `{Table T}.

Definition run_call (c : call) : T -> res T :=
  match c with
  | CPut it => svc_put_item it
  | CDelete k => svc_delete_item k
  | CUpdate k e vs => svc_update_item k e vs
  end.

(** Running a plan: the operation is the only access to the table. *)
Definition run_plan (p : plan) : PyM T pyval :=
  match p with
  | Raise e => raise e
  | Send c v => svc_call (run_call c) ;; ret v
  end.

Lemma put_plan_run (item v : pyval) (t : T) : (put_item item ;; ret v) t = run_plan (put_plan item v) t.
Proof.
  unfold put_item, put_plan. destruct item as [| | | | | |d]; try reflexivity.
  by destruct (serialize_dict d).
Qed.

Lemma delete_plan_run (key v : pyval) (t : T) :
  (delete_item key ;; ret v) t = run_plan (delete_plan key v) t.
Proof. unfold delete_item, delete_plan. by destruct (serialize key). Qed.

Lemma update_plan_run key e vals (v : pyval) (t : T) :
  (update_item key e vals ;; ret v) t = run_plan (update_plan key e vals v) t.
Proof.
  unfold update_item, update_plan. destruct (serialize key); [|done]. cbn [pbind].
  by destruct (serialize_dict vals).
Qed.
End Run.

(** Walks one pure step on both sides of [handle r t = run_plan p t]. *)
Ltac plan_step r x :=
  destruct r as [x|?]; cbn [pbind]; simpl_py; [|reflexivity].

Section Equivalence.
Context `{Table T}.

Lemma handle_run_plan (r : request) (t : T) : handle r t = run_plan (plan_of r) t.
Proof.
  destruct r as [ev|ev|ev]; cbn [handle plan_of].
  - unfold create_user.lambda_handler.
    plan_step (getitem ev (u "body")) raw. plan_step (json_loads raw) body.
    plan_step (getitem body (u "id")) uid. apply put_plan_run.
  - unfold update_user.lambda_handler.
    plan_step (getitem ev (u "pathParameters")) params. plan_step (getitem params (u "id")) uid.
    plan_step (getitem ev (u "body")) raw. plan_step (json_loads raw) body.
    plan_step (items body) its.
    destruct (update_user.build_update its (u "SET ") []). apply update_plan_run.
  - unfold delete_user.lambda_handler.
    plan_step (getitem ev (u "pathParameters")) params. plan_step (getitem params (u "id")) uid.
    apply delete_plan_run.
Qed.

End Equivalence.

Lemma run_all_snoc `{Table T} (rs : list request) (r : request) (t : T) :
  run_all (rs ++ [r]) t =
    let '(os, t1) := run_all rs t in let '(o, t2) := handle r t1 in (os ++ [o], t2).
Proof.
  revert t. induction rs as [|r' rs IH]; intros t; cbn [run_all app].
  - by destruct (handle r t).
  - destruct (handle r' t) as [o1 t1]. rewrite IH.
    destruct (run_all rs t1) as [os t2]. by destruct (handle r t2).
Qed.

Lemma omap_ext_in {A B} (f g : A -> option B) (l : list A) :
  (forall x, x ∈ l -> f x = g x) -> omap f l = omap g l.
Proof.
  induction l as [|x l IH]; intros Hfg; [done|]. cbn.
  rewrite (Hfg x), IH by set_solver. done.
Qed.

Lemma lookup_insert_at {A} (l : list A) i j (x y : A) :
  l !! i = Some x -> <[i := y]> l !! j = if decide (i = j) then Some y else l !! j.
Proof.
  intros Hi. case_decide; subst.
  - apply list_lookup_insert_eq. by eapply lookup_lt_Some.
  - by apply list_lookup_insert_ne.
Qed.

(** ** Interleavings *)

(** One invocation: not started, with its plan computed, or finished
    with its outcome. *)
Inductive thread :=
| TReady (r : request)
| TPlanned (r : request) (p : plan)
| TDone (r : request) (o : res pyval).

Definition thread_req (th : thread) : request :=
  match th with TReady r | TPlanned r _ | TDone r _ => r end.

Definition thread_out (th : thread) : option (res pyval) :=
  match th with TDone _ o => Some o | _ => None end.

Definition finished (th : thread) : bool :=
  match th with TDone _ _ => true | _ => false end.

Section Interleaving.
Context `{Table T}.

(** The table, the invocations, and the order in which their operations
    reached the table. *)
Record config := mk_config { ctable : T; cthreads : list thread; clog : list nat }.

(** A step of one invocation: computing its plan, which touches nothing
    shared, or running its plan, atomically on the table. *)
Inductive cstep : config -> config -> Prop :=
| cstep_plan c i r :
    cthreads c !! i = Some (TReady r) ->
    cstep c (mk_config (ctable c) (<[i := TPlanned r (plan_of r)]> (cthreads c)) (clog c))
| cstep_call c i r p o t' :
    cthreads c !! i = Some (TPlanned r p) -> run_plan p (ctable c) = (o, t') ->
    cstep c (mk_config t' (<[i := TDone r o]> (cthreads c)) (clog c ++ [i])).

(** A scheduler: advance invocation [i] by one step, if it has one. *)
Definition step_thread (i : nat) (c : config) : config :=
  match cthreads c !! i with
  | Some (TReady r) => mk_config (ctable c) (<[i := TPlanned r (plan_of r)]> (cthreads c)) (clog c)
  | Some (TPlanned r p) =>
      let '(o, t') := run_plan p (ctable c) in
      mk_config t' (<[i := TDone r o]> (cthreads c)) (clog c ++ [i])
  | _ => c
  end.

Definition run_schedule (s : list nat) (c : config) : config :=
  foldl (fun c i => step_thread i c) c s.

(** The invocations of [rs], none started, on the table [t]. *)
Definition initial (rs : list request) (t : T) : config := mk_config t (map TReady rs) [].

(** The outcomes of the invocations in the log, in the log's order. *)
Definition logged_outcomes (c : config) : list (res pyval) :=
  omap (fun i => cthreads c !! i ≫= thread_out) (clog c).

(** What stays true along an interleaving of [rs] from [t0]: every
    invocation keeps its request, the log lists each finished invocation
    once, a computed plan is the plan of its request, and the table and
    the outcomes are those of the sequential run in the log's order. *)
Record inv (rs : list request) (t0 : T) (c : config) : Prop := {
  inv_req : forall i, thread_req <$> cthreads c !! i = rs !! i;
  inv_nodup : NoDup (clog c);
  inv_log : forall i, i ∈ clog c <-> is_Some (cthreads c !! i ≫= thread_out);
  inv_plan : forall i r p, cthreads c !! i = Some (TPlanned r p) -> p = plan_of r;
  inv_run : run_all (omap (fun i => rs !! i) (clog c)) t0 = (logged_outcomes c, ctable c);
}.

Lemma inv_initial rs t0 : inv rs t0 (initial rs t0).
Proof.
  split; cbn [cthreads clog ctable initial]; intros *; rewrite ?list_lookup_fmap.
  - by destruct (rs !! i).
  - apply NoDup_nil_2.
  - destruct (rs !! i); cbn; split; [set_solver|by intros []|set_solver|by intros []].
  - by destruct (rs !! i).
  - done.
Qed.

Lemma logged_outcomes_frame (c : config) i th :
  i ∉ clog c ->
  omap (fun j => <[i := th]> (cthreads c) !! j ≫= thread_out) (clog c) = logged_outcomes c.
Proof.
  intros Hi. apply omap_ext_in. intros j Hj.
  destruct (decide (i = j)); [set_solver|]. by rewrite list_lookup_insert_ne.
Qed.

Lemma inv_step rs t0 c c' : inv rs t0 c -> cstep c c' -> inv rs t0 c'.
Proof.
  intros [Hreq Hnd Hlog Hplan Hrun] Hs.
  destruct Hs as [c i r Hi|c i r p o t' Hi Hp]; cbn [cthreads clog ctable].
  - assert (i ∉ clog c) as Hni by (rewrite Hlog, Hi; by intros []).
    split; cbn [cthreads clog ctable]; intros *; rewrite ?(lookup_insert_at _ _ _ _ _ Hi).
    + case_decide; subst; [by rewrite <- Hreq, Hi|done].
    + done.
    + rewrite Hlog. case_decide; subst; [rewrite Hi|]; done.
    + case_decide; [by intros [= -> ->]|apply Hplan].
    + unfold logged_outcomes. cbn [cthreads clog ctable]. by rewrite logged_outcomes_frame.
  - assert (i ∉ clog c) as Hni by (rewrite Hlog, Hi; by intros []).
    assert (rs !! i = Some r) as Hr by (by rewrite <- Hreq, Hi).
    split; cbn [cthreads clog ctable]; intros *; rewrite ?(lookup_insert_at _ _ _ _ _ Hi).
    + case_decide; subst; [done|apply Hreq].
    + apply NoDup_app. split_and!; [done|set_solver|apply NoDup_singleton].
    + rewrite elem_of_app, list_elem_of_singleton, Hlog.
      case_decide; subst; [cbn; split; [done|auto]|naive_solver].
    + case_decide; [done|apply Hplan].
    + assert (omap (fun j => rs !! j) (clog c ++ [i]) = omap (fun j => rs !! j) (clog c) ++ [r])
        as -> by (rewrite omap_app; cbn; by rewrite Hr).
      rewrite run_all_snoc, Hrun, handle_run_plan, <- (Hplan _ _ _ Hi), Hp.
      unfold logged_outcomes. cbn [cthreads clog ctable].
      rewrite omap_app, logged_outcomes_frame by done. cbn.
      by rewrite list_lookup_insert_eq by (by eapply lookup_lt_Some).
Qed.

Lemma inv_reachable rs t0 c : rtc cstep (initial rs t0) c -> inv rs t0 c.
Proof.
  intros Hr. remember (initial rs t0) as c0 eqn:E.
  assert (inv rs t0 c0) as Hi by (subst; apply inv_initial). clear E.
  induction Hr; eauto using inv_step.
Qed.

Lemma run_schedule_rtc s c : rtc cstep c (run_schedule s c).
Proof.
  revert c. induction s as [|i s IH]; intros c; [done|]. cbn [run_schedule foldl].
  etrans; [|apply IH]. unfold step_thread.
  destruct (cthreads c !! i) as [[r|r p|r o]|] eqn:Hi; [| |done|done].
  - apply rtc_once. by constructor.
  - destruct (run_plan p (ctable c)) eqn:Hp. apply rtc_once. by eapply cstep_call.
Qed.

Lemma inv_finished_log rs t0 c :
  inv rs t0 c -> forallb finished (cthreads c) = true -> clog c ≡ₚ seq 0 (length rs).
Proof.
  intros Hinv Hfin. apply NoDup_Permutation; [apply Hinv|apply NoDup_seq|].
  intros i. rewrite elem_of_seq, (inv_log _ _ _ Hinv).
  rewrite forallb_forall in Hfin. split.
  - intros [o Ho]. destruct (cthreads c !! i) as [th|] eqn:Hi; [|done].
    pose proof (inv_req _ _ _ Hinv i) as Hr. rewrite Hi in Hr.
    symmetry in Hr. apply lookup_lt_Some in Hr. lia.
  - intros [_ Hlt]. destruct (lookup_lt_is_Some_2 rs i Hlt) as [r Hr].
    rewrite <- (inv_req _ _ _ Hinv i) in Hr.
    destruct (cthreads c !! i) as [th|] eqn:Hi; [|done].
    apply list_elem_of_lookup_2, list_elem_of_In, Hfin in Hi. by destruct th.
Qed.

(** C17. Linearizability: in every interleaving of the invocations [rs]
    from the table [t0] that has finished them all, the operations
    reached the table in some order of [rs] (the log is a permutation
    of its indices), and the table and every invocation's response are
    those of running the handlers one after the other in that order. *)
Theorem interleaving_linearizable rs t0 c :
  rtc cstep (initial rs t0) c -> forallb finished (cthreads c) = true ->
  clog c ≡ₚ seq 0 (length rs) /\
  run_all (omap (fun i => rs !! i) (clog c)) t0 = (logged_outcomes c, ctable c).
Proof.
  intros Hr Hf. pose proof (inv_reachable _ _ _ Hr) as Hinv.
  split; [by eapply inv_finished_log|apply Hinv].
Qed.

End Interleaving.

(** A create and a delete of user [u1] racing on an empty table: the
    delete reaches the table first. *)
Definition race : list request :=
  [Create (PDict [(u "body", PStr (uq "{'id': 'u1', 'name': 'Ann'}"))]);
   Delete (DeleteUser.path_event (u "u1"))].

Definition race_end : config := run_schedule [0; 1; 1; 0]%nat (initial race (∅ : ddb_table)).

Lemma interleaving_linearizable_witness :
  forallb finished (cthreads race_end) = true /\
  clog race_end ≡ₚ seq 0 (length race) /\
  run_all (omap (fun i => race !! i) (clog race_end)) ∅ = (logged_outcomes race_end, ctable race_end).
Proof.
  split; [vm_compute; reflexivity|].
  apply (interleaving_linearizable race ∅ race_end); [apply run_schedule_rtc|vm_compute; reflexivity].
Defined.

(** The order decides the outcome: the create that reaches the table
    last leaves the user stored, both invocations answering success. *)
Example race_create_last :
  clog race_end = [1; 0]%nat /\ table_get (u "u1") (ctable race_end) <> None /\
  logged_outcomes race_end = [Ok (api_response 200 (u "User u1 deleted"));
                              Ok (api_response 201 (u "User u1 created"))].
Proof. vm_compute. split; [done|split; [discriminate|done]]. Qed.
