(* ===== verification/ModuleInit.v ===== *)
(** * Loading the user handler modules (lines 5-6 of each)

    A Lambda process imports the handler's module before its first
    invocation.  [module_init] of [create_user], [update_user] and
    [delete_user] reads [os.environ['TABLE_NAME']]; [boto3.resource] and
    [dynamodb.Table(name)] only build handles, so a name that is set but
    names no table passes the import, and the failure comes with the
    first request that reaches the service.

    [account] holds the DynamoDB tables of the account by name, and
    [named_table name] is the [Table] the handle [dynamodb.Table(name)]
    gives: each operation goes to the table [name], and DynamoDB answers
    [ResourceNotFoundException] when the account has no table of that
    name.  [invoke] is one invocation: the module's init, then its
    handler on the table the init named; [invoke_all] a sequence of them
    from processes sharing one environment. *)

From S2P Require Import Prelude PyValue Json UpdateExpr Dynamo.
From S2P Require Import CreateUser DeleteUser UpdateUser Api Concurrency.

(** ** The account and the table handle *)

Abbreviation account := (gmap pystr ddb_table).

Definition resource_not_found : exn := ClientError "ResourceNotFoundException".

(** A request to the table [name] of the account. *)
Definition on_table (name : pystr) (f : ddb_table -> res ddb_table) (a : account)
  : res account :=
  match a !! name with
  | Some t => match f t with Ok t' => Ok (<[name := t']> a) | Exc e => Exc e end
  | None => Exc resource_not_found
  end.

(** [dynamodb.Table(name)]. *)
Definition named_table (name : pystr) : Table account := {|
  table_get k a := a !! name ≫= lookup k;
  svc_put_item it := on_table name (ddb_put_item it);
  svc_delete_item key := on_table name (ddb_delete_item key);
  svc_update_item key e vals := on_table name (ddb_update_item key e vals);
|}.

(** ** Invocations *)

(** The init code of the module whose handler serves [r]. *)
Definition init_of (r : request) : list (pystr * pystr) -> res pystr :=
  match r with
  | Create _ => create_user.module_init
  | Update _ => update_user.module_init
  | Delete _ => delete_user.module_init
  end.

(** An invocation: the import of the module, whose failure ends the
    invocation before the handler runs, then the handler on the table
    the import bound. *)
Definition invoke (environ : list (pystr * pystr)) (r : request) : PyM account pyval :=
  match init_of r environ with
  | Ok name => @handle account (named_table name) r
  | Exc e => raise e
  end.

Fixpoint invoke_all (environ : list (pystr * pystr)) (rs : list request) (a : account)
  : list (res pyval) * account :=
  match rs with
  | [] => ([], a)
  | r :: rs' =>
      let '(o, a1) := invoke environ r a in
      let '(os, a2) := invoke_all environ rs' a1 in
      (o :: os, a2)
  end.

(** ** The handle on an existing table is that table *)

Lemma init_of_table_name (environ : list (pystr * pystr)) (r : request) :
  init_of r environ = environ_getitem environ (u "TABLE_NAME").
Proof. by destruct r. Qed.

Lemma run_call_named (name : pystr) (c : call) :
  @run_call _ (named_table name) c = on_table name (@run_call _ ddb c).
Proof. by destruct c. Qed.

(** A plan run through the handle runs on the named table, and the rest
    of the account stays as it was. *)
Lemma run_plan_named (name : pystr) (a : account) (t : ddb_table) (p : plan) :
  a !! name = Some t ->
  @run_plan _ (named_table name) p a = ((run_plan p t).1, <[name := (run_plan p t).2]> a).
Proof.
  intros Ht. destruct p as [e|c v]; cbn [run_plan].
  - cbn. by rewrite insert_id.
  - unfold bind, svc_call. rewrite run_call_named. unfold on_table. rewrite Ht.
    destruct (run_call c t); cbn; [done|by rewrite insert_id].
Qed.

Lemma handle_named (name : pystr) (a : account) (t : ddb_table) (r : request) :
  a !! name = Some t ->
  @handle _ (named_table name) r a = ((handle r t).1, <[name := (handle r t).2]> a).
Proof. intros Ht. rewrite !handle_run_plan. by apply run_plan_named. Qed.

Lemma invoke_on_table (environ : list (pystr * pystr)) (r : request) (name : pystr) (a : account) (t : ddb_table) :
  init_of r environ = Ok name -> a !! name = Some t ->
  invoke environ r a = ((handle r t).1, <[name := (handle r t).2]> a).
Proof.
  intros Hinit Ht. unfold invoke. rewrite Hinit. by apply handle_named.
Qed.

(** ** What the import decides *)

(** C20. Invocations of the three user handlers from processes that
    share one environment, whose [TABLE_NAME] names a table of the
    account, run the handlers one after the other on that table: the
    responses and the table are those of [run_all], and every other
    table of the account is left as it was. *)
Theorem invoke_all_on_table (environ : list (pystr * pystr)) (rs : list request)
  (name : pystr) (a : account) (t : ddb_table) :
  environ_getitem environ (u "TABLE_NAME") = Ok name -> a !! name = Some t ->
  invoke_all environ rs a = ((run_all rs t).1, <[name := (run_all rs t).2]> a).
Proof.
  intros Hname. revert a t. induction rs as [|r rs IH]; intros a t Ht; cbn [invoke_all run_all].
  - by rewrite insert_id.
  - rewrite (invoke_on_table environ r name a t) by (by rewrite ?init_of_table_name).
    destruct (handle r t) as [o t1]. cbn [fst snd].
    rewrite (IH _ t1) by apply lookup_insert_eq.
    destruct (run_all rs t1) as [os t2]. cbn. by rewrite insert_insert_eq.
Qed.

(** C21. A [TABLE_NAME] that names no table of the account passes the
    import, and then every invocation fails and changes nothing: with
    the exception the handler raises before any request, or with
    [ResourceNotFoundException] once its request reaches DynamoDB. *)
Theorem invoke_missing_table (environ : list (pystr * pystr)) (r : request)
  (name : pystr) (a : account) :
  environ_getitem environ (u "TABLE_NAME") = Ok name -> a !! name = None ->
  invoke environ r a
  = (Exc (match plan_of r with Raise e => e | Send _ _ => resource_not_found end), a).
Proof.
  intros Hname Hnone. unfold invoke. rewrite init_of_table_name, Hname, handle_run_plan.
  destruct (plan_of r) as [e|c v]; [done|]. cbn [run_plan].
  unfold bind, svc_call. rewrite run_call_named. unfold on_table. by rewrite Hnone.
Qed.

(** C22. Without [TABLE_NAME] in the environment the import raises
    [KeyError('TABLE_NAME')]: the invocation fails before its handler
    runs and the account is unchanged. *)
Theorem invoke_init_error (environ : list (pystr * pystr)) (r : request) (a : account) :
  assoc (u "TABLE_NAME") environ = None ->
  invoke environ r a = (Exc (KeyError (u "TABLE_NAME")), a).
Proof.
  intros Hnone. unfold invoke. rewrite init_of_table_name. unfold environ_getitem.
  by rewrite Hnone.
Qed.

(** ** Witnesses *)

Definition lambda_env : list (pystr * pystr) :=
  [(u "AWS_REGION", u "eu-west-1"); (u "TABLE_NAME", u "users")].

(** The account: the users table, empty, and another table. *)
Definition users_account : account := {[u "users" := ∅; u "audit" := one_user]}.

Lemma invoke_all_on_table_witness :
  environ_getitem lambda_env (u "TABLE_NAME") = Ok (u "users") /\
  users_account !! u "users" = Some ∅ /\
  invoke_all lambda_env session users_account
  = ((run_all session ∅).1, <[u "users" := (run_all session ∅).2]> users_account).
Proof.
  split; [reflexivity|]. split; [reflexivity|].
  apply (invoke_all_on_table lambda_env session (u "users") users_account ∅); reflexivity.
Defined.

Lemma invoke_missing_table_witness :
  environ_getitem lambda_env (u "TABLE_NAME") = Ok (u "users") /\
  ({[u "audit" := one_user]} : account) !! u "users" = None /\
  invoke lambda_env (Delete (DeleteUser.path_event (u "u1"))) {[u "audit" := one_user]}
  = (Exc resource_not_found, {[u "audit" := one_user]}).
Proof.
  split; [reflexivity|]. split; [reflexivity|].
  etrans; [apply (invoke_missing_table lambda_env _ (u "users")); reflexivity|reflexivity].
Defined.

Lemma invoke_init_error_witness :
  assoc (u "TABLE_NAME") [(u "AWS_REGION", u "eu-west-1")] = None /\
  invoke [(u "AWS_REGION", u "eu-west-1")] (Create (PDict [(u "body", PStr CreateUser.create_body)]))
    users_account
  = (Exc (KeyError (u "TABLE_NAME")), users_account).
Proof.
  split; [reflexivity|]. apply invoke_init_error. reflexivity.
Defined.
