(* ===== verification/BadEvents.v ===== *)
(** * Events the user handlers do not expect

    API Gateway's proxy integration sends ["body": null] for a request
    without a body and ["pathParameters": null] for a route without path
    parameters, and a client can send a JSON body that is not an object.
    None of the handlers checks its event: each such event fails at the
    first Python step that cannot apply to it, before any request to
    DynamoDB, so the table is never touched (spec section 7(a): malformed
    input propagates as an unrecovered failure).  [null_fields_raise]
    gives the exception for each of these cases, computed through the
    plans of [Concurrency]. *)

From S2P Require Import Prelude PyValue Json UpdateExpr Dynamo.
From S2P Require Import CreateUser DeleteUser UpdateUser Api Concurrency.

(** The message of [json.loads(None)]. *)
Definition json_none_error : exn :=
  TypeError "the JSON object must be str, bytes or bytearray, not NoneType".

(** An event dict with field [k] set to [v]. *)
Lemma getitem_field (d : list (pystr * pyval)) (k : pystr) (v : pyval) :
  assoc k d = Some v -> getitem (PDict d) k = Ok v.
Proof. intros Hk. cbn. by rewrite Hk. Qed.

(** A handler whose plan raises leaves the table as it was. *)
Lemma handle_raise `{Table T} (r : request) (t : T) (e : exn) :
  plan_of r = Raise e -> handle r t = (Exc e, t).
Proof. intros Hp. by rewrite handle_run_plan, Hp. Qed.

Section Malformed.
Context `{Table T}.

(** C24. On the events API Gateway sends without a body or without path
    parameters, and on a body that is JSON but not an object, each user
    handler raises, before any request to DynamoDB and with the table
    unchanged: a create or an update whose [body] is [null] raises
    [TypeError] from [json.loads(None)]; an update or a delete whose
    [pathParameters] is [null] raises [TypeError: 'NoneType' object is
    not subscriptable]; a body that is a JSON array makes a create raise
    [TypeError] at [body['id']] and an update raise [AttributeError] at
    [body.items()]. *)
Theorem null_fields_raise (d : list (pystr * pyval)) (t : T) :
  (assoc (u "body") d = Some PNone ->
     handle (Create (PDict d)) t = (Exc json_none_error, t)) /\
  (assoc (u "pathParameters") d = Some PNone ->
     handle (Update (PDict d)) t = (Exc (not_subscriptable PNone), t) /\
     handle (Delete (PDict d)) t = (Exc (not_subscriptable PNone), t)) /\
  (forall p uid, assoc (u "pathParameters") d = Some p -> getitem p (u "id") = Ok uid ->
     assoc (u "body") d = Some PNone ->
     handle (Update (PDict d)) t = (Exc json_none_error, t)) /\
  (forall s l, assoc (u "body") d = Some (PStr s) -> json_loads_str s = Ok (PList l) ->
     handle (Create (PDict d)) t
       = (Exc (TypeError "list indices must be integers or slices, not str"), t) /\
     (forall p uid, assoc (u "pathParameters") d = Some p -> getitem p (u "id") = Ok uid ->
        handle (Update (PDict d)) t = (Exc (no_attribute (PList l) "items"), t))).
Proof.
  split_and!.
  - intros Hb. apply handle_raise. cbn [plan_of]. by rewrite (getitem_field _ _ _ Hb).
  - intros Hp. split; apply handle_raise; cbn [plan_of]; by rewrite (getitem_field _ _ _ Hp).
  - intros p uid Hp Hid Hb. apply handle_raise. cbn [plan_of].
    rewrite (getitem_field _ _ _ Hp). cbn [pbind]. rewrite Hid. cbn [pbind].
    by rewrite (getitem_field _ _ _ Hb).
  - intros s l Hb Hs. split.
    + apply handle_raise. cbn [plan_of]. rewrite (getitem_field _ _ _ Hb). cbn [pbind json_loads].
      by rewrite Hs.
    + intros p uid Hp Hid. apply handle_raise. cbn [plan_of].
      rewrite (getitem_field _ _ _ Hp). cbn [pbind]. rewrite Hid. cbn [pbind].
      rewrite (getitem_field _ _ _ Hb). cbn [pbind json_loads]. by rewrite Hs.
Qed.
End Malformed.

(** ** Witnesses *)

(** A [DELETE /users] proxy event of API Gateway: no path parameters and
    no body. *)
Definition bare_event : list (pystr * pyval) :=
  [(u "resource", PStr (u "/users")); (u "httpMethod", PStr (u "DELETE"));
   (u "pathParameters", PNone); (u "body", PNone)].

(** A [PUT /users/u1] proxy event whose body is a JSON array. *)
Definition array_event : list (pystr * pyval) :=
  [(u "pathParameters", PDict [(u "id", PStr (u "u1"))]); (u "body", PStr (u "[1, 2]"))].

Lemma null_fields_raise_witness :
  handle (Create (PDict bare_event)) one_user = (Exc json_none_error, one_user) /\
  handle (Delete (PDict bare_event)) one_user = (Exc (not_subscriptable PNone), one_user) /\
  handle (Update (PDict array_event)) one_user
    = (Exc (no_attribute (PList [PInt 1; PInt 2]) "items"), one_user).
Proof.
  split_and!.
  - apply (null_fields_raise bare_event one_user). reflexivity.
  - apply (null_fields_raise bare_event one_user). reflexivity.
  - apply (null_fields_raise array_event one_user) with (s := u "[1, 2]") (p := PDict [(u "id", PStr (u "u1"))])
      (uid := PStr (u "u1")); reflexivity.
Defined.
