(* ===== verification/KeyLimit.v ===== *)
(** * The key limits of DynamoDB through the three user handlers

    None of the handlers looks at the length of the [id] it is given: the
    path parameter or the body's [id] goes to boto3 as it is.  DynamoDB
    refuses a partition key that is empty or longer than 2048 bytes in
    UTF-8 ([Dynamo.key_ok]) with [ValidationException], before it looks
    at the rest of the request, so each handler raises on such an [id]
    and the table is never changed.  The limit counts bytes, not
    characters: 683 copies of ["€"] (3 bytes each) already exceed it. *)

From S2P Require Import Prelude PyValue Json UpdateExpr Dynamo.
From S2P Require Import CreateUser DeleteUser UpdateUser Api.

(** Whether boto3 can send the body of a request: a create or an
    update sends its body, a dict whose values must be storable; a
    delete sends no body. *)
Definition body_storable (r : request) : bool :=
  match r with
  | Create ev | Update ev =>
      match body_dict ev with Some d => storable_dict d | None => false end
  | Delete _ => true
  end.

Section KeyLimit.
Context `{TableLaws T}.

(** The steps of the update handler before its request, on an event
    whose fields are those given. *)
Lemma update_handler_key (event p : pyval) (k s : pystr) (d : list (pystr * pyval)) (t : T) :
  getitem event (u "pathParameters") = Ok p -> getitem p (u "id") = Ok (PStr k) ->
  getitem event (u "body") = Ok (PStr s) -> json_loads_str s = Ok (PDict d) ->
  exists ex, update_user.lambda_handler event t
  = (update_item (PStr k) ex (update_user.build_update d (u "SET ") []).2 ;;
     ret (api_response 200 (u "User " ++ k ++ u " updated"))) t.
Proof.
  intros Hp Hid Hb Hjs. unfold update_user.lambda_handler. rewrite Hp. simpl_py. rewrite Hid.
  simpl_py. rewrite Hb. simpl_py. cbn [json_loads]. rewrite Hjs. simpl_py. cbn [items]. simpl_py.
  destruct (update_user.build_update d (u "SET ") []) as [e a]. by eexists.
Qed.

(** C25. An [id] outside DynamoDB's key limits (empty, or more than
    2048 bytes in UTF-8) makes every user handler raise
    [ValidationException] and leaves the table unchanged: a delete
    whose path carries it; a create whose body is a dict of storable
    values with that [id]; an update whose path carries it and whose
    body is a dict of storable values, whatever its keys. *)
Theorem long_id_refused (r : request) (k : pystr) (t : T) :
  request_id r = Some k -> key_ok k = false -> body_storable r = true ->
  handle r t = (Exc validation, t).
Proof.
  intros Hid Hk Hs. destruct r as [ev|ev|ev]; cbn [request_id body_storable handle] in *.
  - destruct (body_dict ev) as [d|] eqn:Hb; [|done].
    destruct (body_dict_Some ev d Hb) as (s & Hbs & Hjs).
    destruct (assoc (u "id") d) as [[]|] eqn:Hi; simplify_eq.
    destruct (serialize_dict_storable d Hs) as [a [Ha _]].
    rewrite (lambda_handler_dict ev t s d _ Hbs Hjs Hi). apply bind_run_exc.
    cbn [put_item]. rewrite Ha. unfold svc_call. rewrite put_item_err; [done|].
    exact (put_valid_long_key d a k Ha (json_loads_dict_wf s d Hjs) Hi Hk).
  - destruct (path_id_Some ev k Hid) as (p & Hp & Hpid).
    destruct (body_dict ev) as [d|] eqn:Hb; [|done].
    destruct (body_dict_Some ev d Hb) as (s & Hbs & Hjs).
    destruct (update_handler_key ev p k s d t Hp Hpid Hbs Hjs) as [ex ->].
    destruct (serialize_dict_storable d Hs) as [a [Ha _]].
    rewrite build_update_body by exact (json_loads_dict_wf s d Hjs). apply bind_run_exc.
    exact (update_item_long_key k ex _ _ t Hk (serialize_dict_rekey (cons 58) d a Ha)).
  - destruct (path_id_Some ev k Hid) as (p & Hp & Hpid).
    rewrite (DeleteUser.delete_handler_key ev p k t Hp Hpid).
    apply bind_run_exc. by apply delete_item_long_key.
Qed.
End KeyLimit.

(** ** Witness *)

(** 683 euro signs: 683 characters, 2049 bytes in UTF-8. *)
Definition euro_id : pystr := replicate 683 8364.

Definition euro_body : pystr := uq "{'id': '" ++ euro_id ++ uq "', 'age': 31}".

Lemma long_id_refused_witness :
  handle (Delete (path_event euro_id)) one_user = (Exc validation, one_user) /\
  handle (Create (PDict [(u "body", PStr euro_body)])) one_user = (Exc validation, one_user) /\
  handle (Update (update_event euro_id (uq "{'age': 31}"))) one_user = (Exc validation, one_user).
Proof. split_and!; apply (long_id_refused _ euro_id); vm_compute; reflexivity. Defined.
