(* ===== verification/Races.v ===== *)
(** * Races between the user handlers on one record

    Nothing in the handlers coordinates concurrent invocations (spec
    section 5): each sends one DynamoDB request, and DynamoDB applies
    single-item requests atomically.  What the outcome of a race is
    therefore depends on which request each handler sends:
    - [update_user] sends [UpdateItem] with [SET k = :k, ...], which
      overwrites the named fields only (spec section 3, UpdateFieldSet:
      field-level last-write-wins).  Two concurrent updates of one record
      whose bodies name different fields both take effect, in every
      interleaving ([concurrent_updates_merge]); had the update been a
      [put_item] of the body, or a read followed by a write, one of them
      would be lost.
    - [UpdateItem] creates a missing item, and [delete_user] deletes
      unconditionally.  An update racing a delete either loses (the
      record is gone) or recreates the record with the update's fields
      and its key only, the other fields gone ([update_delete_race]).

    Both are proved over the interleaving semantics [Concurrency.cstep]
    through the invariant [Concurrency.inv]: with two invocations, the
    operations reached the table in one of the two orders, and the
    result is that of the sequential run in that order. *)

From S2P Require Import Prelude PyValue Json UpdateExpr Dynamo.
From S2P Require Import CreateUser DeleteUser UpdateUser Api Concurrency.

(** The conditions under which DynamoDB accepts an update (those of
    [UpdateUser.update_user_merges]): the path carries an id within the
    key limits, and the body is a non-empty dict of storable values
    keyed by DynamoDB names, none reserved and none [id]. *)
Definition update_accepted (ev : pyval) (k : pystr) (d : list (pystr * pyval)) : Prop :=
  path_id ev = Some k /\ body_dict ev = Some d /\ key_ok k = true /\ d <> [] /\
  forallb update_key_ok d.*1 = true /\ storable_dict d = true.

Section Races.
Context `{TableLaws T}.

(** Field [f] of record [k] after an update with body [d] on [t]. *)
Definition updated_field (d : list (pystr * pyval)) (k : pystr) (t : T) (f : pystr) : option pyval :=
  match assoc f d with
  | Some v => Some v
  | None => match get_item k t with
            | Some _ => read_field k f t
            | None => if decide (f = u "id") then Some (PStr k) else None
            end
  end.

Lemma updated_field_comm (d1 d2 : list (pystr * pyval)) (k f : pystr) (t : T) :
  d1.*1 ## d2.*1 -> updated_field (d1 ++ d2) k t f = updated_field (d2 ++ d1) k t f.
Proof. intros Hd. unfold updated_field. by rewrite assoc_app_comm. Qed.

(** One accepted update, as an invocation. *)
Lemma update_step (ev : pyval) (k : pystr) (d : list (pystr * pyval)) (t : T) :
  update_accepted ev k d ->
  exists t', handle (Update ev) t = (Ok (api_response 200 (u "User " ++ k ++ u " updated")), t')
    /\ is_Some (get_item k t')
    /\ forall k' f, read_field k' f t' = if decide (k' = k) then updated_field d k t f else read_field k' f t.
Proof.
  intros (Hid & Hb & Hk & Hne & Hok & Hs).
  destruct (path_id_Some ev k Hid) as (p & Hp & Hpid).
  destruct (body_dict_Some ev d Hb) as (s & Hbs & Hjs).
  destruct (update_run ev p t k s d Hp Hpid Hk Hbs Hjs (json_loads_dict_wf s d Hjs) Hne Hok Hs)
    as (t' & Hrun & [it Hit] & Hf).
  exists t'. split_and!; [done|unfold get_item; rewrite Hit; by eexists|done].
Qed.

(** One delete of an id within the key limits, as an invocation. *)
Lemma delete_step (ev : pyval) (k : pystr) (t : T) :
  path_id ev = Some k -> key_ok k = true ->
  exists t', handle (Delete ev) t = (Ok (api_response 200 (u "User " ++ k ++ u " deleted")), t')
    /\ get_item k t' = None
    /\ forall k' f, k' <> k -> read_field k' f t' = read_field k' f t.
Proof.
  intros Hid Hk. destruct (path_id_Some ev k Hid) as (p & Hp & Hpid).
  destruct (delete_run ev p k t Hp Hpid Hk) as (t' & Hrun & Hget).
  exists t'. split_and!; [done|unfold get_item; by rewrite Hget, decide_True|].
  intros k' f Hne. unfold read_field, get_item. by rewrite Hget, decide_False.
Qed.

(** Two accepted updates of record [k], one after the other: the record
    is as after one update with both bodies, the later one winning. *)
Lemma update_update (ev1 ev2 : pyval) (k : pystr) (d1 d2 : list (pystr * pyval)) (t : T) :
  update_accepted ev1 k d1 -> update_accepted ev2 k d2 ->
  exists t2, run_all [Update ev1; Update ev2] t
    = ([Ok (api_response 200 (u "User " ++ k ++ u " updated"));
        Ok (api_response 200 (u "User " ++ k ++ u " updated"))], t2)
    /\ (forall f, read_field k f t2 = updated_field (d2 ++ d1) k t f)
    /\ (forall k' f, k' <> k -> read_field k' f t2 = read_field k' f t).
Proof.
  intros H1 H2. destruct (update_step ev1 k d1 t H1) as (t1 & Hr1 & [x Hx] & Hf1).
  destruct (update_step ev2 k d2 t1 H2) as (t2 & Hr2 & _ & Hf2).
  exists t2. cbn [run_all]. rewrite Hr1, Hr2. split_and!; [done| |].
  - intros f. rewrite Hf2, decide_True by done. unfold updated_field at 1 2.
    rewrite assoc_app, Hx. destruct (assoc f d2); [done|]. by rewrite Hf1, decide_True.
  - intros k' f Hne. by rewrite Hf2, decide_False, Hf1, decide_False.
Qed.

(** An accepted update then a delete of its record: the record is gone. *)
Lemma update_delete (evu evd : pyval) (k : pystr) (d : list (pystr * pyval)) (t : T) :
  update_accepted evu k d -> path_id evd = Some k ->
  exists t2, run_all [Update evu; Delete evd] t
    = ([Ok (api_response 200 (u "User " ++ k ++ u " updated"));
        Ok (api_response 200 (u "User " ++ k ++ u " deleted"))], t2)
    /\ get_item k t2 = None
    /\ (forall k' f, k' <> k -> read_field k' f t2 = read_field k' f t).
Proof.
  intros Hu Hd. pose proof Hu as (_ & _ & Hk & _).
  destruct (update_step evu k d t Hu) as (t1 & Hr1 & _ & Hf1).
  destruct (delete_step evd k t1 Hd Hk) as (t2 & Hr2 & Hg2 & Hf2).
  exists t2. cbn [run_all]. rewrite Hr1, Hr2. split_and!; [done|done|].
  intros k' f Hne. by rewrite Hf2, Hf1, decide_False.
Qed.

(** A delete then an accepted update of the same record: the update
    recreates it with its body's fields and its key only. *)
Lemma delete_update (evu evd : pyval) (k : pystr) (d : list (pystr * pyval)) (t : T) :
  update_accepted evu k d -> path_id evd = Some k ->
  exists t2, run_all [Delete evd; Update evu] t
    = ([Ok (api_response 200 (u "User " ++ k ++ u " deleted"));
        Ok (api_response 200 (u "User " ++ k ++ u " updated"))], t2)
    /\ (forall f, read_field k f t2 =
          match assoc f d with
          | Some v => Some v
          | None => if decide (f = u "id") then Some (PStr k) else None
          end)
    /\ (forall k' f, k' <> k -> read_field k' f t2 = read_field k' f t).
Proof.
  intros Hu Hd. pose proof Hu as (_ & _ & Hk & _).
  destruct (delete_step evd k t Hd Hk) as (t1 & Hr1 & Hg1 & Hf1).
  destruct (update_step evu k d t1 Hu) as (t2 & Hr2 & _ & Hf2).
  exists t2. cbn [run_all]. rewrite Hr1, Hr2. split_and!; [done| |].
  - intros f. rewrite Hf2, decide_True by done. unfold updated_field. by rewrite Hg1.
  - intros k' f Hne. by rewrite Hf2, decide_False, Hf1.
Qed.

(** A finished interleaving of two invocations ran them in one of the
    two orders. *)
Lemma two_interleavings (r1 r2 : request) (t : T) (c : config) :
  rtc cstep (initial [r1; r2] t) c -> forallb finished (cthreads c) = true ->
  (clog c = [0; 1]%nat /\ run_all [r1; r2] t = (logged_outcomes c, ctable c)) \/
  (clog c = [1; 0]%nat /\ run_all [r2; r1] t = (logged_outcomes c, ctable c)).
Proof.
  intros Hr Hf. pose proof (inv_reachable _ _ _ Hr) as Hinv.
  pose proof (inv_finished_log _ _ _ Hinv Hf) as Hp. pose proof (inv_run _ _ _ Hinv) as Hrun.
  cbn in Hp. symmetry in Hp. apply Permutation_length_2_inv in Hp as [Hl|Hl];
    rewrite Hl in Hrun; cbn in Hrun; [left|right]; done.
Qed.

(** C18. Two concurrent updates of record [k], both accepted by
    DynamoDB, whose bodies name different fields: in every interleaving
    that finishes them, both answer 200 and the record is as after one
    update with both bodies (the fields of each body set, the record's
    other fields kept, or only its key if it did not exist); every other
    record is as before.  No update is lost. *)
Theorem concurrent_updates_merge (ev1 ev2 : pyval) (k : pystr) (d1 d2 : list (pystr * pyval))
  (t : T) (c : config) :
  update_accepted ev1 k d1 -> update_accepted ev2 k d2 -> d1.*1 ## d2.*1 ->
  rtc cstep (initial [Update ev1; Update ev2] t) c -> forallb finished (cthreads c) = true ->
  logged_outcomes c = [Ok (api_response 200 (u "User " ++ k ++ u " updated"));
                       Ok (api_response 200 (u "User " ++ k ++ u " updated"))]
  /\ (forall f, read_field k f (ctable c) = updated_field (d1 ++ d2) k t f)
  /\ (forall k' f, k' <> k -> read_field k' f (ctable c) = read_field k' f t).
Proof.
  intros H1 H2 Hd Hr Hf.
  destruct (two_interleavings _ _ t c Hr Hf) as [[_ Hrun]|[_ Hrun]].
  - destruct (update_update ev1 ev2 k d1 d2 t H1 H2) as (t2 & Hr2 & Hk & Hk').
    rewrite Hr2 in Hrun. injection Hrun as <- <-. split_and!; [done| |done].
    intros f. rewrite Hk. symmetry. by apply updated_field_comm.
  - destruct (update_update ev2 ev1 k d2 d1 t H2 H1) as (t2 & Hr2 & Hk & Hk').
    rewrite Hr2 in Hrun. by injection Hrun as <- <-.
Qed.

(** C19. An accepted update and a delete of the same record, racing:
    both answer 200 in every interleaving that finishes them, and either
    the update reached DynamoDB first and the record is gone, or the
    delete did and the update recreated the record holding only its
    key and the update's fields, every earlier field lost; every other
    record is as before. *)
Theorem update_delete_race (evu evd : pyval) (k : pystr) (d : list (pystr * pyval))
  (t : T) (c : config) :
  update_accepted evu k d -> path_id evd = Some k ->
  rtc cstep (initial [Update evu; Delete evd] t) c -> forallb finished (cthreads c) = true ->
  ((clog c = [0; 1]%nat /\ get_item k (ctable c) = None) \/
   (clog c = [1; 0]%nat /\ forall f, read_field k f (ctable c) =
      match assoc f d with
      | Some v => Some v
      | None => if decide (f = u "id") then Some (PStr k) else None
      end))
  /\ logged_outcomes c ≡ₚ [Ok (api_response 200 (u "User " ++ k ++ u " updated"));
                           Ok (api_response 200 (u "User " ++ k ++ u " deleted"))]
  /\ (forall k' f, k' <> k -> read_field k' f (ctable c) = read_field k' f t).
Proof.
  intros Hu Hd Hr Hf.
  destruct (two_interleavings _ _ t c Hr Hf) as [[Hl Hrun]|[Hl Hrun]].
  - destruct (update_delete evu evd k d t Hu Hd) as (t2 & Hr2 & Hg & Hk').
    rewrite Hr2 in Hrun. injection Hrun as <- <-. split_and!; [by left|done|done].
  - destruct (delete_update evu evd k d t Hu Hd) as (t2 & Hr2 & Hk & Hk').
    rewrite Hr2 in Hrun. injection Hrun as <- <-. split_and!; [by right| |done].
    apply Permutation_swap.
Qed.
End Races.

(** ** Witnesses *)

(** Discharges [update_accepted] on a concrete event by evaluation. *)
Ltac solve_accepted :=
  split_and!; [vm_compute; reflexivity|vm_compute; reflexivity|vm_compute; reflexivity
              |discriminate|vm_compute; reflexivity|vm_compute; reflexivity].

(** Two updates of [u1] on [update_table], with bodies naming different
    fields, whose plans are both computed before either reaches the
    table; the second reaches it first. *)
Definition two_updates : list request :=
  [Update (update_event (u "u1") (uq "{'email': 'a@b.c'}"));
   Update (update_event (u "u1") (uq "{'age': 31}"))].

Definition two_updates_end : config :=
  run_schedule [0; 1; 1; 0]%nat (initial two_updates update_table).

Lemma concurrent_updates_merge_witness :
  forallb finished (cthreads two_updates_end) = true /\
  logged_outcomes two_updates_end
    = [Ok (api_response 200 (u "User " ++ u "u1" ++ u " updated"));
       Ok (api_response 200 (u "User " ++ u "u1" ++ u " updated"))] /\
  (forall f, read_field (u "u1") f (ctable two_updates_end)
     = updated_field ([(u "email", PStr (u "a@b.c"))] ++ [(u "age", PInt 31)]) (u "u1") update_table f) /\
  (forall k' f, k' <> u "u1" -> read_field k' f (ctable two_updates_end) = read_field k' f update_table).
Proof.
  split; [vm_compute; reflexivity|].
  apply (concurrent_updates_merge (update_event (u "u1") (uq "{'email': 'a@b.c'}"))
           (update_event (u "u1") (uq "{'age': 31}")) (u "u1") [(u "email", PStr (u "a@b.c"))] [(u "age", PInt 31)]).
  - solve_accepted.
  - solve_accepted.
  - cbn. intros x H1 H2. apply list_elem_of_singleton in H1, H2. rewrite H1 in H2.
    vm_compute in H2. discriminate.
  - apply run_schedule_rtc.
  - vm_compute. reflexivity.
Defined.

(** An update of [u1] and a delete of [u1] on [update_table]; the
    delete reaches the table first. *)
Definition update_and_delete : list request :=
  [Update (update_event (u "u1") (uq "{'age': 31}")); Delete (path_event (u "u1"))].

Definition update_and_delete_end : config :=
  run_schedule [0; 1; 1; 0]%nat (initial update_and_delete update_table).

Lemma update_delete_race_witness :
  forallb finished (cthreads update_and_delete_end) = true /\
  clog update_and_delete_end = [1; 0]%nat /\
  (forall f, read_field (u "u1") f (ctable update_and_delete_end) =
     match assoc f [(u "age", PInt 31)] with
     | Some v => Some v
     | None => if decide (f = u "id") then Some (PStr (u "u1")) else None
     end).
Proof.
  assert (Hfin : forallb finished (cthreads update_and_delete_end) = true) by (vm_compute; reflexivity).
  assert (Hlog : clog update_and_delete_end = [1; 0]%nat) by (vm_compute; reflexivity).
  split; [exact Hfin|split; [exact Hlog|]].
  destruct (update_delete_race (update_event (u "u1") (uq "{'age': 31}")) (path_event (u "u1")) (u "u1") [(u "age", PInt 31)] update_table update_and_delete_end)
    as [[[Hl _]|[_ Hf]] _].
  - solve_accepted.
  - reflexivity.
  - apply run_schedule_rtc.
  - exact Hfin.
  - rewrite Hlog in Hl. discriminate.
  - exact Hf.
Defined.
